(** * JanMat platform: the vote and signature ledger

    A shallow embedding of the backend controllers
    ([VoteController.ts], [PetitionController.ts], [PollController.ts], the
    admin and results routes) and of the Mongoose models they act on.

    A request handler is an [async] function: it runs atomically between two
    [await]s, and every [await] is one operation of the document store.  A
    handler is therefore embedded as a program [Prog] that is either finished
    or waiting on one store operation, with the rest of the handler as the
    continuation.  [run] executes one handler from its first to its last
    [await] with nothing in between; [interleave] lets two handlers take turns
    at their [await]s, which is all the concurrency Node's event loop has.

    The store is Mongoose over MongoDB: a [save()] validates the whole
    document against its schema before it writes what changed, stamps
    [updatedAt], and meets the indexes of the collection.  Numbers are
    doubles where the handlers compute percentages. *)

From Stdlib Require Import ZArith NArith QArith Qround Qabs Qpower String Ascii List Lia Lqa.
From stdpp Require Import base option gmap.
From stdpp Require Import strings pretty.
Import ListNotations.

Local Open Scope string_scope.
Local Open Scope Z_scope.

(** ** JavaScript values *)

(** A field of a JSON request body holding a string: absent or a string. *)
Definition JsString := option string.

(** JavaScript truthiness of such a field: [undefined] and [""] are falsy. *)
Definition truthy (v : JsString) : bool :=
  match v with
  | None => false
  | Some s => negb (String.eqb s "")
  end.

(** [a || b] on strings, where [b] is a string. *)
Definition js_or (a : JsString) (b : string) : string :=
  match a with
  | Some s => if String.eqb s "" then b else s
  | None => b
  end.

(** A field of a JSON request body that the handler uses as it comes, of
    whatever type the client sent.  [JsNumber] holds an integer below 10^21; a
    number with a fraction is truthy, is no string and is cast to a string just
    as a nonzero integer is.  [JsObject] is an object or an array, with its
    [_id] when that is a string. *)
Inductive JsValue :=
| JsUndefined
| JsNull
| JsBool (b : bool)
| JsNumber (n : Z)
| JsText (s : string)
| JsObject (_id : option string).

(** JavaScript truthiness. *)
Definition js_truthy (v : JsValue) : bool :=
  match v with
  | JsUndefined | JsNull => false
  | JsBool b => b
  | JsNumber n => negb (Z.eqb n 0)
  | JsText s => negb (String.eqb s "")
  | JsObject _ => true
  end.

(** [s === v] for a string [s]: only a string can be strictly equal to it. *)
Definition strict_equal (s : string) (v : JsValue) : bool :=
  match v with
  | JsText t => String.eqb s t
  | _ => false
  end.

(** Mongoose's cast of a value assigned to a [String] path: a number or a
    boolean becomes its [toString()], an object its string [_id]; any other
    object or array is a [CastError], here [None]. *)
Definition cast_string (v : JsValue) : option string :=
  match v with
  | JsText s => Some s
  | JsNumber n => Some (pretty n)
  | JsBool b => Some (if b then "true" else "false")
  | JsObject (Some i) => Some i
  | JsObject None => None
  | JsUndefined | JsNull => None
  end.

(** The length of a JavaScript string, in UTF-16 code units, of a string held
    here as its UTF-8 bytes: one unit per character, two for a character
    outside the basic plane (a four-byte sequence). *)
Fixpoint utf16_length (s : string) : nat :=
  match s with
  | EmptyString => 0
  | String c s' =>
      let n := N_of_ascii c in
      ((if (n <? 128)%N then 1
        else if (n <? 192)%N then 0
        else if (n <? 240)%N then 1
        else 2) + utf16_length s')%nat
  end.

(** A [Date] is its number of milliseconds since the epoch. *)
Definition Date := Z.

(** ** ObjectIds *)

(** An ObjectId is twelve bytes, here the number they spell. *)
Definition ObjectId := N.

Definition hex_digit (c : ascii) : option N :=
  let n := N_of_ascii c in
  if ((48 <=? n) && (n <=? 57))%N then Some (n - 48)%N
  else if ((97 <=? n) && (n <=? 102))%N then Some (n - 87)%N
  else if ((65 <=? n) && (n <=? 70))%N then Some (n - 55)%N
  else None.

Fixpoint hex_value (acc : N) (s : string) : option N :=
  match s with
  | EmptyString => Some acc
  | String c s' =>
      match hex_digit c with
      | Some d => hex_value (16 * acc + d) s'
      | None => None
      end
  end%N.

(** Mongoose's cast of a request string to an ObjectId: 24 hexadecimal
    digits. *)
Definition castObjectId (s : string) : option ObjectId :=
  if Nat.eqb (String.length s) 24 then hex_value 0%N s else None.

(** [mongoose.Types.ObjectId.isValid] on a string taken from the URL. *)
Definition ObjectId_isValid (s : string) : bool :=
  match castObjectId s with Some _ => true | None => false end.

(** ** Documents *)

(** [IOption] of the Poll model. *)
Record IOption := {
  opt_id : string;
  opt_text : string
}.

Inductive PollType := yes_no | multiple_choice | rating_poll | emoji_poll.

(** [IPoll]: the fields the ledger reads or writes, and [updatedAt], which
    the schema's [timestamps] option has every modifying [save()] rewrite.  A
    document's [_id] is the key it is stored under. *)
Record Poll := {
  poll_title : string;
  poll_type : PollType;
  options : list IOption;
  isActive : bool;
  startDate : Date;
  endDate : Date;
  totalVotes : Z;
  poll_updatedAt : Date
}.

(** [poll.totalVotes = n] on a loaded document. *)
Definition set_totalVotes (p : Poll) (n : Z) : Poll :=
  {| poll_title := poll_title p; poll_type := poll_type p;
     options := options p; isActive := isActive p; startDate := startDate p;
     endDate := endDate p; totalVotes := n; poll_updatedAt := poll_updatedAt p |}.

Definition set_poll_updatedAt (p : Poll) (now : Date) : Poll :=
  {| poll_title := poll_title p; poll_type := poll_type p;
     options := options p; isActive := isActive p; startDate := startDate p;
     endDate := endDate p; totalVotes := totalVotes p; poll_updatedAt := now |}.

Record VoteMetadata := {
  md_state : JsString;
  md_city : JsString;
  md_ageGroup : JsString;
  md_gender : JsString;
  md_timestamp : Date
}.

(** [IVote], with the [updatedAt] the schema's [timestamps] option adds next
    to [createdAt]. *)
Record Vote := {
  vote_id : ObjectId;
  userId : string;
  pollId : ObjectId;
  selectedOption : string;
  rating : option Q;
  emoji : JsString;
  metadata : VoteMetadata;
  isValid : bool;
  createdAt : Date;
  vote_updatedAt : Date
}.

(** The three assignments of [updateVote] on a loaded vote document. *)
Definition set_choice (v : Vote) (o : string) (r : option Q) (e : JsString) : Vote :=
  {| vote_id := vote_id v; userId := userId v; pollId := pollId v;
     selectedOption := o; rating := r; emoji := e;
     metadata := metadata v; isValid := isValid v; createdAt := createdAt v;
     vote_updatedAt := vote_updatedAt v |}.

Definition set_vote_updatedAt (v : Vote) (now : Date) : Vote :=
  {| vote_id := vote_id v; userId := userId v; pollId := pollId v;
     selectedOption := selectedOption v; rating := rating v; emoji := emoji v;
     metadata := metadata v; isValid := isValid v; createdAt := createdAt v;
     vote_updatedAt := now |}.

Record Supporter := {
  sup_userId : string;
  signedAt : Date;
  sup_message : JsString
}.

Record TimelineEntry := {
  event : string;
  date : Date;
  details : JsString
}.

(** [IPetition]: the fields the ledger reads or writes.  [status] is a string:
    the schema's enum is checked by validators, and [findByIdAndUpdate] runs
    none. *)
Record Petition := {
  pet_title : string;
  signatures : Z;
  signaturesRequired : Z;
  status : string;
  supporters : list Supporter;
  timeline : list TimelineEntry;
  adminNotes : JsString;
  updatedAt : Date
}.

(** ** The document store *)

Record Store := {
  polls : gmap N Poll;
  votes : list Vote;
  petitions : gmap N Petition;
  nextId : N
}.

Inductive StoreError :=
| CastError
| ValidationError
| DuplicateKey
| DocumentNotFound.

(** The fields handed to [new Vote({...})]. *)
Record NewVote := {
  nv_userId : string;
  nv_pollId : ObjectId;
  nv_selectedOption : string;
  nv_rating : option Q;
  nv_emoji : JsString;
  nv_metadata : VoteMetadata
}.

(** The query object [voteFilter] of the results routes, next to its
    [pollId]. *)
Record VoteFilter := {
  vf_state : JsString;
  vf_ageGroup : JsString;
  vf_gender : JsString
}.

(** The operations the handlers await.  An id is already an ObjectId here: the
    cast of a request string is [castObjectId], done by the handler where the
    source builds the query, and a string that is no ObjectId makes that query
    throw.  A [save()] of a loaded document carries that document as the
    handler loaded it, next to what the handler changed on it: Mongoose
    validates the whole document the handler holds, then writes the paths that
    were modified; [now] is the time the [timestamps] option stamps. *)
Inductive StoreOp :=
| Poll_findById (id : ObjectId)
| Poll_save_totalVotes (id : ObjectId) (loaded : Poll) (n : Z) (now : Date)
| Vote_findOne (user : string) (poll : ObjectId)
| Vote_findById (id : ObjectId)
| Vote_find (poll : ObjectId) (f : VoteFilter)
| Vote_save_new (doc : NewVote)
| Vote_save_choice (loaded doc : Vote) (now : Date)
| Vote_findByIdAndDelete (id : ObjectId)
| Petition_findById (id : ObjectId)
| Petition_save_signature (id : ObjectId) (loaded : Petition) (s : Supporter) (n : Z)
    (e : TimelineEntry)
| Petition_findByIdAndUpdate (id : ObjectId) (st notes : JsString) (now : Date)
    (e : TimelineEntry).

Inductive StoreResult :=
| RPoll (p : option Poll)
| RVote (v : option Vote)
| RVotes (vs : list Vote)
| RPetition (p : option Petition)
| RDone
| RThrow (e : StoreError).

(** *** Schema validators *)

Definition nonempty (s : string) : bool := negb (String.eqb s "").

Definition in_enum (values : list string) (v : JsString) : bool :=
  match v with
  | None => true
  | Some s => existsb (String.eqb s) values
  end.

Definition ageGroup_enum : list string := ["18-25"; "26-35"; "36-45"; "46-55"; "56+"].
Definition gender_enum : list string := ["Male"; "Female"; "Other"; "Prefer not to say"].

(** [rating: { type: Number, min: 1, max: 10 }]. *)
Definition rating_ok (r : option Q) : bool :=
  match r with
  | None => true
  | Some q => Qle_bool 1 q && Qle_bool q 10
  end.

(** [maxlength: n]: Mongoose compares the string's [length]. *)
Definition maxlength (n : nat) (v : JsString) : bool :=
  match v with
  | None => true
  | Some s => Nat.leb (utf16_length s) n
  end.

(** The validators of [VoteSchema] that can fail on a new vote. *)
Definition validate_new_vote (d : NewVote) : bool :=
  nonempty (nv_userId d) && nonempty (nv_selectedOption d) && rating_ok (nv_rating d)
  && in_enum ageGroup_enum (md_ageGroup (nv_metadata d))
  && in_enum gender_enum (md_gender (nv_metadata d)).

(** The same validators on a loaded vote: [vote.save()] validates the whole
    document, not only the paths [updateVote] assigned. *)
Definition validate_vote (v : Vote) : bool :=
  nonempty (userId v) && nonempty (selectedOption v) && rating_ok (rating v)
  && in_enum ageGroup_enum (md_ageGroup (metadata v))
  && in_enum gender_enum (md_gender (metadata v)).

(** The validator of [options] in [PollSchema]; [type] is its [this.type]. *)
Definition options_validator (type : PollType) (options : list IOption) : bool :=
  match type with
  | yes_no => Nat.eqb (List.length options) 2
  | _ => Nat.leb 2 (List.length options) && Nat.leb (List.length options) 6
  end.

(** [OptionSchema]: [id] and [text] are required. *)
Definition validate_option (o : IOption) : bool :=
  nonempty (opt_id o) && nonempty (opt_text o).

(** The validators of [PollSchema] on the fields of [Poll]: [poll.save()]
    validates the whole document, whatever the handler changed on it.  The
    dates are required and here always present, [type] is in its enum by its
    type. *)
Definition validate_poll (p : Poll) : bool :=
  nonempty (poll_title p) && maxlength 200 (Some (poll_title p))
  && options_validator (poll_type p) (options p)
  && forallb validate_option (options p).

(** The validators of a [supporters] element. *)
Definition validate_supporter (s : Supporter) : bool :=
  nonempty (sup_userId s) && maxlength 500 (sup_message s).

Definition statuses : list string := ["active"; "submitted"; "resolved"; "rejected"].

(** The validators of [PetitionSchema] on the fields of [Petition]:
    [petition.save()] validates the whole document. *)
Definition validate_petition (p : Petition) : bool :=
  nonempty (pet_title p) && maxlength 200 (Some (pet_title p))
  && existsb (String.eqb (status p)) statuses
  && forallb validate_supporter (supporters p)
  && forallb (fun e => nonempty (event e)) (timeline p).

(** *** Queries *)

Definition same_vote_key (u : string) (p : ObjectId) (v : Vote) : bool :=
  String.eqb (userId v) u && N.eqb (pollId v) p.

Definition has_id (i : ObjectId) (v : Vote) : bool := N.eqb (vote_id v) i.

Definition on_poll (p : ObjectId) (v : Vote) : bool := N.eqb (pollId v) p.

(** A condition [voteFilter['metadata.x'] = x] that is only there when the
    query parameter is. *)
Definition field_matches (want have : JsString) : bool :=
  match want with
  | None => true
  | Some w => match have with Some h => String.eqb h w | None => false end
  end.

Definition matches_filter (p : ObjectId) (f : VoteFilter) (v : Vote) : bool :=
  on_poll p v
  && field_matches (vf_state f) (md_state (metadata v))
  && field_matches (vf_ageGroup f) (md_ageGroup (metadata v))
  && field_matches (vf_gender f) (md_gender (metadata v)).

(** Removes the first row the predicate holds of: a delete of one document. *)
Fixpoint remove_first (f : Vote -> bool) (l : list Vote) : list Vote :=
  match l with
  | [] => []
  | v :: l' => if f v then l' else v :: remove_first f l'
  end.

(** Rewrites the first row the predicate holds of: an update of one document. *)
Fixpoint update_first (f : Vote -> bool) (g : Vote -> Vote) (l : list Vote) : list Vote :=
  match l with
  | [] => []
  | v :: l' => if f v then g v :: l' else v :: update_first f g l'
  end.

Definition with_polls (s : Store) (m : gmap N Poll) : Store :=
  {| polls := m; votes := votes s; petitions := petitions s; nextId := nextId s |}.

Definition with_votes (s : Store) (l : list Vote) : Store :=
  {| polls := polls s; votes := l; petitions := petitions s; nextId := nextId s |}.

Definition with_petitions (s : Store) (m : gmap N Petition) : Store :=
  {| polls := polls s; votes := votes s; petitions := m; nextId := nextId s |}.

(** The document [vote.save()] writes for a new vote. *)
Definition make_vote (i : ObjectId) (d : NewVote) : Vote :=
  {| vote_id := i; userId := nv_userId d; pollId := nv_pollId d;
     selectedOption := nv_selectedOption d; rating := nv_rating d;
     emoji := nv_emoji d; metadata := nv_metadata d; isValid := true;
     createdAt := md_timestamp (nv_metadata d);
     vote_updatedAt := md_timestamp (nv_metadata d) |}.

(** What [poll.save()] makes of the stored poll after the handler assigned
    [totalVotes]: nothing when the value assigned is the one loaded, for then
    no path is modified; otherwise the counter and [updatedAt]. *)
Definition saved_poll (stored loaded : Poll) (n : Z) (now : Date) : Poll :=
  if Z.eqb n (totalVotes loaded) then stored
  else set_poll_updatedAt (set_totalVotes stored n) now.

(** Whether an assignment left a path as it was loaded. *)
Definition same_rating (a b : option Q) : bool :=
  match a, b with
  | Some x, Some y => Qeq_bool x y
  | None, None => true
  | _, _ => false
  end.

Definition same_string (a b : JsString) : bool :=
  match a, b with
  | Some x, Some y => String.eqb x y
  | None, None => true
  | _, _ => false
  end.

(** What [vote.save()] makes of the stored vote after [updateVote]'s three
    assignments turned the loaded document into [doc]: the paths whose value
    changed are written, and [updatedAt] with them; when none changed nothing
    is written. *)
Definition saved_vote (stored loaded doc : Vote) (now : Date) : Vote :=
  let o := String.eqb (selectedOption doc) (selectedOption loaded) in
  let r := same_rating (rating doc) (rating loaded) in
  let e := same_string (emoji doc) (emoji loaded) in
  if o && r && e then stored
  else
    set_vote_updatedAt
      (set_choice stored
         (if o then selectedOption stored else selectedOption doc)
         (if r then rating stored else rating doc)
         (if e then emoji stored else emoji doc))
      now.

(** [petition.save()] after [signPetition] changed the loaded document: the
    two pushes reach the store as pushes, the counter as the value the handler
    computed. *)
Definition push_signature (p : Petition) (s : Supporter) (n : Z) (e : TimelineEntry)
    : Petition :=
  {| pet_title := pet_title p; signatures := n;
     signaturesRequired := signaturesRequired p; status := status p;
     supporters := supporters p ++ [s]; timeline := timeline p ++ [e];
     adminNotes := adminNotes p; updatedAt := date e |}.

(** The update document of [updatePetitionStatus]; an [undefined] value sets
    nothing. *)
Definition apply_status_update (p : Petition) (st notes : JsString) (now : Date)
    (e : TimelineEntry) : Petition :=
  {| pet_title := pet_title p; signatures := signatures p;
     signaturesRequired := signaturesRequired p;
     status := match st with Some s => s | None => status p end;
     supporters := supporters p; timeline := timeline p ++ [e];
     adminNotes := match notes with Some n => Some n | None => adminNotes p end;
     updatedAt := now |}.

(** One operation of the store.  The unique index
    [VoteSchema.index({ userId: 1, pollId: 1 }, { unique: true })] is checked
    by [Vote_save_new]; the petition's [supporters] array has no index.  A
    [save()] throws a validation error, and writes nothing, when the document
    the handler holds fails a validator of its schema. *)
Definition exec (op : StoreOp) (s : Store) : StoreResult * Store :=
  match op with
  | Poll_findById i => (RPoll (polls s !! i), s)
  | Poll_save_totalVotes i loaded n now =>
      if negb (validate_poll (set_totalVotes loaded n)) then (RThrow ValidationError, s)
      else
        match polls s !! i with
        | None => (RThrow DocumentNotFound, s)
        | Some p => (RDone, with_polls s (<[i := saved_poll p loaded n now]> (polls s)))
        end
  | Vote_findOne u p => (RVote (List.find (same_vote_key u p) (votes s)), s)
  | Vote_findById i => (RVote (List.find (has_id i) (votes s)), s)
  | Vote_find p f => (RVotes (List.filter (matches_filter p f) (votes s)), s)
  | Vote_save_new d =>
      if negb (validate_new_vote d) then (RThrow ValidationError, s)
      else if existsb (same_vote_key (nv_userId d) (nv_pollId d)) (votes s)
      then (RThrow DuplicateKey, s)
      else
        let v := make_vote (nextId s) d in
        (RVote (Some v),
         {| polls := polls s; votes := votes s ++ [v];
            petitions := petitions s; nextId := N.succ (nextId s) |})
  | Vote_save_choice loaded d now =>
      if negb (validate_vote d) then (RThrow ValidationError, s)
      else if existsb (has_id (vote_id d)) (votes s)
      then (RDone,
            with_votes s
              (update_first (has_id (vote_id d))
                 (fun v => saved_vote v loaded d now)
                 (votes s)))
      else (RThrow DocumentNotFound, s)
  | Vote_findByIdAndDelete i =>
      (RDone, with_votes s (remove_first (has_id i) (votes s)))
  | Petition_findById i => (RPetition (petitions s !! i), s)
  | Petition_save_signature i loaded sup n e =>
      if negb (validate_petition (push_signature loaded sup n e))
      then (RThrow ValidationError, s)
      else
        match petitions s !! i with
        | None => (RThrow DocumentNotFound, s)
        | Some p =>
            (RDone, with_petitions s (<[i := push_signature p sup n e]> (petitions s)))
        end
  | Petition_findByIdAndUpdate i st notes now e =>
      match petitions s !! i with
      | None => (RPetition None, s)
      | Some p =>
          let p' := apply_status_update p st notes now e in
          (RPetition (Some p'), with_petitions s (<[i := p']> (petitions s)))
      end
  end.

(** ** Handlers as programs over the store *)

Inductive Prog (A : Type) : Type :=
| Ret (a : A)
| Await (op : StoreOp) (k : StoreResult -> Prog A).

Arguments Ret {A} a.
Arguments Await {A} op k.

(** A handler run alone: every [await] resumes at once. *)
Fixpoint run {A : Type} (p : Prog A) (s : Store) : A * Store :=
  match p with
  | Ret a => (a, s)
  | Await op k => let '(r, s') := exec op s in run (k r) s'
  end.

(** One turn of the event loop for a handler: up to its next [await]. *)
Definition resume {A : Type} (p : Prog A) (s : Store) : Prog A * Store :=
  match p with
  | Ret a => (Ret a, s)
  | Await op k => let '(r, s') := exec op s in (k r, s')
  end.

(** Two handlers in flight; the schedule says whose [await] resumes next
    ([false]: the first handler, [true]: the second). *)
Fixpoint interleave {A : Type} (sched : list bool) (p q : Prog A) (s : Store)
    : Prog A * Prog A * Store :=
  match sched with
  | [] => (p, q, s)
  | false :: sched' => let '(p', s') := resume p s in interleave sched' p' q s'
  | true :: sched' => let '(q', s') := resume q s in interleave sched' p q' s'
  end.

Arguments resume {A} !p s /.

Definition finished {A : Type} (p : Prog A) : option A :=
  match p with
  | Ret a => Some a
  | Await _ _ => None
  end.

(** *** Responses *)

(** One row of [results] in the results routes. *)
Record ResultRow := {
  optionId : string;
  optionText : string;
  row_votes : Z;
  percentage : Q
}.

(** The [data] of a response, where the ledger's handlers send one.  The
    derived [completionPercentage] of a signed petition is left out. *)
Inductive Data :=
| NoData
| VoteSummary (id poll : ObjectId) (selected : string) (timestamp : Date)
| VoteData (v : Vote)
| SignedData (id : ObjectId) (count : Z) (isAchieved : bool)
| PetitionData (p : Petition)
| ResultsData (id : ObjectId) (title : string) (total : Z) (results : list ResultRow).

Record Response := {
  code : Z;
  success : bool;
  message : string;
  data : Data
}.

Definition respond (c : Z) (ok : bool) (m : string) (d : Data) : Response :=
  {| code := c; success := ok; message := m; data := d |}.

(** *** Awaiting a store operation inside [try { ... } catch]

    The [catch] block of every handler answers with one fixed response, so an
    [await] that throws ends the handler with that response. *)

Definition await_poll {A : Type} (op : StoreOp) (catch : A)
    (k : option Poll -> Prog A) : Prog A :=
  Await op (fun r => match r with RPoll p => k p | _ => Ret catch end).

Definition await_vote {A : Type} (op : StoreOp) (catch : A)
    (k : option Vote -> Prog A) : Prog A :=
  Await op (fun r => match r with RVote v => k v | _ => Ret catch end).

Definition await_votes {A : Type} (op : StoreOp) (catch : A)
    (k : list Vote -> Prog A) : Prog A :=
  Await op (fun r => match r with RVotes vs => k vs | _ => Ret catch end).

Definition await_petition {A : Type} (op : StoreOp) (catch : A)
    (k : option Petition -> Prog A) : Prog A :=
  Await op (fun r => match r with RPetition p => k p | _ => Ret catch end).

Definition await_done {A : Type} (op : StoreOp) (catch : A)
    (k : unit -> Prog A) : Prog A :=
  Await op (fun r => match r with RDone => k tt | _ => Ret catch end).

(** The cast of a request string where a query is built from it. *)
Definition cast_id {A : Type} (s : string) (catch : A)
    (k : ObjectId -> Prog A) : Prog A :=
  match castObjectId s with
  | Some i => k i
  | None => Ret catch
  end.

Notation "'await' x <- m ; k" := (m (fun x => k))
  (at level 10, x name, m at level 9, k at level 200,
   format "'[v' 'await'  x  <-  m ; '/' k ']'").

(** [String(v)]: the string a field holds, as a template literal interpolates
    it; a truthy field is its own string. *)
Definition interpolate (v : JsString) : string :=
  match v with
  | Some s => s
  | None => "undefined"
  end.

(** ** VoteController *)

Record CastVoteReq := {
  cv_userId : JsString;
  cv_pollId : JsString;
  cv_selectedOption : JsString;
  cv_rating : option Q;
  cv_emoji : JsString;
  cv_state : JsString;
  cv_city : JsString;
  cv_ageGroup : JsString;
  cv_gender : JsString
}.

(** [poll.options.find(option => option.id === selectedOption)]. *)
Definition find_option (p : Poll) (o : string) : option IOption :=
  List.find (fun option => String.eqb (opt_id option) o) (options p).

(** [new Vote({ userId, pollId, selectedOption, rating, emoji, metadata })]. *)
Definition vote_document (req : CastVoteReq) (user : string) (pid : ObjectId)
    (selected : string) (now : Date) : NewVote :=
  {| nv_userId := user; nv_pollId := pid; nv_selectedOption := selected;
     nv_rating := cv_rating req; nv_emoji := cv_emoji req;
     nv_metadata :=
       {| md_state := cv_state req; md_city := cv_city req;
          md_ageGroup := cv_ageGroup req; md_gender := cv_gender req;
          md_timestamp := now |} |}.

(** [VoteController.castVote]; [now] is the handler's reading of the clock.
    Its [await]s, in order: [Poll.findById], [Vote.findOne], [vote.save()],
    [poll.save()]. *)
Definition castVote (req : CastVoteReq) (now : Date) : Prog Response :=
  let failed := respond 500 false "Failed to cast vote" NoData in
  if negb (truthy (cv_userId req)) || negb (truthy (cv_pollId req))
     || negb (truthy (cv_selectedOption req))
  then Ret (respond 400 false "Missing required fields: userId, pollId, selectedOption" NoData)
  else
    let user := interpolate (cv_userId req) in
    let selected := interpolate (cv_selectedOption req) in
    await pid <- (cast_id (interpolate (cv_pollId req)) failed);
    await poll <- (await_poll (Poll_findById pid) failed);
    match poll with
    | None => Ret (respond 404 false "Poll not found" NoData)
    | Some poll =>
        if negb (isActive poll)
        then Ret (respond 400 false "Poll is not active" NoData)
        else if Z.ltb (endDate poll) now
        then Ret (respond 400 false "Poll has ended" NoData)
        else
          match find_option poll selected with
          | None => Ret (respond 400 false "Invalid option selected" NoData)
          | Some _ =>
              await existingVote <- (await_vote (Vote_findOne user pid) failed);
              match existingVote with
              | Some _ =>
                  Ret (respond 400 false "You have already voted in this poll" NoData)
              | None =>
                  await saved <- (await_vote
                    (Vote_save_new (vote_document req user pid selected now)) failed);
                  match saved with
                  | None => Ret failed
                  | Some vote =>
                      await _u <- (await_done
                        (Poll_save_totalVotes pid poll (totalVotes poll + 1) now) failed);
                      Ret (respond 201 true "Vote cast successfully"
                             (VoteSummary (vote_id vote) (pollId vote)
                                (selectedOption vote) (createdAt vote)))
                  end
              end
          end
    end.

(** [uv_caller] is the [userId] a client may send along; the handler does not
    read it. *)
Record UpdateVoteReq := {
  uv_voteId : string;
  uv_caller : JsString;
  uv_selectedOption : JsString;
  uv_rating : option Q;
  uv_emoji : JsString
}.

(** [VoteController.updateVote]: [Vote.findById], [Poll.findById],
    [vote.save()]. *)
Definition updateVote (req : UpdateVoteReq) (now : Date) : Prog Response :=
  let failed := respond 500 false "Failed to update vote" NoData in
  await voteId <- (cast_id (uv_voteId req) failed);
  await vote <- (await_vote (Vote_findById voteId) failed);
  match vote with
  | None => Ret (respond 404 false "Vote not found" NoData)
  | Some vote =>
      await poll <- (await_poll (Poll_findById (pollId vote)) failed);
      match poll with
      | None => Ret (respond 404 false "Associated poll not found" NoData)
      | Some poll =>
          if negb (isActive poll) || Z.ltb (endDate poll) now
          then Ret (respond 400 false "Cannot update vote - poll is closed" NoData)
          else
            let vote' :=
              set_choice vote (js_or (uv_selectedOption req) (selectedOption vote))
                (uv_rating req) (uv_emoji req) in
            await _u <- (await_done (Vote_save_choice vote vote' now) failed);
            Ret (respond 200 true "Vote updated successfully"
                   (VoteData (saved_vote vote' vote vote' now)))
      end
  end.

(** [dv_caller] as [uv_caller]. *)
Record DeleteVoteReq := {
  dv_voteId : string;
  dv_caller : JsString
}.

(** [VoteController.deleteVote]: [Vote.findById], [Poll.findById],
    [Vote.findByIdAndDelete], [poll.save()]. *)
Definition deleteVote (req : DeleteVoteReq) (now : Date) : Prog Response :=
  let failed := respond 500 false "Failed to delete vote" NoData in
  await voteId <- (cast_id (dv_voteId req) failed);
  await vote <- (await_vote (Vote_findById voteId) failed);
  match vote with
  | None => Ret (respond 404 false "Vote not found" NoData)
  | Some vote =>
      await poll <- (await_poll (Poll_findById (pollId vote)) failed);
      match poll with
      | None => Ret (respond 404 false "Associated poll not found" NoData)
      | Some poll =>
          if negb (isActive poll) || Z.ltb (endDate poll) now
          then Ret (respond 400 false "Cannot delete vote - poll is closed" NoData)
          else
            await _d <- (await_done (Vote_findByIdAndDelete voteId) failed);
            await _u <- (await_done
              (Poll_save_totalVotes (pollId vote) poll (Z.max 0 (totalVotes poll - 1)) now)
              failed);
            Ret (respond 200 true "Vote deleted successfully" NoData)
      end
  end.

(** ** PetitionController *)

(** [userId] and [message] come from [req.body] and are used unchecked. *)
Record SignPetitionReq := {
  sp_petitionId : string;
  sp_userId : JsValue;
  sp_message : JsValue
}.

(** [petition.supporters.find(supporter => supporter.userId === userId)]: the
    stored [userId] is a string, the request's is what the client sent. *)
Definition find_supporter (p : Petition) (userId : JsValue) : option Supporter :=
  List.find (fun supporter => strict_equal (sup_userId supporter) userId) (supporters p).

(** The supporter entry [signPetition] pushes, [userId] and
    [message || undefined] cast to the strings the schema declares; [None]
    when one of them cannot be cast. *)
Definition new_supporter (req : SignPetitionReq) (now : Date) : option Supporter :=
  match cast_string (sp_userId req) with
  | None => None
  | Some u =>
      if js_truthy (sp_message req)
      then
        match cast_string (sp_message req) with
        | None => None
        | Some m => Some {| sup_userId := u; signedAt := now; sup_message := Some m |}
        end
      else Some {| sup_userId := u; signedAt := now; sup_message := None |}
  end.

Definition signature_entry (n : Z) (now : Date) : TimelineEntry :=
  {| event := "New Signature"; date := now;
     details := Some ("Total signatures reached: " ++ pretty n) |}.

(** [PetitionController.signPetition]: [Petition.findById],
    [petition.save()].  A pushed entry that cannot be cast makes
    [petition.save()] throw before anything is written. *)
Definition signPetition (req : SignPetitionReq) (now : Date) : Prog Response :=
  let failed := respond 500 false "Failed to sign petition" NoData in
  if negb (js_truthy (sp_userId req))
  then Ret (respond 400 false "User ID required" NoData)
  else if negb (ObjectId_isValid (sp_petitionId req))
  then Ret (respond 400 false "Invalid petition ID" NoData)
  else
    await pid <- (cast_id (sp_petitionId req) failed);
    await petition <- (await_petition (Petition_findById pid) failed);
    match petition with
    | None => Ret (respond 404 false "Petition not found" NoData)
    | Some petition =>
        if negb (String.eqb (status petition) "active")
        then Ret (respond 400 false "Cannot sign this petition - it is not active" NoData)
        else
          match find_supporter petition (sp_userId req) with
          | Some _ =>
              Ret (respond 400 false "You have already signed this petition" NoData)
          | None =>
              match new_supporter req now with
              | None => Ret failed
              | Some supporter =>
                  let n := signatures petition + 1 in
                  await _u <- (await_done
                    (Petition_save_signature pid petition supporter n
                       (signature_entry n now)) failed);
                  Ret (respond 200 true "Petition signed successfully"
                         (SignedData pid n (Z.leb (signaturesRequired petition) n)))
              end
          end
    end.

Record UpdateStatusReq := {
  us_id : string;
  us_status : JsString;
  us_adminNotes : JsString
}.

Definition status_entry (st : JsString) (now : Date) : TimelineEntry :=
  {| event := "Status Updated"; date := now;
     details := Some ("Status changed to " ++ interpolate st ++ " by admin") |}.

(** [PetitionController.updatePetitionStatus]. *)
Definition updatePetitionStatus (req : UpdateStatusReq) (now : Date) : Prog Response :=
  let failed := respond 500 false "Failed to update petition status" NoData in
  if negb (ObjectId_isValid (us_id req))
  then Ret (respond 400 false "Invalid petition ID" NoData)
  else
    await id <- (cast_id (us_id req) failed);
    await petition <- (await_petition
      (Petition_findByIdAndUpdate id (us_status req) (us_adminNotes req) now
         (status_entry (us_status req) now)) failed);
    match petition with
    | None => Ret (respond 404 false "Petition not found" NoData)
    | Some petition =>
        Ret (respond 200 true "Petition status updated successfully" (PetitionData petition))
    end.

(** [['active', 'submitted', 'resolved', 'rejected'].includes(status)]. *)
Definition includes_status (st : JsString) : bool :=
  match st with
  | Some s => existsb (String.eqb s) statuses
  | None => false
  end.

(** The admin route [PATCH /petitions/:id/status], which the dashboard and the
    mobile client call. *)
Definition patchPetitionStatus (req : UpdateStatusReq) (now : Date) : Prog Response :=
  let failed := respond 500 false "Failed to update petition status" NoData in
  if negb (includes_status (us_status req))
  then Ret (respond 400 false "Invalid status" NoData)
  else
    await id <- (cast_id (us_id req) failed);
    await petition <- (await_petition
      (Petition_findByIdAndUpdate id (us_status req) (us_adminNotes req) now
         (status_entry (us_status req) now)) failed);
    match petition with
    | None => Ret (respond 404 false "Petition not found" NoData)
    | Some petition =>
        Ret (respond 200 true "Petition status updated" (PetitionData petition))
    end.

(** ** Doubles

    JavaScript numbers are IEEE 754 doubles.  A finite double is embedded as
    the rational it denotes, and an arithmetic operation on doubles as the
    exact operation followed by rounding to the nearest number with 53
    significant bits, a tie going to the even one.  The exponent has no bounds
    here: the numbers of a tally are counts below 2^32, their quotients and
    percentages, all far from overflow and underflow. *)

Definition pow2 (e : Z) : Q := (2 ^ e)%Q.

(** The exponent [p] with [2^p <= x < 2^(p+1)], for a positive [x]. *)
Definition floor_log2 (x : Q) : Z :=
  let d := Z.log2 (Qnum x) - Z.log2 (Zpos (Qden x)) in
  if Qle_bool (pow2 d) x then d else d - 1.

(** The nearest integer, a tie going to the even one. *)
Definition round_half_even (x : Q) : Z :=
  let f := Qfloor x in
  match Qcompare (x - inject_Z f) (1 # 2) with
  | Lt => f
  | Gt => f + 1
  | Eq => if Z.even f then f else f + 1
  end.

(** The double nearest to [x]. *)
Definition double (x : Q) : Q :=
  if Qeq_bool x 0 then 0%Q
  else
    let e := floor_log2 (Qabs x) - 52 in
    Qred (inject_Z (round_half_even (x / pow2 e)) * pow2 e)%Q.

(** The unit roundoff of a double: 2^-53. *)
Definition unit_roundoff : Q := 1 # 9007199254740992.

(** [x / y] and [x * y] on doubles. *)
Definition double_div (x y : Q) : Q := double (x / y).
Definition double_mul (x y : Q) : Q := double (x * y).

(** ** Results: the tally of a poll *)

(** [Math.round]: the nearest integer, a tie going up. *)
Definition Math_round (x : Q) : Z := Qfloor (x + (1 # 2))%Q.

Definition count_option (o : string) (vs : list Vote) : Z :=
  Z.of_nat (List.length (List.filter (fun vote => String.eqb (selectedOption vote) o) vs)).

(** The body of [poll.options.map(option => ...)], in doubles:
    [(totalOptionVotes / votes.length) * 100], then
    [Math.round(percentage * 100) / 100]. *)
Definition result_row (vs : list Vote) (option : IOption) : ResultRow :=
  let totalOptionVotes := count_option (opt_id option) vs in
  let total := Z.of_nat (List.length vs) in
  let pct : Q :=
    if Z.ltb 0 total
    then double_mul (double_div (inject_Z totalOptionVotes) (inject_Z total)) 100
    else 0%Q in
  {| optionId := opt_id option; optionText := opt_text option;
     row_votes := totalOptionVotes;
     percentage := double_div (inject_Z (Math_round (double_mul pct 100))) 100 |}.

(** The doubles a row's percentage goes through, for [k] votes out of [n]:
    the quotient, the percentage, the percentage times 100, the rounded
    hundredths, and the percentage again. *)
Definition row_percentage (k n : Z) : Q :=
  double_div
    (inject_Z (Math_round
       (double_mul (double_mul (double_div (inject_Z k) (inject_Z n)) 100) 100))) 100.

Definition poll_results (p : Poll) (vs : list Vote) : list ResultRow :=
  List.map (result_row vs) (options p).

Record ResultsReq := {
  rq_id : string;
  rq_state : JsString;
  rq_ageGroup : JsString;
  rq_gender : JsString
}.

(** [if (state) voteFilter['metadata.state'] = state] and its two siblings. *)
Definition build_filter (req : ResultsReq) : VoteFilter :=
  {| vf_state := if truthy (rq_state req) then rq_state req else None;
     vf_ageGroup := if truthy (rq_ageGroup req) then rq_ageGroup req else None;
     vf_gender := if truthy (rq_gender req) then rq_gender req else None |}.

(** [PollController.getPollResults], without its demographic breakdown. *)
Definition getPollResults (req : ResultsReq) : Prog Response :=
  let failed := respond 500 false "Failed to fetch poll results" NoData in
  if negb (ObjectId_isValid (rq_id req))
  then Ret (respond 400 false "Invalid poll ID" NoData)
  else
    await id <- (cast_id (rq_id req) failed);
    await poll <- (await_poll (Poll_findById id) failed);
    match poll with
    | None => Ret (respond 404 false "Poll not found" NoData)
    | Some poll =>
        await found <- (await_votes (Vote_find id (build_filter req)) failed);
        Ret (respond 200 true ""
               (ResultsData id (poll_title poll) (Z.of_nat (List.length found))
                  (poll_results poll found)))
    end.

(** The results route [GET /polls/:pollId]. *)
Definition resultsRoute (req : ResultsReq) : Prog Response :=
  let failed := respond 500 false "Failed to fetch results" NoData in
  await id <- (cast_id (rq_id req) failed);
  await poll <- (await_poll (Poll_findById id) failed);
  match poll with
  | None => Ret (respond 404 false "Poll not found" NoData)
  | Some poll =>
      await found <- (await_votes (Vote_find id (build_filter req)) failed);
      Ret (respond 200 true ""
             (ResultsData id (poll_title poll) (Z.of_nat (List.length found))
                (poll_results poll found)))
  end.

(** ** Milestones (admin dashboard, [PetitionsManagement]) *)

Definition milestones : list Z := [100; 500; 1000; 5000; 10000; 50000].

(** [milestones.filter(m => signatures >= m).length]. *)
Definition getMilestones (signatures : Z) : Z :=
  Z.of_nat (List.length (List.filter (fun m => Z.geb signatures m) milestones)).

(** Modelled from the spec: the Milestone Engine's [Evaluate], which the
    repository does not have; the dashboard's [getMilestones] above is the only
    threshold computation in the source.  "[Evaluate(previousCount, newCount,
    thresholds)] -> crossed: list of thresholds where
    [previousCount < t <= newCount]". *)
Definition Evaluate (previousCount newCount : Z) (thresholds : list Z) : list Z :=
  List.filter (fun t => Z.ltb previousCount t && Z.leb t newCount) thresholds.

(** ** The specification's vocabulary, read off the responses *)

Definition Succeeded (r : Response) : Prop := success r = true.

Definition AlreadyVoted (r : Response) : Prop :=
  code r = 400 /\ message r = "You have already voted in this poll".

Definition AlreadySigned (r : Response) : Prop :=
  code r = 400 /\ message r = "You have already signed this petition".

Definition PollClosed (r : Response) : Prop :=
  code r = 400 /\ (message r = "Poll is not active" \/ message r = "Poll has ended").

Definition InvalidOption (r : Response) : Prop :=
  code r = 400 /\ message r = "Invalid option selected".

(** The catch-all answer of [castVote]'s [catch] block. *)
Definition cast_failed : Response := respond 500 false "Failed to cast vote" NoData.

(** A sequence of ledger operations on polls, each run to its end before the
    next starts. *)
Inductive LedgerOp :=
| CastVote (req : CastVoteReq) (now : Date)
| RetractVote (req : DeleteVoteReq) (now : Date).

Definition handler_of (op : LedgerOp) : Prog Response :=
  match op with
  | CastVote req now => castVote req now
  | RetractVote req now => deleteVote req now
  end.

Definition perform (s : Store) (op : LedgerOp) : Store := snd (run (handler_of op) s).

Definition perform_all (ops : list LedgerOp) (s : Store) : Store :=
  List.fold_left perform ops s.

(** The number of Vote rows referencing a poll. *)
Definition vote_rows (p : ObjectId) (s : Store) : Z :=
  Z.of_nat (List.length (List.filter (on_poll p) (votes s))).

(** Every poll's cached counter is the number of its vote rows. *)
Definition counters_consistent (s : Store) : Prop :=
  forall (p : ObjectId) (poll : Poll),
    polls s !! p = Some poll -> totalVotes poll = vote_rows p s.

(** Petition operations, each run to its end before the next starts. *)
Inductive PetitionOp :=
| SignPetition (req : SignPetitionReq) (now : Date)
| UpdatePetitionStatus (req : UpdateStatusReq) (now : Date).

Definition petition_handler (op : PetitionOp) : Prog Response :=
  match op with
  | SignPetition req now => signPetition req now
  | UpdatePetitionStatus req now => updatePetitionStatus req now
  end.

Definition perform_petition (s : Store) (op : PetitionOp) : Store :=
  snd (run (petition_handler op) s).

(** At most one supporter entry per participant, in every petition. *)
Definition supporters_unique (s : Store) : Prop :=
  forall (i : ObjectId) (p : Petition),
    petitions s !! i = Some p -> NoDup (List.map sup_userId (supporters p)).

(** Every stored vote's option is an option of its poll. *)
Definition option_of_poll (s : Store) (v : Vote) : Prop :=
  exists poll, polls s !! pollId v = Some poll
               /\ In (selectedOption v) (List.map opt_id (options poll)).

(** ** Sample data *)

Definition hex_id_1 : string := "000000000000000000000001".
Definition hex_id_7 : string := "000000000000000000000007".
Definition hex_id_100 : string := "000000000000000000000100".

Definition sample_poll : Poll :=
  {| poll_title := "Do you support the Digital India initiative?";
     poll_type := yes_no;
     options := [ {| opt_id := "yes"; opt_text := "Yes" |};
                  {| opt_id := "no"; opt_text := "No" |} ];
     isActive := true; startDate := 1000; endDate := 2000; totalVotes := 0;
     poll_updatedAt := 900 |}.

(** The sample poll after an update gave it a third option: [updatePoll]'s
    validators run without the document, so its [options] validator does not
    see the poll's type. *)
Definition three_option_poll : Poll :=
  {| poll_title := poll_title sample_poll; poll_type := yes_no;
     options := options sample_poll ++ [ {| opt_id := "maybe"; opt_text := "Maybe" |} ];
     isActive := true; startDate := 1000; endDate := 2000; totalVotes := 0;
     poll_updatedAt := 950 |}.

Definition three_option_store : Store :=
  {| polls := {[ 1%N := three_option_poll ]}; votes := []; petitions := ∅; nextId := 256%N |}.

Definition sample_store : Store :=
  {| polls := {[ 1%N := sample_poll ]}; votes := []; petitions := ∅; nextId := 256%N |}.

Definition cast_req (user option : string) : CastVoteReq :=
  {| cv_userId := Some user; cv_pollId := Some hex_id_1;
     cv_selectedOption := Some option; cv_rating := None; cv_emoji := None;
     cv_state := None; cv_city := None; cv_ageGroup := None; cv_gender := None |}.

(** ** Requests the ledger's gates let through *)

(** The request names its participant and its poll, and carries an option. *)
Definition names_vote (req : CastVoteReq) (user : string) (pid : ObjectId) : Prop :=
  truthy (cv_userId req) = true /\ interpolate (cv_userId req) = user
  /\ truthy (cv_pollId req) = true
  /\ castObjectId (interpolate (cv_pollId req)) = Some pid
  /\ truthy (cv_selectedOption req) = true.

(** The poll takes the request at [now]: active, not past its end date, the
    option one of its own, and the vote document valid under [VoteSchema]. *)
Definition takes (poll : Poll) (pid : ObjectId) (req : CastVoteReq) (now : Date) : Prop :=
  isActive poll = true /\ now <= endDate poll
  /\ is_Some (find_option poll (interpolate (cv_selectedOption req)))
  /\ validate_new_vote
       (vote_document req (interpolate (cv_userId req)) pid
          (interpolate (cv_selectedOption req)) now) = true.

(** The participant has no vote row on the poll yet. *)
Definition not_voted (s : Store) (user : string) (pid : ObjectId) : Prop :=
  List.find (same_vote_key user pid) (votes s) = None.

(** Both handlers read before either writes: the first handler's two reads,
    the second's two reads, the first's two writes, then the second's insert. *)
Definition reads_before_writes : list bool :=
  [false; false; true; true; false; false; true].

(** The same reads, but the second handler's insert comes first: its two
    writes, then the first handler's insert. *)
Definition reads_then_second_writes : list bool :=
  [false; false; true; true; true; true; false].

(** The turns of a schedule's first part are the two reads of each of the two
    handlers, in whatever order. *)
Definition both_read (reads : list bool) : Prop :=
  List.count_occ bool_dec reads false = 2%nat
  /\ List.count_occ bool_dec reads true = 2%nat.

(** Later turns that let both handlers finish. *)
Definition both_finish (rest : list bool) : Prop := In false rest /\ In true rest.

(** The row [castVote] inserts. *)
Definition cast_row (s : Store) (pid : ObjectId) (req : CastVoteReq) (now : Date) : Vote :=
  make_vote (nextId s)
    (vote_document req (interpolate (cv_userId req)) pid
       (interpolate (cv_selectedOption req)) now).

(** The store once [castVote]'s [vote.save()] has inserted the row. *)
Definition store_after_insert (s : Store) (pid : ObjectId) (req : CastVoteReq)
    (now : Date) : Store :=
  {| polls := polls s;
     votes := votes s ++ [cast_row s pid req now];
     petitions := petitions s;
     nextId := N.succ (nextId s) |}.

(** The poll as [poll.save()] stores it with a counter that changed. *)
Definition counted_poll (poll : Poll) (n : Z) (now : Date) : Poll :=
  set_poll_updatedAt (set_totalVotes poll n) now.

(** The store after [castVote] accepted a request: the new row, and the
    counter the handler computed from the poll it had loaded. *)
Definition store_after_cast (s : Store) (pid : ObjectId) (poll : Poll)
    (req : CastVoteReq) (now : Date) : Store :=
  {| polls := <[pid := counted_poll poll (totalVotes poll + 1) now]> (polls s);
     votes := votes s ++ [cast_row s pid req now];
     petitions := petitions s;
     nextId := N.succ (nextId s) |}.

(** The store [castVote] leaves when its poll takes the request: the row, and
    the counter when the save of the poll document passes its validators. *)
Definition store_after_castVote (s : Store) (pid : ObjectId) (poll : Poll)
    (req : CastVoteReq) (now : Date) : Store :=
  if validate_poll poll then store_after_cast s pid poll req now
  else store_after_insert s pid req now.

(** Every stored poll passes the validators of its schema. *)
Definition polls_valid (s : Store) : Prop :=
  forall (p : ObjectId) (poll : Poll), polls s !! p = Some poll -> validate_poll poll = true.

(** ** Petition requests *)

(** The request names a participant, by a value that is truthy and that
    Mongoose stores as the string [user], and a petition. *)
Definition names_petition (req : SignPetitionReq) (user : string) (i : ObjectId) : Prop :=
  js_truthy (sp_userId req) = true /\ cast_string (sp_userId req) = Some user
  /\ castObjectId (sp_petitionId req) = Some i.

(** The request names its participant by a string. *)
Definition signs_as (req : SignPetitionReq) (user : string) (i : ObjectId) : Prop :=
  sp_userId req = JsText user /\ user <> "" /\ castObjectId (sp_petitionId req) = Some i.

Definition sample_petition : Petition :=
  {| pet_title := "Repair the flyover on Ring Road";
     signatures := 0; signaturesRequired := 1000; status := "active";
     supporters := [];
     timeline := [ {| event := "Petition Created"; date := 900;
                      details := Some "Petition created by anonymous user" |} ];
     adminNotes := None; updatedAt := 900 |}.

Definition petition_store : Store :=
  {| polls := ∅; votes := []; petitions := {[ 7%N := sample_petition ]}; nextId := 256%N |}.

Definition sign_req (user : string) : SignPetitionReq :=
  {| sp_petitionId := hex_id_7; sp_userId := JsText user; sp_message := JsUndefined |}.

(** A request with a message. *)
Definition sign_req_saying (user message : string) : SignPetitionReq :=
  {| sp_petitionId := hex_id_7; sp_userId := JsText user; sp_message := JsText message |}.

(** The Devanagari letter A, three bytes in UTF-8, one UTF-16 code unit; and a
    message of 167 of them. *)
Definition letter_a : string :=
  String (ascii_of_nat 224) (String (ascii_of_nat 164) (String (ascii_of_nat 133) EmptyString)).

Definition long_message : string := String.concat "" (List.repeat letter_a 167).

(** The same request with the participant's id sent as a JSON number. *)
Definition sign_req_number (user : Z) : SignPetitionReq :=
  {| sp_petitionId := hex_id_7; sp_userId := JsNumber user; sp_message := JsUndefined |}.

(** The petition after [signPetition] pushed a supporter. *)
Definition petition_after_sign (p : Petition) (supporter : Supporter) (now : Date)
    : Petition :=
  push_signature p supporter (signatures p + 1)
    (signature_entry (signatures p + 1) now).

(** The supporter entry of a request that sends no message. *)
Definition plain_supporter (user : string) (now : Date) : Supporter :=
  {| sup_userId := user; signedAt := now; sup_message := None |}.

(** Every [signPetition] of the sequence names its participant by a string. *)
Definition string_ids (ops : list PetitionOp) : Prop :=
  forall req now, In (SignPetition req now) ops ->
                  exists user, sp_userId req = JsText user.

(** Both handlers load the petition before either saves it. *)
Definition loads_before_saves : list bool := [false; true; false; true].

Definition perform_petitions (ops : list PetitionOp) (s : Store) : Store :=
  List.fold_left perform_petition ops s.

(** The sample petition once "alice" has signed it. *)
Definition signed_store : Store :=
  snd (run (signPetition (sign_req "alice") 1500) petition_store).

(** A petition an administrator has already resolved. *)
Definition resolved_petition : Petition :=
  {| pet_title := "Environmental Protection Act Amendment";
     signatures := 5672; signaturesRequired := 15000; status := "resolved";
     supporters := []; timeline := []; adminNotes := None; updatedAt := 900 |}.

Definition resolved_store : Store :=
  {| polls := ∅; votes := []; petitions := {[ 7%N := resolved_petition ]}; nextId := 256%N |}.

Definition status_req (st : string) : UpdateStatusReq :=
  {| us_id := hex_id_7; us_status := Some st; us_adminNotes := None |}.

(** The same requests sent by somebody else. *)
Definition uv_with_caller (req : UpdateVoteReq) (c : JsString) : UpdateVoteReq :=
  {| uv_voteId := uv_voteId req; uv_caller := c;
     uv_selectedOption := uv_selectedOption req; uv_rating := uv_rating req;
     uv_emoji := uv_emoji req |}.

Definition dv_with_caller (req : DeleteVoteReq) (c : JsString) : DeleteVoteReq :=
  {| dv_voteId := dv_voteId req; dv_caller := c |}.

(** A poll is open to [updateVote] and [deleteVote] at [now]. *)
Definition editable (poll : Poll) (now : Date) : Prop :=
  isActive poll = true /\ now <= endDate poll.

(** The request reaches a stored vote and its poll. *)
Definition targets (s : Store) (voteId : string) (i : ObjectId) (v : Vote) (poll : Poll)
    : Prop :=
  castObjectId voteId = Some i
  /\ List.find (has_id i) (votes s) = Some v
  /\ polls s !! pollId v = Some poll.

(** The vote document [updateVote] holds after its three assignments. *)
Definition updated_vote (v : Vote) (req : UpdateVoteReq) : Vote :=
  set_choice v (js_or (uv_selectedOption req) (selectedOption v))
    (uv_rating req) (uv_emoji req).

(** The stored vote after [updateVote] saved it. *)
Definition vote_after_update (v : Vote) (req : UpdateVoteReq) (now : Date) : Vote :=
  saved_vote v v (updated_vote v req) now.

Definition store_after_update (s : Store) (i : ObjectId) (v : Vote) (req : UpdateVoteReq)
    (now : Date) : Store :=
  with_votes s (update_first (has_id i) (fun _ => vote_after_update v req now) (votes s)).

(** The store once [deleteVote] has deleted the row. *)
Definition store_after_removal (s : Store) (i : ObjectId) : Store :=
  with_votes s (remove_first (has_id i) (votes s)).

(** The store after [deleteVote] succeeded. *)
Definition store_after_delete (s : Store) (i : ObjectId) (v : Vote) (poll : Poll)
    (now : Date) : Store :=
  {| polls := <[pollId v := saved_poll poll poll (Z.max 0 (totalVotes poll - 1)) now]>
                (polls s);
     votes := remove_first (has_id i) (votes s);
     petitions := petitions s;
     nextId := nextId s |}.

(** The store [deleteVote] leaves on an open poll: without the row, and with
    the counter when the save of the poll document passes its validators. *)
Definition store_after_deleteVote (s : Store) (i : ObjectId) (v : Vote) (poll : Poll)
    (now : Date) : Store :=
  if validate_poll poll then store_after_delete s i v poll now
  else store_after_removal s i.

(** The sample poll once "alice" has voted "yes": her vote has id 256. *)
Definition voted_store : Store :=
  snd (run (castVote (cast_req "alice" "yes") 1500) sample_store).

Definition alice_vote : Vote :=
  make_vote 256%N (vote_document (cast_req "alice" "yes") "alice" 1%N "yes" 1500).

Definition update_req (caller : string) (option : JsString) : UpdateVoteReq :=
  {| uv_voteId := hex_id_100; uv_caller := Some caller; uv_selectedOption := option;
     uv_rating := None; uv_emoji := None |}.

Definition delete_req (caller : string) : DeleteVoteReq :=
  {| dv_voteId := hex_id_100; dv_caller := Some caller |}.

(** Two participants vote on the sample poll with both handlers in flight:
    the reads of both come before the writes of either. *)
Definition two_voters_schedule : list bool :=
  [false; false; true; true; false; false; true; true].

(** A vote cast with a rating and an emoji, and the store that holds it. *)
Definition reaction_req (user option : string) (r : Q) (e : string) : CastVoteReq :=
  {| cv_userId := Some user; cv_pollId := Some hex_id_1;
     cv_selectedOption := Some option; cv_rating := Some r; cv_emoji := Some e;
     cv_state := None; cv_city := None; cv_ageGroup := None; cv_gender := None |}.

Definition reaction_store : Store :=
  snd (run (castVote (reaction_req "alice" "yes" 8 "thumbs-up") 1500) sample_store).

Definition reaction_vote : Vote :=
  make_vote 256%N
    (vote_document (reaction_req "alice" "yes" 8 "thumbs-up") "alice" 1%N "yes" 1500).

(** Whether [updateVote]'s three assignments change the loaded vote. *)
Definition changes_vote (v : Vote) (req : UpdateVoteReq) : bool :=
  negb (String.eqb (selectedOption (updated_vote v req)) (selectedOption v)
        && same_rating (uv_rating req) (rating v)
        && same_string (uv_emoji req) (emoji v)).

Definition rated_req (user option : string) (r : Q) : CastVoteReq :=
  {| cv_userId := Some user; cv_pollId := Some hex_id_1;
     cv_selectedOption := Some option; cv_rating := Some r; cv_emoji := None;
     cv_state := None; cv_city := None; cv_ageGroup := None; cv_gender := None |}.

(** ** Sums over a tally *)

Definition sum_percentages (rows : list ResultRow) : Q :=
  List.fold_right (fun row acc => (percentage row + acc)%Q) 0%Q rows.

(** The votes counted under some option of the list. *)
Definition counted (opts : list IOption) (vs : list Vote) : Z :=
  List.fold_right (fun o acc => count_option (opt_id o) vs + acc) 0 opts.

(** A vote row with a given option, for examples. *)
Definition vote_for (i : ObjectId) (user option : string) : Vote :=
  {| vote_id := i; userId := user; pollId := 1%N; selectedOption := option;
     rating := None; emoji := None;
     metadata := {| md_state := None; md_city := None; md_ageGroup := None;
                    md_gender := None; md_timestamp := 1500 |};
     isValid := true; createdAt := 1500; vote_updatedAt := 1500 |}.

(** 63 votes for "yes" and 37 for "no". *)
Definition hundred_votes : list Vote :=
  List.repeat (vote_for 0%N "u" "yes") 63 ++ List.repeat (vote_for 0%N "u" "no") 37.

Definition three_votes : list Vote :=
  [vote_for 256%N "alice" "yes"; vote_for 257%N "bob" "yes"; vote_for 258%N "carol" "no"].

(** The sample poll with these three votes. *)
Definition tallied_store : Store :=
  {| polls := {[ 1%N := sample_poll ]}; votes := three_votes; petitions := ∅;
     nextId := 259%N |}.

(** 23 votes for "yes" and 137 for "no": the share of "yes" is 14.375 percent. *)
Definition tie_votes : list Vote :=
  List.repeat (vote_for 0%N "u" "yes") 23 ++ List.repeat (vote_for 0%N "u" "no") 137.

Definition yes_option : IOption := {| opt_id := "yes"; opt_text := "Yes" |}.

(** A poll whose two options carry the same id. *)
Definition twin_poll : Poll :=
  {| poll_title := "Which road first?"; poll_type := multiple_choice;
     options := [ {| opt_id := "a"; opt_text := "Ring Road" |};
                  {| opt_id := "a"; opt_text := "Station Road" |} ];
     isActive := true; startDate := 1000; endDate := 2000; totalVotes := 1;
     poll_updatedAt := 900 |}.

(** How many options of the list carry the id [x]. *)
Definition hits (opts : list IOption) (x : string) : Z :=
  List.fold_right (fun o acc => (if String.eqb x (opt_id o) then 1 else 0) + acc) 0 opts.

(** How far a row's percentage may lie from its exact share: half a
    hundredth from [Math.round], and less than 10^-12 from the four roundings
    of the double arithmetic. *)
Definition row_slack : Q := ((1 # 200) + (1 # 1000000000000))%Q.

(** The rounding slack of a tally: [row_slack] per option. *)
Definition rounding_slack (p : Poll) : Q :=
  (inject_Z (Z.of_nat (List.length (options p))) * row_slack)%Q.

(** The share of a row computed without rounding. *)
Definition exact_share (row : ResultRow) (total : Z) : Q :=
  (inject_Z (row_votes row) / inject_Z total * 100)%Q.

(** ** Sequences of vote operations, updates among them *)

Inductive VoteOp :=
| Ledger (op : LedgerOp)
| UpdateVote (req : UpdateVoteReq) (now : Date).

Definition vote_handler (op : VoteOp) : Prog Response :=
  match op with
  | Ledger op => handler_of op
  | UpdateVote req now => updateVote req now
  end.

(** The handler's reading of the clock. *)
Definition op_time (op : VoteOp) : Date :=
  match op with
  | Ledger (CastVote _ now) => now
  | Ledger (RetractVote _ now) => now
  | UpdateVote _ now => now
  end.

Definition perform_vote (s : Store) (op : VoteOp) : Store :=
  snd (run (vote_handler op) s).

Definition perform_votes (ops : list VoteOp) (s : Store) : Store :=
  List.fold_left perform_vote ops s.

(** The compound key of the unique index on votes. *)
Definition vote_key (v : Vote) : string * ObjectId := (userId v, pollId v).

(** At most one vote row per (participant, poll). *)
Definition votes_unique (s : Store) : Prop := NoDup (List.map vote_key (votes s)).

(** The store two handlers in flight leave behind. *)
Definition store_of {A : Type} (x : Prog A * Prog A * Store) : Store := snd x.

(** The vote controller's gate is shut: the poll is inactive or past its end
    date. *)
Definition closed_at (poll : Poll) (now : Date) : Prop :=
  isActive poll = false \/ endDate poll < now.

(** The vote rows of one poll. *)
Definition rows_of (p : ObjectId) (s : Store) : list Vote :=
  List.filter (on_poll p) (votes s).

(** Ids handed out so far lie below the next one. *)
Definition ids_below_next (s : Store) : Prop :=
  forall v, In v (votes s) -> (vote_id v < nextId s)%N.

(** The sample poll as [voted_store] holds it. *)
Definition voted_poll : Poll := counted_poll sample_poll 1 1500.

(** Every petition's counter is the number of its supporters. *)
Definition signatures_counted (s : Store) : Prop :=
  forall (i : ObjectId) (p : Petition),
    petitions s !! i = Some p -> signatures p = Z.of_nat (List.length (supporters p)).

(** A later version of a petition: its history only grew. *)
Definition petition_extends (p p' : Petition) : Prop :=
  timeline p `prefix_of` timeline p'
  /\ supporters p `prefix_of` supporters p'
  /\ signatures p <= signatures p'
  /\ signaturesRequired p' = signaturesRequired p
  /\ pet_title p' = pet_title p.

(** ** Reading a poll or a petition, with the participant's own state *)

Record PollByIdReq := {
  pb_id : string;
  pb_userId : JsString
}.

(** The answer of [getPollById]: [data.poll] and [data.user.hasVoted]. *)
Record PollView := {
  pv_code : Z;
  pv_success : bool;
  pv_message : string;
  pv_poll : option Poll;
  hasVoted : bool
}.

Definition poll_view_error (c : Z) (m : string) : PollView :=
  {| pv_code := c; pv_success := false; pv_message := m; pv_poll := None;
     hasVoted := false |}.

(** [PollController.getPollById]: [Poll.findById], and [Vote.findOne] when the
    query names a participant. *)
Definition getPollById (req : PollByIdReq) : Prog PollView :=
  let failed := poll_view_error 500 "Failed to fetch poll" in
  if negb (ObjectId_isValid (pb_id req))
  then Ret (poll_view_error 400 "Invalid poll ID")
  else
    await id <- (cast_id (pb_id req) failed);
    await poll <- (await_poll (Poll_findById id) failed);
    match poll with
    | None => Ret (poll_view_error 404 "Poll not found")
    | Some poll =>
        if truthy (pb_userId req)
        then
          await existingVote <- (await_vote
            (Vote_findOne (interpolate (pb_userId req)) id) failed);
          Ret {| pv_code := 200; pv_success := true; pv_message := "";
                 pv_poll := Some poll;
                 hasVoted := match existingVote with Some _ => true | None => false end |}
        else
          Ret {| pv_code := 200; pv_success := true; pv_message := "";
                 pv_poll := Some poll; hasVoted := false |}
    end.

Record PetitionByIdReq := {
  tb_id : string;
  tb_userId : JsString
}.

(** The answer of [getPetitionById]: [data.petition], its [isAchieved], and
    [data.user.hasSigned]; the derived [completionPercentage] is left out. *)
Record PetitionView := {
  tv_code : Z;
  tv_success : bool;
  tv_message : string;
  tv_petition : option Petition;
  tv_isAchieved : bool;
  hasSigned : bool
}.

Definition petition_view_error (c : Z) (m : string) : PetitionView :=
  {| tv_code := c; tv_success := false; tv_message := m; tv_petition := None;
     tv_isAchieved := false; hasSigned := false |}.

(** [petition.supporters.some(supporter => supporter.userId === userId)]. *)
Definition some_supporter (p : Petition) (u : string) : bool :=
  existsb (fun supporter => String.eqb (sup_userId supporter) u) (supporters p).

(** [PetitionController.getPetitionById]. *)
Definition getPetitionById (req : PetitionByIdReq) : Prog PetitionView :=
  let failed := petition_view_error 500 "Failed to fetch petition" in
  if negb (ObjectId_isValid (tb_id req))
  then Ret (petition_view_error 400 "Invalid petition ID")
  else
    await id <- (cast_id (tb_id req) failed);
    await petition <- (await_petition (Petition_findById id) failed);
    match petition with
    | None => Ret (petition_view_error 404 "Petition not found")
    | Some petition =>
        Ret {| tv_code := 200; tv_success := true; tv_message := "";
               tv_petition := Some petition;
               tv_isAchieved := Z.geb (signatures petition) (signaturesRequired petition);
               hasSigned := if truthy (tb_userId req)
                            then some_supporter petition (interpolate (tb_userId req))
                            else false |}
    end.

(** The request reads a poll, or a petition, on behalf of a participant. *)
Definition reads_poll_as (req : PollByIdReq) (user : string) (pid : ObjectId) : Prop :=
  castObjectId (pb_id req) = Some pid
  /\ truthy (pb_userId req) = true /\ interpolate (pb_userId req) = user.

Definition reads_petition_as (req : PetitionByIdReq) (user : string) (i : ObjectId) : Prop :=
  castObjectId (tb_id req) = Some i
  /\ truthy (tb_userId req) = true /\ interpolate (tb_userId req) = user.

Definition poll_by_id_req (user : string) : PollByIdReq :=
  {| pb_id := hex_id_1; pb_userId := Some user |}.

Definition petition_by_id_req (user : string) : PetitionByIdReq :=
  {| tb_id := hex_id_7; tb_userId := Some user |}.

(** ** The sentiment index (results route [GET /sentiment]) *)

(** [toLowerCase] on the letters A to Z.  Strings are byte strings here; the
    words looked for below are made of ASCII letters only. *)
Definition toLowerCase_char (c : ascii) : ascii :=
  let n := N_of_ascii c in
  if ((65 <=? n) && (n <=? 90))%N then ascii_of_N (n + 32) else c.

Fixpoint toLowerCase (s : string) : string :=
  match s with
  | EmptyString => EmptyString
  | String c s' => String (toLowerCase_char c) (toLowerCase s')
  end.

(** [s.includes(word)]. *)
Fixpoint includes (s word : string) : bool :=
  String.prefix word s
  || match s with
     | EmptyString => false
     | String _ s' => includes s' word
     end.

(** [vote.rating && test(vote.rating)]: an absent rating and 0 are falsy. *)
Definition rating_and (r : option Q) (test : Q -> bool) : bool :=
  match r with
  | Some q => negb (Qeq_bool q 0) && test q
  | None => false
  end.

Definition counts_positive (vote : Vote) : bool :=
  includes (toLowerCase (selectedOption vote)) "yes"
  || includes (toLowerCase (selectedOption vote)) "support"
  || rating_and (rating vote) (fun q => Qle_bool 7 q).

Definition counts_negative (vote : Vote) : bool :=
  includes (toLowerCase (selectedOption vote)) "no"
  || includes (toLowerCase (selectedOption vote)) "oppose"
  || rating_and (rating vote) (fun q => Qle_bool q 3).

(** [data.sentimentScore], [data.breakdown] and [data.totalResponses]. *)
Record SentimentData := {
  sentimentScore : Z;
  positiveVotes : Z;
  negativeVotes : Z;
  neutralVotes : Z;
  totalResponses : Z
}.

(** The metrics the route computes from the votes its query returned. *)
Definition sentiment_metrics (recentVotes : list Vote) : SentimentData :=
  let pos := Z.of_nat (List.length (List.filter counts_positive recentVotes)) in
  let neg := Z.of_nat (List.length (List.filter counts_negative recentVotes)) in
  let total := Z.of_nat (List.length recentVotes) in
  {| sentimentScore :=
       if Z.ltb 0 total
       then Math_round (double_mul (double_div (inject_Z (pos - neg)) (inject_Z total)) 100)
       else 0;
     positiveVotes := pos;
     negativeVotes := neg;
     neutralVotes := total - pos - neg;
     totalResponses := total |}.

(** Votes counted on neither side, and votes counted on both. *)
Definition on_neither_side (vote : Vote) : bool :=
  negb (counts_positive vote) && negb (counts_negative vote).

Definition on_both_sides (vote : Vote) : bool :=
  counts_positive vote && counts_negative vote.

Definition count_votes (f : Vote -> bool) (vs : list Vote) : Z :=
  Z.of_nat (List.length (List.filter f vs)).

(** A vote for "yes" rated 2. *)
Definition mixed_vote : Vote :=
  set_choice (vote_for 256%N "alice" "yes") "yes" (Some 2%Q) None.

(** ** Deleting a poll (PollController) *)

(** The two store operations only [deletePoll] awaits. *)
Inductive AdminOp :=
| Vote_deleteMany (poll : ObjectId)
| Poll_findByIdAndDelete (id : ObjectId).

Definition exec_admin (op : AdminOp) (s : Store) : StoreResult * Store :=
  match op with
  | Vote_deleteMany p =>
      (RDone, with_votes s (List.filter (fun v => negb (on_poll p v)) (votes s)))
  | Poll_findByIdAndDelete i =>
      (RPoll (polls s !! i), with_polls s (delete i (polls s)))
  end.

Inductive AdminProg (A : Type) : Type :=
| Done (a : A)
| AwaitAdmin (op : AdminOp) (k : StoreResult -> AdminProg A).

Arguments Done {A} a.
Arguments AwaitAdmin {A} op k.

Fixpoint run_admin {A : Type} (p : AdminProg A) (s : Store) : A * Store :=
  match p with
  | Done a => (a, s)
  | AwaitAdmin op k => let '(r, s') := exec_admin op s in run_admin (k r) s'
  end.

(** [PollController.deletePoll]: [Vote.deleteMany({ pollId: id })], then
    [Poll.findByIdAndDelete(id)]. *)
Definition deletePoll (id : string) : AdminProg Response :=
  let failed := respond 500 false "Failed to delete poll" NoData in
  if negb (ObjectId_isValid id)
  then Done (respond 400 false "Invalid poll ID" NoData)
  else
    match castObjectId id with
    | None => Done failed
    | Some i =>
        AwaitAdmin (Vote_deleteMany i) (fun r =>
          match r with
          | RDone =>
              AwaitAdmin (Poll_findByIdAndDelete i) (fun r' =>
                match r' with
                | RPoll None => Done (respond 404 false "Poll not found" NoData)
                | RPoll (Some _) =>
                    Done (respond 200 true "Poll deleted successfully" NoData)
                | _ => Done failed
                end)
          | _ => Done failed
          end)
    end.

(** A store with a vote left behind by a poll that is gone. *)
Definition orphan_store : Store :=
  {| polls := {[ 1%N := sample_poll ]};
     votes := [vote_for 256%N "alice" "yes";
               set_choice (make_vote 257%N
                             (vote_document (cast_req "bob" "a") "bob" 2%N "a" 1500))
                 "a" None None];
     petitions := ∅; nextId := 258%N |}.

Definition hex_id_2 : string := "000000000000000000000002".

(** ** Results without a filter *)

Definition no_filter (req : ResultsReq) : Prop :=
  truthy (rq_state req) = false /\ truthy (rq_ageGroup req) = false
  /\ truthy (rq_gender req) = false.

Definition results_req (id : string) : ResultsReq :=
  {| rq_id := id; rq_state := None; rq_ageGroup := None; rq_gender := None |}.

(** ** The mobile client's petition and poll cards *)

(** An entry of [petition.milestones]. *)
Record Milestone := {
  target : Z;
  description : string;
  ms_status : JsString
}.

(** The answer of [getNextMilestoneProgress]. *)
Record MilestoneProgress := {
  mp_current : Z;
  mp_target : Z;
  mp_percentage : Q
}.

(** [Math.min] on two numbers. *)
Definition Math_min (x y : Q) : Q := if Qle_bool x y then x else y.

(** [milestones.filter(m => m.target <= current).slice(-1)[0]], and its target
    or 0. *)
Definition previous_target (ms : list Milestone) (current : Z) : Z :=
  match List.last (List.map Some (List.filter (fun m => Z.leb (target m) current) ms)) None with
  | Some previousMilestone => target previousMilestone
  | None => 0
  end.

(** [PetitionDetailScreen.getNextMilestoneProgress]: [signatureCount] is
    absent when there are no results yet, [milestones] when the petition has
    none.  The quotient is left exact here, not rounded to a double. *)
Definition getNextMilestoneProgress (signatureCount : option Z)
    (milestones : option (list Milestone)) : MilestoneProgress :=
  match signatureCount, milestones with
  | Some current, Some ms =>
      if Z.eqb current 0
      then {| mp_current := 0; mp_target := 100; mp_percentage := 0 |}
      else
        match List.find (fun m => Z.ltb current (target m)) ms with
        | None => {| mp_current := current; mp_target := current; mp_percentage := 100 |}
        | Some nextMilestone =>
            let prevTarget := previous_target ms current in
            let tgt := target nextMilestone in
            let percentage : Q :=
              if Z.gtb tgt prevTarget
              then (inject_Z (current - prevTarget) / inject_Z (tgt - prevTarget) * 100)%Q
              else 0%Q in
            {| mp_current := current; mp_target := tgt;
               mp_percentage := Math_min percentage 100 |}
        end
  | _, _ => {| mp_current := 0; mp_target := 100; mp_percentage := 0 |}
  end.

Definition day_ms : Z := 1000 * 60 * 60 * 24.
Definition hour_ms : Z := 1000 * 60 * 60.

(** [PollCard.formatTimeRemaining], the two dates in milliseconds. *)
Definition formatTimeRemaining (endDate now : Date) : string :=
  let diff := endDate - now in
  if Z.leb diff 0 then "Ended"
  else
    let days := diff / day_ms in
    let hours := (diff mod day_ms) / hour_ms in
    if Z.gtb days 0 then pretty days ++ "d " ++ pretty hours ++ "h left"
    else if Z.gtb hours 0 then pretty hours ++ "h left"
    else "Less than 1h left".

Definition sample_milestones : list Milestone :=
  [ {| target := 100; description := "First hundred"; ms_status := None |};
    {| target := 500; description := "Local press"; ms_status := None |};
    {| target := 1000; description := "Submit to the authority"; ms_status := None |} ].

(** Every stored vote names an option of its poll. *)
Definition options_valid (s : Store) : Prop :=
  forall v, In v (votes s) -> option_of_poll s v.
(** * Properties *)

(** ** Small facts about the store *)

Lemma find_none_existsb {A : Type} (f : A -> bool) (l : list A) :
  List.find f l = None <-> existsb f l = false.
Proof.
  induction l as [|a l IH]; simpl; [tauto|].
  destruct (f a); simpl; [split; discriminate | exact IH].
Qed.

Lemma find_some_existsb {A : Type} (f : A -> bool) (l : list A) (a : A) :
  List.find f l = Some a -> existsb f l = true.
Proof.
  intros H. destruct (existsb f l) eqn:E; [reflexivity|].
  apply find_none_existsb in E. congruence.
Qed.

Lemma filter_length_app {A : Type} (f : A -> bool) (l1 l2 : list A) :
  List.length (List.filter f (l1 ++ l2))
  = (List.length (List.filter f l1) + List.length (List.filter f l2))%nat.
Proof. rewrite List.filter_app, List.length_app. reflexivity. Qed.

(** Deleting the row [find] returns takes one row off the count of every
    predicate that row satisfies, and none off the others. *)
Lemma remove_first_count (f g : Vote -> bool) (l : list Vote) (v : Vote) :
  List.find f l = Some v ->
  List.length (List.filter g l)
  = ((if g v then 1 else 0) + List.length (List.filter g (remove_first f l)))%nat.
Proof.
  induction l as [|a l IH]; simpl; [discriminate|].
  destruct (f a) eqn:Ef.
  - intros [= ->]. destruct (g v); reflexivity.
  - intros H. simpl. destruct (g a); simpl; rewrite (IH H); lia.
Qed.

Lemma update_first_find (f : Vote -> bool) (g : Vote -> Vote) (l : list Vote) (v : Vote) :
  List.find f l = Some v ->
  f (g v) = true ->
  List.find f (update_first f g l) = Some (g v).
Proof.
  intros H Hg. induction l as [|a l IH]; simpl in *; [discriminate|].
  destruct (f a) eqn:Ef.
  - injection H as ->. simpl. rewrite Hg. reflexivity.
  - simpl. rewrite Ef. auto.
Qed.

Lemma update_first_ext (f : Vote -> bool) (g h : Vote -> Vote) (l : list Vote) (v : Vote) :
  List.find f l = Some v -> g v = h v ->
  update_first f g l = update_first f h l.
Proof.
  intros H E. induction l as [|a l IH]; simpl in *; [reflexivity|].
  destruct (f a).
  - injection H as ->. rewrite E. reflexivity.
  - rewrite IH; auto.
Qed.

(** ** What a save validates and writes *)

Lemma validate_poll_set_totalVotes (p : Poll) (n : Z) :
  validate_poll (set_totalVotes p n) = validate_poll p.
Proof. reflexivity. Qed.

Lemma validate_poll_saved (stored loaded : Poll) (n : Z) (now : Date) :
  validate_poll (saved_poll stored loaded n now) = validate_poll stored.
Proof. unfold saved_poll. destruct (Z.eqb n (totalVotes loaded)); reflexivity. Qed.

Lemma saved_poll_counted (poll : Poll) (n : Z) (now : Date) :
  n <> totalVotes poll -> saved_poll poll poll n now = counted_poll poll n now.
Proof.
  intros H. unfold saved_poll. destruct (Z.eqb_spec n (totalVotes poll)); [contradiction|].
  reflexivity.
Qed.

(** [saved_poll] changes the counter and the time stamp only. *)
Lemma saved_poll_fields (stored loaded : Poll) (n : Z) (now : Date) :
  let p := saved_poll stored loaded n now in
  poll_title p = poll_title stored /\ poll_type p = poll_type stored
  /\ options p = options stored /\ isActive p = isActive stored
  /\ startDate p = startDate stored /\ endDate p = endDate stored.
Proof.
  cbv zeta. unfold saved_poll. destruct (Z.eqb n (totalVotes loaded)); repeat split.
Qed.

(** ** castVote run alone *)

(** [castVote] on an existing poll, case by case.  The row and the counter are
    two saves: when the poll document fails a validator of its schema, the row
    is stored, the counter is not, and the answer is the handler's general
    failure. *)
Lemma castVote_gate (s : Store) (req : CastVoteReq) (now : Date)
    (pid : ObjectId) (poll : Poll) :
  truthy (cv_userId req) = true ->
  truthy (cv_pollId req) = true ->
  truthy (cv_selectedOption req) = true ->
  castObjectId (interpolate (cv_pollId req)) = Some pid ->
  polls s !! pid = Some poll ->
  run (castVote req now) s
  = if negb (isActive poll)
    then (respond 400 false "Poll is not active" NoData, s)
    else if Z.ltb (endDate poll) now
    then (respond 400 false "Poll has ended" NoData, s)
    else
      match find_option poll (interpolate (cv_selectedOption req)) with
      | None => (respond 400 false "Invalid option selected" NoData, s)
      | Some _ =>
          match List.find (same_vote_key (interpolate (cv_userId req)) pid) (votes s) with
          | Some _ =>
              (respond 400 false "You have already voted in this poll" NoData, s)
          | None =>
              let doc := vote_document req (interpolate (cv_userId req)) pid
                           (interpolate (cv_selectedOption req)) now in
              if negb (validate_new_vote doc) then (cast_failed, s)
              else if negb (validate_poll poll)
              then (cast_failed, store_after_insert s pid req now)
              else
                (respond 201 true "Vote cast successfully"
                   (VoteSummary (nextId s) pid (interpolate (cv_selectedOption req)) now),
                 store_after_cast s pid poll req now)
          end
      end.
Proof.
  intros Hu Hp Ho Hc Hl.
  unfold castVote, cast_id, await_poll, await_vote, await_done.
  rewrite Hu, Hp, Ho, Hc. simpl. rewrite Hl.
  destruct (isActive poll); simpl; [|reflexivity].
  destruct (Z.ltb (endDate poll) now); simpl; [reflexivity|].
  destruct (find_option poll _); simpl; [|reflexivity].
  destruct (List.find _ (votes s)) eqn:Ef; simpl; [reflexivity|].
  apply find_none_existsb in Ef.
  destruct (validate_new_vote _) eqn:Ev; simpl; [|reflexivity].
  cbn [nv_userId nv_pollId vote_document]. rewrite Ef. simpl.
  rewrite validate_poll_set_totalVotes.
  destruct (validate_poll poll); simpl; [|reflexivity].
  rewrite Hl. unfold store_after_cast.
  rewrite saved_poll_counted by lia. reflexivity.
Qed.

(** C5 (as amended): [castVote] accepts a vote only when the poll's active
    flag is true and the current time is at most the poll's end date; on an
    existing poll that is inactive, or whose end date lies strictly before the
    current time, it answers PollClosed and writes nothing; and on an active
    poll that has started it does not answer PollClosed up to and including
    the end date itself. *)
Theorem castVote_closed_when_inactive_or_past_end
    (s : Store) (req : CastVoteReq) (now : Date) (user : string)
    (pid : ObjectId) (poll : Poll) :
  names_vote req user pid ->
  polls s !! pid = Some poll ->
  let r := fst (run (castVote req now) s) in
  let s' := snd (run (castVote req now) s) in
  (Succeeded r -> isActive poll = true /\ now <= endDate poll)
  /\ (isActive poll = false \/ endDate poll < now -> PollClosed r /\ s' = s)
  /\ (isActive poll = true -> startDate poll <= now <= endDate poll -> ~ PollClosed r).
Proof.
  intros (Hu & _ & Hp & Hc & Ho) Hl. cbv zeta.
  rewrite (castVote_gate s req now pid poll Hu Hp Ho Hc Hl).
  unfold Succeeded, PollClosed.
  destruct (isActive poll); simpl.
  2:{ split; [discriminate|]. split; [auto|]. discriminate. }
  destruct (Z.ltb_spec (endDate poll) now); simpl.
  { split; [discriminate|]. split; [auto|]. lia. }
  split; [intros _; split; [reflexivity | lia]|].
  split; [intros [?|?]; [discriminate | lia]|].
  intros _ _.
  repeat match goal with
         | |- context [match ?x with _ => _ end] => destruct x; simpl
         end;
    intros [_ [?|?]]; discriminate.
Qed.

Lemma castVote_closed_when_inactive_or_past_end_witness :
  let r := fst (run (castVote (cast_req "alice" "yes") 2000) sample_store) in
  let s' := snd (run (castVote (cast_req "alice" "yes") 2000) sample_store) in
  (names_vote (cast_req "alice" "yes") "alice" 1%N
   /\ polls sample_store !! 1%N = Some sample_poll
   /\ Succeeded r /\ isActive sample_poll = true
   /\ startDate sample_poll <= 2000 <= endDate sample_poll)
  /\ (isActive sample_poll = true /\ 2000 <= endDate sample_poll)
  /\ ~ PollClosed r.
Proof.
  cbv zeta.
  assert (Hn : names_vote (cast_req "alice" "yes") "alice" 1%N) by (repeat split).
  assert (Hl : polls sample_store !! 1%N = Some sample_poll) by reflexivity.
  assert (Hs : Succeeded (fst (run (castVote (cast_req "alice" "yes") 2000) sample_store)))
    by reflexivity.
  assert (Ha : isActive sample_poll = true) by reflexivity.
  assert (Ht : startDate sample_poll <= 2000 <= endDate sample_poll) by (simpl; lia).
  destruct (castVote_closed_when_inactive_or_past_end sample_store
              (cast_req "alice" "yes") 2000 "alice" 1%N sample_poll Hn Hl)
    as (H1 & _ & H3).
  split; [auto|]. split; [exact (H1 Hs) | exact (H3 Ha Ht)].
Defined.

(** C5, as stated, fails: a vote cast at exactly the end date is accepted, and
    so is one cast before the start date. *)
Lemma castVote_accepts_at_end_date_and_before_start :
  let at_close := run (castVote (cast_req "alice" "yes") (endDate sample_poll)) sample_store in
  let early := run (castVote (cast_req "alice" "yes") (startDate sample_poll - 500)) sample_store in
  (Succeeded (fst at_close) /\ ~ PollClosed (fst at_close)
   /\ List.length (votes (snd at_close)) = 1%nat)
  /\ (Succeeded (fst early) /\ ~ PollClosed (fst early)
      /\ List.length (votes (snd early)) = 1%nat).
Proof.
  cbv zeta. split; (split; [reflexivity|]; split; [|reflexivity]);
    intros [H _]; vm_compute in H; discriminate.
Qed.

(** ** Duplicate votes and signatures *)

(** [castVote] on a poll that takes the request, from a participant who has
    not voted: the row is inserted; the counter follows when the poll document
    passes its validators. *)
Lemma castVote_takes (s : Store) (req : CastVoteReq) (now : Date) (user : string)
    (pid : ObjectId) (poll : Poll) :
  names_vote req user pid ->
  polls s !! pid = Some poll ->
  takes poll pid req now ->
  not_voted s user pid ->
  run (castVote req now) s
  = if validate_poll poll
    then (respond 201 true "Vote cast successfully"
            (VoteSummary (nextId s) pid (interpolate (cv_selectedOption req)) now),
          store_after_cast s pid poll req now)
    else (cast_failed, store_after_insert s pid req now).
Proof.
  intros (Hu & Hn & Hp & Hc & Ho) Hl (Ha & Ht & [o Hf] & Hv) Hnv.
  rewrite (castVote_gate s req now pid poll Hu Hp Ho Hc Hl).
  rewrite Ha. simpl. destruct (Z.ltb_spec (endDate poll) now); [lia|].
  rewrite Hf, Hn. unfold not_voted in Hnv. rewrite Hnv.
  cbv zeta. rewrite Hn in Hv. rewrite Hv. simpl.
  destruct (validate_poll poll); reflexivity.
Qed.

Lemma castVote_accepts (s : Store) (req : CastVoteReq) (now : Date) (user : string)
    (pid : ObjectId) (poll : Poll) :
  names_vote req user pid ->
  polls s !! pid = Some poll ->
  validate_poll poll = true ->
  takes poll pid req now ->
  not_voted s user pid ->
  run (castVote req now) s
  = (respond 201 true "Vote cast successfully"
       (VoteSummary (nextId s) pid (interpolate (cv_selectedOption req)) now),
     store_after_cast s pid poll req now).
Proof.
  intros Hn Hl Hv Ht Hnv.
  rewrite (castVote_takes s req now user pid poll Hn Hl Ht Hnv), Hv. reflexivity.
Qed.

Lemma castVote_rejects_voter (s : Store) (req : CastVoteReq) (now : Date) (user : string)
    (pid : ObjectId) (poll : Poll) (v : Vote) :
  names_vote req user pid ->
  polls s !! pid = Some poll ->
  isActive poll = true -> now <= endDate poll ->
  is_Some (find_option poll (interpolate (cv_selectedOption req))) ->
  List.find (same_vote_key user pid) (votes s) = Some v ->
  run (castVote req now) s
  = (respond 400 false "You have already voted in this poll" NoData, s).
Proof.
  intros (Hu & Hn & Hp & Hc & Ho) Hl Ha Ht [o Hf] Hv.
  rewrite (castVote_gate s req now pid poll Hu Hp Ho Hc Hl).
  rewrite Ha. simpl. destruct (Z.ltb_spec (endDate poll) now); [lia|].
  rewrite Hf, Hn, Hv. reflexivity.
Qed.

Lemma find_app_last (f : Vote -> bool) (l : list Vote) (v : Vote) :
  f v = true -> exists w, List.find f (l ++ [v]) = Some w.
Proof.
  intros H. induction l as [|a l IH]; simpl.
  - rewrite H. eauto.
  - destruct (f a); eauto.
Qed.

Lemma same_vote_key_refl (u : string) (p : ObjectId) (v : Vote) :
  userId v = u -> pollId v = p -> same_vote_key u p v = true.
Proof.
  intros <- <-. unfold same_vote_key. rewrite String.eqb_refl, N.eqb_refl. reflexivity.
Qed.

Lemma cast_row_key (s : Store) (req : CastVoteReq) (now : Date) (user : string)
    (pid : ObjectId) :
  names_vote req user pid -> same_vote_key user pid (cast_row s pid req now) = true.
Proof.
  intros Hn. apply same_vote_key_refl; [|reflexivity]. simpl. apply Hn.
Qed.

(** Two calls by one participant on one poll, the second after the first has
    finished: the first is accepted, the second is rejected by the existence
    read and writes nothing. *)
Lemma castVote_twice (s : Store) (req1 req2 : CastVoteReq) (now1 now2 : Date)
    (user : string) (pid : ObjectId) (poll : Poll) :
  names_vote req1 user pid -> names_vote req2 user pid ->
  polls s !! pid = Some poll ->
  validate_poll poll = true ->
  takes poll pid req1 now1 -> takes poll pid req2 now2 ->
  not_voted s user pid ->
  let first := run (castVote req1 now1) s in
  let second := run (castVote req2 now2) (snd first) in
  Succeeded (fst first) /\ AlreadyVoted (fst second) /\ snd second = snd first.
Proof.
  intros Hn1 Hn2 Hl Hval Ht1 Ht2 Hnv. cbv zeta.
  rewrite (castVote_accepts s req1 now1 user pid poll Hn1 Hl Hval Ht1 Hnv).
  cbn [fst snd].
  destruct Ht2 as (Ha & Ht & Hf & _).
  destruct (find_app_last (same_vote_key user pid) (votes s) (cast_row s pid req1 now1))
    as [w Hw].
  { apply cast_row_key, Hn1. }
  rewrite (castVote_rejects_voter (store_after_cast s pid poll req1 now1) req2 now2
             user pid (counted_poll poll (totalVotes poll + 1) now1) w Hn2);
    try assumption.
  - repeat split.
  - simpl. apply lookup_insert_eq.
Qed.

(** *** Two handlers in flight *)

(** Handlers that have finished stay finished. *)
Lemma interleave_finished {A : Type} (sched : list bool) (a b : A) (s : Store) :
  interleave sched (Ret a) (Ret b) s = (Ret a, Ret b, s).
Proof. induction sched as [|[|] sched IH]; simpl; auto. Qed.

(** Two reads each, in any order, leave both handlers at their third await
    and the store as it was. *)
Lemma interleave_reads {A : Type} (p0 p1 p2 q0 q1 q2 : Prog A) (s : Store)
    (reads rest : list bool) :
  resume p0 s = (p1, s) -> resume p1 s = (p2, s) ->
  resume q0 s = (q1, s) -> resume q1 s = (q2, s) ->
  both_read reads ->
  interleave (reads ++ rest) p0 q0 s = interleave rest p2 q2 s.
Proof.
  intros Hp0 Hp1 Hq0 Hq1 [Hf Ht].
  destruct reads as [|a [|b [|c [|d [|e reads]]]]];
    try (simpl in Hf, Ht; repeat match goal with x : bool |- _ => destruct x end;
         simpl in Hf, Ht; discriminate).
  destruct a, b, c, d; simpl in Hf, Ht; try discriminate;
    cbn [interleave app];
    repeat (first [rewrite Hp0 | rewrite Hp1 | rewrite Hq0 | rewrite Hq1];
            cbn [interleave]);
    reflexivity.
Qed.

(** The handler whose write came first needs one more turn, the other one:
    whatever the order of the later turns, both finish the same way. *)
Lemma interleave_first_wins {A : Type} (p3 q2 : Prog A) (a b : A) (s1 s2 : Store)
    (rest : list bool) :
  resume p3 s1 = (Ret a, s2) ->
  resume q2 s1 = (Ret b, s1) ->
  resume q2 s2 = (Ret b, s2) ->
  both_finish rest ->
  interleave rest p3 q2 s1 = (Ret a, Ret b, s2).
Proof.
  intros Hp Hq1 Hq2 [Hf Ht].
  assert (Hpd : forall l, In true l -> interleave l (Ret a) q2 s2 = (Ret a, Ret b, s2)).
  { induction l as [|[|] l IH]; intros Hin; [destruct Hin| |].
    - cbn [interleave]. rewrite Hq2. apply interleave_finished.
    - cbn [interleave resume]. apply IH. destruct Hin as [E|Hin]; [discriminate E | exact Hin]. }
  assert (Hqd : forall l, In false l -> interleave l p3 (Ret b) s1 = (Ret a, Ret b, s2)).
  { induction l as [|[|] l IH]; intros Hin; [destruct Hin| |].
    - cbn [interleave resume]. apply IH. destruct Hin as [E|Hin]; [discriminate E | exact Hin].
    - cbn [interleave]. rewrite Hp. apply interleave_finished. }
  induction rest as [|[|] rest IH]; [destruct Hf| |].
  - cbn [interleave]. rewrite Hq1. apply Hqd.
    destruct Hf as [E|Hf]; [discriminate E | exact Hf].
  - cbn [interleave]. rewrite Hp. apply Hpd.
    destruct Ht as [E|Ht]; [discriminate E | exact Ht].
Qed.

Lemma interleave_second_wins {A : Type} (p2 q3 : Prog A) (a b : A) (s1 s2 : Store)
    (rest : list bool) :
  resume q3 s1 = (Ret b, s2) ->
  resume p2 s1 = (Ret a, s1) ->
  resume p2 s2 = (Ret a, s2) ->
  both_finish rest ->
  interleave rest p2 q3 s1 = (Ret a, Ret b, s2).
Proof.
  intros Hq Hp1 Hp2 [Hf Ht].
  assert (Hqd : forall l, In false l -> interleave l p2 (Ret b) s2 = (Ret a, Ret b, s2)).
  { induction l as [|[|] l IH]; intros Hin; [destruct Hin| |].
    - cbn [interleave resume]. apply IH. destruct Hin as [E|Hin]; [discriminate E | exact Hin].
    - cbn [interleave]. rewrite Hp2. apply interleave_finished. }
  assert (Hpd : forall l, In true l -> interleave l (Ret a) q3 s1 = (Ret a, Ret b, s2)).
  { induction l as [|[|] l IH]; intros Hin; [destruct Hin| |].
    - cbn [interleave]. rewrite Hq. apply interleave_finished.
    - cbn [interleave resume]. apply IH. destruct Hin as [E|Hin]; [discriminate E | exact Hin]. }
  induction rest as [|[|] rest IH]; [destruct Hf| |].
  - cbn [interleave]. rewrite Hq. apply Hqd.
    destruct Hf as [E|Hf]; [discriminate E | exact Hf].
  - cbn [interleave]. rewrite Hp1. apply Hpd.
    destruct Ht as [E|Ht]; [discriminate E | exact Ht].
Qed.

(** The awaits of [castVote], one turn at a time, for a request its poll
    takes: two reads; then the insert, which throws when a row with the
    participant's key is there by then; then the save of the counter the
    handler computed from the poll it had loaded. *)
Lemma castVote_turns (s : Store) (req : CastVoteReq) (now : Date) (user : string)
    (pid : ObjectId) (poll : Poll) :
  names_vote req user pid ->
  polls s !! pid = Some poll ->
  validate_poll poll = true ->
  takes poll pid req now ->
  not_voted s user pid ->
  exists p1 p2 : Prog Response,
    resume (castVote req now) s = (p1, s)
    /\ resume p1 s = (p2, s)
    /\ (forall s', existsb (same_vote_key user pid) (votes s') = true ->
                   resume p2 s' = (Ret cast_failed, s'))
    /\ (forall s', existsb (same_vote_key user pid) (votes s') = false ->
          exists p3 : Prog Response,
            resume p2 s' = (p3, store_after_insert s' pid req now)
            /\ forall s'' stored,
                 polls s'' !! pid = Some stored ->
                 resume p3 s''
                 = (Ret (respond 201 true "Vote cast successfully"
                           (VoteSummary (nextId s') pid
                              (interpolate (cv_selectedOption req)) now)),
                    with_polls s''
                      (<[pid := saved_poll stored poll (totalVotes poll + 1) now]>
                         (polls s'')))).
Proof.
  intros (Hu & Hn & Hp & Hc & Ho) Hl Hval (Ha & Ht & [o Hf] & Hv) Hnv.
  unfold not_voted in Hnv.
  unfold castVote, cast_id, await_poll, await_vote, await_done,
    store_after_insert, cast_row.
  rewrite Hu, Hp, Ho, Hc. cbn [negb orb].
  eexists _, _. split; [cbn [resume exec]; rewrite Hl; reflexivity|].
  rewrite Ha. cbn [negb].
  destruct (Z.ltb_spec (endDate poll) now); [lia|].
  rewrite Hf, Hn.
  split; [cbn [resume exec]; rewrite Hnv; reflexivity|].
  rewrite Hn in Hv. split.
  - intros s' Hex. cbn [resume exec]. rewrite Hv. simpl.
    cbn [nv_userId nv_pollId vote_document]. rewrite Hex. reflexivity.
  - intros s' Hex. eexists. split.
    + cbn [resume exec]. rewrite Hv. simpl.
      cbn [nv_userId nv_pollId vote_document]. rewrite Hex. reflexivity.
    + intros s'' stored Hst. cbn [resume exec].
      rewrite validate_poll_set_totalVotes, Hval. simpl. rewrite Hst. reflexivity.
Qed.

Lemma existsb_appended (f : Vote -> bool) (l : list Vote) (v : Vote) :
  f v = true -> existsb f (l ++ [v]) = true.
Proof.
  intros H. rewrite existsb_app. simpl. rewrite H. apply orb_true_iff. right. reflexivity.
Qed.

(** Both calls have read before either writes: the call whose insert comes
    first is accepted; the other's insert meets the unique index, the store
    throws [DuplicateKey], and the [catch] block answers 500 "Failed to cast
    vote". *)
Lemma castVote_race (s : Store) (req1 req2 : CastVoteReq) (now1 now2 : Date)
    (user : string) (pid : ObjectId) (poll : Poll) (reads rest : list bool) :
  names_vote req1 user pid -> names_vote req2 user pid ->
  polls s !! pid = Some poll ->
  validate_poll poll = true ->
  takes poll pid req1 now1 -> takes poll pid req2 now2 ->
  not_voted s user pid ->
  both_read reads -> both_finish rest ->
  interleave (reads ++ false :: rest) (castVote req1 now1) (castVote req2 now2) s
  = (Ret (fst (run (castVote req1 now1) s)), Ret cast_failed,
     snd (run (castVote req1 now1) s))
  /\ interleave (reads ++ true :: rest) (castVote req1 now1) (castVote req2 now2) s
     = (Ret cast_failed, Ret (fst (run (castVote req2 now2) s)),
        snd (run (castVote req2 now2) s)).
Proof.
  intros Hn1 Hn2 Hl Hval Ht1 Ht2 Hnv Hreads Hrest.
  pose proof Hnv as Hex. apply find_none_existsb in Hex.
  destruct (castVote_turns s req1 now1 user pid poll Hn1 Hl Hval Ht1 Hnv)
    as (p1 & p2 & Hp0 & Hp1 & Hpdup & Hpins).
  destruct (castVote_turns s req2 now2 user pid poll Hn2 Hl Hval Ht2 Hnv)
    as (q1 & q2 & Hq0 & Hq1 & Hqdup & Hqins).
  rewrite (castVote_accepts s req1 now1 user pid poll Hn1 Hl Hval Ht1 Hnv).
  rewrite (castVote_accepts s req2 now2 user pid poll Hn2 Hl Hval Ht2 Hnv).
  cbn [fst snd].
  rewrite !(interleave_reads _ p1 p2 _ q1 q2 s reads _ Hp0 Hp1 Hq0 Hq1 Hreads).
  split.
  - destruct (Hpins s Hex) as (p3 & Hins & Hsave).
    cbn [interleave]. rewrite Hins.
    apply interleave_first_wins; [| | |exact Hrest].
    + rewrite (Hsave (store_after_insert s pid req1 now1) poll Hl).
      unfold store_after_cast, store_after_insert, with_polls. cbn [polls votes petitions nextId].
      rewrite saved_poll_counted by lia. reflexivity.
    + apply Hqdup. cbn [votes store_after_insert].
      apply existsb_appended, cast_row_key, Hn1.
    + apply Hqdup. cbn [votes store_after_cast].
      apply existsb_appended, cast_row_key, Hn1.
  - destruct (Hqins s Hex) as (q3 & Hins & Hsave).
    cbn [interleave]. rewrite Hins.
    apply interleave_second_wins; [| | |exact Hrest].
    + rewrite (Hsave (store_after_insert s pid req2 now2) poll Hl).
      unfold store_after_cast, store_after_insert, with_polls. cbn [polls votes petitions nextId].
      rewrite saved_poll_counted by lia. reflexivity.
    + apply Hpdup. cbn [votes store_after_insert].
      apply existsb_appended, cast_row_key, Hn2.
    + apply Hpdup. cbn [votes store_after_cast].
      apply existsb_appended, cast_row_key, Hn2.
Qed.

Lemma castObjectId_isValid (x : string) (i : ObjectId) :
  castObjectId x = Some i -> ObjectId_isValid x = true.
Proof. unfold ObjectId_isValid. intros ->. reflexivity. Qed.

(** [signPetition] run alone on an existing petition. *)
Lemma signPetition_gate (s : Store) (req : SignPetitionReq) (now : Date)
    (user : string) (i : ObjectId) (p : Petition) :
  names_petition req user i ->
  petitions s !! i = Some p ->
  run (signPetition req now) s
  = if negb (String.eqb (status p) "active")
    then (respond 400 false "Cannot sign this petition - it is not active" NoData, s)
    else
      match find_supporter p (sp_userId req) with
      | Some _ => (respond 400 false "You have already signed this petition" NoData, s)
      | None =>
          match new_supporter req now with
          | None => (respond 500 false "Failed to sign petition" NoData, s)
          | Some supporter =>
              if negb (validate_petition (petition_after_sign p supporter now))
              then (respond 500 false "Failed to sign petition" NoData, s)
              else
                (respond 200 true "Petition signed successfully"
                   (SignedData i (signatures p + 1)
                      (Z.leb (signaturesRequired p) (signatures p + 1))),
                 with_petitions s
                   (<[i := petition_after_sign p supporter now]> (petitions s)))
          end
      end.
Proof.
  intros (Hu & Hn & Hc) Hl.
  unfold signPetition, cast_id, await_petition, await_done.
  rewrite Hu, (castObjectId_isValid _ _ Hc), Hc. simpl. rewrite Hl.
  destruct (String.eqb (status p) "active"); simpl; [|reflexivity].
  destruct (find_supporter p (sp_userId req)); simpl; [reflexivity|].
  destruct (new_supporter req now) as [supporter|]; simpl; [|reflexivity].
  fold (petition_after_sign p supporter now).
  destruct (validate_petition _); simpl; [|reflexivity].
  rewrite Hl. reflexivity.
Qed.

(** A request that names its participant by a string names it. *)
Lemma signs_as_names (req : SignPetitionReq) (user : string) (i : ObjectId) :
  signs_as req user i -> names_petition req user i.
Proof.
  intros (Eu & Hne & Hc). unfold names_petition. rewrite Eu. simpl.
  destruct (String.eqb_spec user ""); [contradiction|]. auto.
Qed.

(** The strict comparison of [signPetition] finds a participant who sent a
    string exactly when that string is in the list. *)
Lemma find_supporter_None (p : Petition) (u : string) :
  find_supporter p (JsText u) = None <-> ~ In u (List.map sup_userId (supporters p)).
Proof.
  unfold find_supporter. induction (supporters p) as [|a l IH]; simpl; [tauto|].
  destruct (String.eqb_spec (sup_userId a) u) as [E|E].
  - split; [discriminate | intros H; exfalso; apply H; left; exact E].
  - rewrite IH. tauto.
Qed.

(** It never finds a participant who sent anything else. *)
Lemma find_supporter_not_string (p : Petition) (v : JsValue) :
  (forall u, v <> JsText u) -> find_supporter p v = None.
Proof.
  intros H. unfold find_supporter.
  induction (supporters p) as [|a l IH]; simpl; [reflexivity|].
  destruct v; try exact IH. exfalso. exact (H s eq_refl).
Qed.

Lemma new_supporter_userId (req : SignPetitionReq) (now : Date) (sup : Supporter) :
  new_supporter req now = Some sup -> cast_string (sp_userId req) = Some (sup_userId sup).
Proof.
  unfold new_supporter. destruct (cast_string (sp_userId req)) as [u|]; [|discriminate].
  destruct (js_truthy (sp_message req)).
  - destruct (cast_string (sp_message req)); [|discriminate]. intros [= <-]. reflexivity.
  - intros [= <-]. reflexivity.
Qed.

(** Two signatures by one participant, named by a string, on one petition, the
    second after the first has finished. *)
Lemma signPetition_twice (s : Store) (req1 req2 : SignPetitionReq) (now1 now2 : Date)
    (user : string) (i : ObjectId) (p : Petition) (sup : Supporter) :
  signs_as req1 user i -> signs_as req2 user i ->
  petitions s !! i = Some p ->
  status p = "active" ->
  find_supporter p (JsText user) = None ->
  new_supporter req1 now1 = Some sup ->
  validate_petition (petition_after_sign p sup now1) = true ->
  let first := run (signPetition req1 now1) s in
  let second := run (signPetition req2 now2) (snd first) in
  Succeeded (fst first) /\ AlreadySigned (fst second) /\ snd second = snd first.
Proof.
  intros Hs1 Hs2 Hl Ha Hf Hsup Hv. cbv zeta.
  pose proof (signs_as_names _ _ _ Hs1) as Hn1.
  pose proof (signs_as_names _ _ _ Hs2) as Hn2.
  rewrite (signPetition_gate s req1 now1 user i p Hn1 Hl).
  destruct Hs1 as (Eu1 & _). destruct Hs2 as (Eu2 & _).
  rewrite Ha, Eu1, Hf, Hsup, Hv. simpl.
  rewrite (signPetition_gate _ req2 now2 user i (petition_after_sign p sup now1) Hn2)
    by (simpl; apply lookup_insert_eq).
  replace (status (petition_after_sign p sup now1)) with "active" by (symmetry; exact Ha).
  simpl. rewrite Eu2.
  destruct (find_supporter (petition_after_sign p sup now1) (JsText user)) eqn:Ef.
  - repeat split.
  - exfalso. apply find_supporter_None in Ef. apply Ef.
    unfold petition_after_sign. simpl. rewrite List.map_app. apply List.in_or_app.
    right. left. simpl.
    apply new_supporter_userId in Hsup. rewrite Eu1 in Hsup. simpl in Hsup. congruence.
Qed.

(** C1 (as amended): two [castVote] calls with the same participant and poll,
    on an open poll whose document passes the validators of its schema, run
    one after the other, end with the first accepted and the second rejected
    as AlreadyVoted by the application's existence read, the second writing
    nothing; likewise [signPetition] and AlreadySigned, when the participant's
    id is sent as a string.  When both [castVote] calls have made their reads
    before either writes, whatever the order of the turns, the duplicate is
    caught by the store's unique index instead: the call whose insert comes
    first is accepted, the other ends with the handler's general failure, 500
    "Failed to cast vote", and the store holds the accepted call's vote
    only. *)
Theorem duplicate_vote_rejected_by_read_or_failed_by_index :
  (forall (s : Store) (req1 req2 : CastVoteReq) (now1 now2 : Date)
          (user : string) (pid : ObjectId) (poll : Poll),
      names_vote req1 user pid -> names_vote req2 user pid ->
      polls s !! pid = Some poll ->
      validate_poll poll = true ->
      takes poll pid req1 now1 -> takes poll pid req2 now2 ->
      not_voted s user pid ->
      let first := run (castVote req1 now1) s in
      let second := run (castVote req2 now2) (snd first) in
      let other := run (castVote req2 now2) s in
      (Succeeded (fst first) /\ AlreadyVoted (fst second) /\ snd second = snd first)
      /\ Succeeded (fst other)
      /\ (forall reads rest : list bool,
            both_read reads -> both_finish rest ->
            interleave (reads ++ false :: rest) (castVote req1 now1) (castVote req2 now2) s
            = (Ret (fst first), Ret cast_failed, snd first)
            /\ interleave (reads ++ true :: rest) (castVote req1 now1) (castVote req2 now2) s
               = (Ret cast_failed, Ret (fst other), snd other))
      /\ votes (snd first) = (votes s ++ [cast_row s pid req1 now1])%list
      /\ votes (snd other) = (votes s ++ [cast_row s pid req2 now2])%list)
  /\ (forall (s : Store) (req1 req2 : SignPetitionReq) (now1 now2 : Date)
             (user : string) (i : ObjectId) (p : Petition) (sup : Supporter),
         signs_as req1 user i -> signs_as req2 user i ->
         petitions s !! i = Some p ->
         status p = "active" ->
         find_supporter p (JsText user) = None ->
         new_supporter req1 now1 = Some sup ->
         validate_petition (petition_after_sign p sup now1) = true ->
         let first := run (signPetition req1 now1) s in
         let second := run (signPetition req2 now2) (snd first) in
         Succeeded (fst first) /\ AlreadySigned (fst second) /\ snd second = snd first).
Proof.
  split.
  - intros s req1 req2 now1 now2 user pid poll Hn1 Hn2 Hl Hval Ht1 Ht2 Hnv. cbv zeta.
    split.
    { exact (castVote_twice s req1 req2 now1 now2 user pid poll Hn1 Hn2 Hl Hval Ht1 Ht2 Hnv). }
    split.
    { rewrite (castVote_accepts s req2 now2 user pid poll Hn2 Hl Hval Ht2 Hnv). reflexivity. }
    split.
    { intros reads rest Hreads Hrest.
      exact (castVote_race s req1 req2 now1 now2 user pid poll reads rest
               Hn1 Hn2 Hl Hval Ht1 Ht2 Hnv Hreads Hrest). }
    rewrite (castVote_accepts s req1 now1 user pid poll Hn1 Hl Hval Ht1 Hnv).
    rewrite (castVote_accepts s req2 now2 user pid poll Hn2 Hl Hval Ht2 Hnv).
    split; reflexivity.
  - intros s req1 req2 now1 now2 user i p sup. apply signPetition_twice.
Qed.

Lemma duplicate_vote_rejected_by_read_or_failed_by_index_witness :
  let req1 := cast_req "alice" "yes" in
  let req2 := cast_req "alice" "no" in
  let first := run (castVote req1 1500) sample_store in
  let second := run (castVote req2 1600) (snd first) in
  let other := run (castVote req2 1600) sample_store in
  let signed := run (signPetition (sign_req "alice") 1500) petition_store in
  let resigned := run (signPetition (sign_req "alice") 1600) (snd signed) in
  (names_vote req1 "alice" 1%N /\ names_vote req2 "alice" 1%N
   /\ polls sample_store !! 1%N = Some sample_poll
   /\ validate_poll sample_poll = true
   /\ takes sample_poll 1%N req1 1500 /\ takes sample_poll 1%N req2 1600
   /\ not_voted sample_store "alice" 1%N)
  /\ (Succeeded (fst first) /\ AlreadyVoted (fst second) /\ snd second = snd first)
  /\ (both_read [false; false; true; true] /\ both_finish [false; true]
      /\ both_finish [true; false])
  /\ interleave reads_before_writes (castVote req1 1500) (castVote req2 1600) sample_store
     = (Ret (fst first), Ret cast_failed, snd first)
  /\ interleave reads_then_second_writes (castVote req1 1500) (castVote req2 1600)
       sample_store
     = (Ret cast_failed, Ret (fst other), snd other)
  /\ (signs_as (sign_req "alice") "alice" 7%N
      /\ petitions petition_store !! 7%N = Some sample_petition
      /\ find_supporter sample_petition (JsText "alice") = None
      /\ new_supporter (sign_req "alice") 1500 = Some (plain_supporter "alice" 1500)
      /\ validate_petition
           (petition_after_sign sample_petition (plain_supporter "alice" 1500) 1500) = true)
  /\ (Succeeded (fst signed) /\ AlreadySigned (fst resigned) /\ snd resigned = snd signed).
Proof.
  cbv zeta.
  assert (Hn1 : names_vote (cast_req "alice" "yes") "alice" 1%N) by (repeat split).
  assert (Hn2 : names_vote (cast_req "alice" "no") "alice" 1%N) by (repeat split).
  assert (Hl : polls sample_store !! 1%N = Some sample_poll) by reflexivity.
  assert (Hval : validate_poll sample_poll = true) by reflexivity.
  assert (Ht1 : takes sample_poll 1%N (cast_req "alice" "yes") 1500).
  { repeat split; try reflexivity; try (simpl; lia). eexists; reflexivity. }
  assert (Ht2 : takes sample_poll 1%N (cast_req "alice" "no") 1600).
  { repeat split; try reflexivity; try (simpl; lia). eexists; reflexivity. }
  assert (Hnv : not_voted sample_store "alice" 1%N) by reflexivity.
  assert (Hreads : both_read [false; false; true; true]) by (split; reflexivity).
  assert (Hr1 : both_finish [false; true]) by (split; simpl; auto).
  assert (Hr2 : both_finish [true; false]) by (split; simpl; auto).
  assert (Hp : signs_as (sign_req "alice") "alice" 7%N)
    by (split; [reflexivity | split; [discriminate | reflexivity]]).
  assert (Hlp : petitions petition_store !! 7%N = Some sample_petition) by reflexivity.
  assert (Hf : find_supporter sample_petition (JsText "alice") = None) by reflexivity.
  assert (Hsup : new_supporter (sign_req "alice") 1500 = Some (plain_supporter "alice" 1500))
    by reflexivity.
  assert (Hvp : validate_petition
                  (petition_after_sign sample_petition (plain_supporter "alice" 1500) 1500)
                = true) by reflexivity.
  split; [tauto|].
  pose proof (proj1 duplicate_vote_rejected_by_read_or_failed_by_index
                sample_store (cast_req "alice" "yes") (cast_req "alice" "no") 1500 1600
                "alice" 1%N sample_poll Hn1 Hn2 Hl Hval Ht1 Ht2 Hnv)
    as (Hseq & _ & Hrace & _).
  split; [exact Hseq|]. split; [tauto|].
  split; [exact (proj1 (Hrace [false; false; true; true] [false; true] Hreads Hr1))|].
  split; [exact (proj2 (Hrace [false; false; true; true] [true; false] Hreads Hr2))|].
  split; [tauto|].
  exact (proj2 duplicate_vote_rejected_by_read_or_failed_by_index
           petition_store (sign_req "alice") (sign_req "alice") 1500 1600
           "alice" 7%N sample_petition (plain_supporter "alice" 1500)
           Hp Hp Hlp eq_refl Hf Hsup Hvp).
Defined.

(** C1, as stated, fails: with both calls in flight, the call whose insert
    meets the unique index is not answered AlreadyVoted but 500 "Failed to
    cast vote"; which of the two calls that is depends on whose insert comes
    first. *)
Lemma duplicate_caught_by_index_is_not_AlreadyVoted :
  (exists r1 r2 s,
      interleave reads_before_writes
        (castVote (cast_req "alice" "yes") 1500) (castVote (cast_req "alice" "no") 1500)
        sample_store
      = (Ret r1, Ret r2, s)
      /\ Succeeded r1
      /\ List.map selectedOption (votes s) = ["yes"]
      /\ code r2 = 500 /\ message r2 = "Failed to cast vote"
      /\ ~ AlreadyVoted r2)
  /\ (exists r1 r2 s,
         interleave reads_then_second_writes
           (castVote (cast_req "alice" "yes") 1500) (castVote (cast_req "alice" "no") 1500)
           sample_store
         = (Ret r1, Ret r2, s)
         /\ Succeeded r2
         /\ List.map selectedOption (votes s) = ["no"]
         /\ code r1 = 500 /\ message r1 = "Failed to cast vote"
         /\ ~ AlreadyVoted r1).
Proof.
  split; (eexists _, _, _; split; [vm_compute; reflexivity|];
          repeat split; intros [H _]; discriminate H).
Qed.

(** ** Supporters of a petition *)

(** What [signPetition], run alone, can do to the store: nothing, or push one
    supporter whom its comparison did not find in the list it read. *)
Lemma signPetition_store (s : Store) (req : SignPetitionReq) (now : Date) :
  snd (run (signPetition req now) s) = s
  \/ exists i p sup,
       petitions s !! i = Some p
       /\ find_supporter p (sp_userId req) = None
       /\ new_supporter req now = Some sup
       /\ snd (run (signPetition req now) s)
          = with_petitions s (<[i := petition_after_sign p sup now]> (petitions s)).
Proof.
  unfold signPetition, cast_id, await_petition, await_done.
  destruct (js_truthy (sp_userId req)); simpl; [|left; reflexivity].
  destruct (ObjectId_isValid (sp_petitionId req)); simpl; [|left; reflexivity].
  destruct (castObjectId (sp_petitionId req)) as [i|]; simpl; [|left; reflexivity].
  destruct (petitions s !! i) as [p|] eqn:El; simpl; [|left; reflexivity].
  destruct (String.eqb (status p) "active"); simpl; [|left; reflexivity].
  destruct (find_supporter p (sp_userId req)) eqn:Ef; simpl; [left; reflexivity|].
  destruct (new_supporter req now) as [sup|] eqn:Es; simpl; [|left; reflexivity].
  fold (petition_after_sign p sup now).
  destruct (validate_petition _); simpl; [|left; reflexivity].
  rewrite El. simpl. right. exists i, p, sup. auto.
Qed.

(** What [updatePetitionStatus] can do to the store: nothing, or rewrite one
    petition's status, notes and timeline. *)
Lemma updatePetitionStatus_store (s : Store) (req : UpdateStatusReq) (now : Date) :
  snd (run (updatePetitionStatus req now) s) = s
  \/ exists i p,
       petitions s !! i = Some p
       /\ snd (run (updatePetitionStatus req now) s)
          = with_petitions s
              (<[i := apply_status_update p (us_status req) (us_adminNotes req) now
                        (status_entry (us_status req) now)]> (petitions s)).
Proof.
  unfold updatePetitionStatus, cast_id, await_petition.
  destruct (ObjectId_isValid (us_id req)); simpl; [|left; reflexivity].
  destruct (castObjectId (us_id req)) as [i|]; simpl; [|left; reflexivity].
  destruct (petitions s !! i) as [p|] eqn:El; simpl; [|left; reflexivity].
  right. exists i, p. auto.
Qed.

Lemma perform_petition_unique (s : Store) (op : PetitionOp) :
  string_ids [op] ->
  supporters_unique s -> supporters_unique (perform_petition s op).
Proof.
  intros Hid Hs. unfold perform_petition. destruct op as [req now|req now]; simpl.
  - destruct (signPetition_store s req now) as [->|(i & p & sup & Hl & Hf & Hsup & ->)];
      [exact Hs|].
    destruct (Hid req now (or_introl eq_refl)) as [user Eu].
    apply new_supporter_userId in Hsup. rewrite Eu in Hsup, Hf. simpl in Hsup.
    injection Hsup as Hsup.
    intros j q. simpl. rewrite lookup_insert. case_decide as E.
    + intros [= <-]. simpl. rewrite List.map_app. simpl.
      apply find_supporter_None in Hf.
      specialize (Hs i p Hl).
      apply NoDup_app. split; [exact Hs|]. split.
      * intros x Hx Hx'. apply list_elem_of_In in Hx.
        apply list_elem_of_singleton in Hx'. subst x. rewrite <- Hsup in Hx. contradiction.
      * apply NoDup_singleton.
    + apply Hs.
  - destruct (updatePetitionStatus_store s req now) as [->|(i & p & Hl & ->)]; [exact Hs|].
    intros j q. simpl. rewrite lookup_insert. case_decide as E.
    + intros [= <-]. simpl. exact (Hs i p Hl).
    + apply Hs.
Qed.

(** C3 (as amended): in every state reached from one with unique supporters by
    [signPetition] and [updatePetitionStatus] calls that run one after the
    other and in which every signing participant's id is sent as a string, a
    petition's supporters list has at most one entry per participant; and a
    [signPetition] call on an active petition by a participant, named by a
    string, who is already in its supporters list answers AlreadySigned and
    leaves the whole store unchanged.  The uniqueness rests on the handler's
    own read of the list. *)
Theorem supporters_unique_when_calls_run_in_turn :
  (forall (s : Store) (ops : list PetitionOp),
      string_ids ops ->
      supporters_unique s -> supporters_unique (perform_petitions ops s))
  /\ (forall (s : Store) (req : SignPetitionReq) (now : Date) (user : string)
             (i : ObjectId) (p : Petition),
         signs_as req user i ->
         petitions s !! i = Some p ->
         status p = "active" ->
         In user (List.map sup_userId (supporters p)) ->
         AlreadySigned (fst (run (signPetition req now) s))
         /\ snd (run (signPetition req now) s) = s).
Proof.
  split.
  - intros s ops. revert s. unfold perform_petitions.
    induction ops as [|op ops IH]; intros s Hid Hs; simpl; [exact Hs|].
    apply IH.
    + intros req now Hin. apply (Hid req now). right. exact Hin.
    + apply perform_petition_unique; [|exact Hs].
      intros req now [E|[]]. apply (Hid req now). left. exact E.
  - intros s req now user i p Hsa Hl Ha Hin.
    rewrite (signPetition_gate s req now user i p (signs_as_names _ _ _ Hsa) Hl), Ha. simpl.
    destruct Hsa as (Eu & _). rewrite Eu.
    destruct (find_supporter p (JsText user)) eqn:Ef.
    + repeat split.
    + apply find_supporter_None in Ef. contradiction.
Qed.

Lemma supporters_unique_when_calls_run_in_turn_witness :
  let ops := [SignPetition (sign_req "alice") 1500; SignPetition (sign_req "alice") 1600;
              SignPetition (sign_req "bob") 1700] in
  (string_ids ops /\ supporters_unique petition_store
   /\ supporters_unique (perform_petitions ops petition_store))
  /\ (signs_as (sign_req "alice") "alice" 7%N
      /\ petitions signed_store !! 7%N
         = Some (petition_after_sign sample_petition (plain_supporter "alice" 1500) 1500)
      /\ AlreadySigned (fst (run (signPetition (sign_req "alice") 1600) signed_store))
      /\ snd (run (signPetition (sign_req "alice") 1600) signed_store) = signed_store).
Proof.
  cbv zeta.
  assert (Hid : string_ids
                  [SignPetition (sign_req "alice") 1500; SignPetition (sign_req "alice") 1600;
                   SignPetition (sign_req "bob") 1700]).
  { intros req now [E|[E|[E|[]]]]; injection E as <- _; eexists; reflexivity. }
  assert (Hu : supporters_unique petition_store).
  { intros i p H. unfold petition_store in H. cbn [petitions] in H.
    apply lookup_singleton_Some in H as [_ <-]. simpl. constructor. }
  assert (Hn : signs_as (sign_req "alice") "alice" 7%N)
    by (split; [reflexivity | split; [discriminate | reflexivity]]).
  assert (Hl : petitions signed_store !! 7%N
               = Some (petition_after_sign sample_petition (plain_supporter "alice" 1500) 1500))
    by reflexivity.
  split.
  - split; [exact Hid|]. split; [exact Hu|].
    exact (proj1 supporters_unique_when_calls_run_in_turn petition_store _ Hid Hu).
  - split; [exact Hn|]. split; [exact Hl|].
    apply (proj2 supporters_unique_when_calls_run_in_turn signed_store
             (sign_req "alice") 1600 "alice" 7%N
             (petition_after_sign sample_petition (plain_supporter "alice" 1500) 1500) Hn Hl).
    + reflexivity.
    + simpl. left. reflexivity.
Defined.

(** C3, as stated, fails: the supporters array has no store-level constraint,
    so two [signPetition] calls by one participant that both load the petition
    before either saves it both succeed and leave two entries for that
    participant. *)
Lemma concurrent_signatures_duplicate_supporter :
  exists r1 r2 s p,
    interleave loads_before_saves
      (signPetition (sign_req "alice") 1500) (signPetition (sign_req "alice") 1501)
      petition_store
    = (Ret r1, Ret r2, s)
    /\ Succeeded r1 /\ Succeeded r2
    /\ petitions s !! 7%N = Some p
    /\ List.map sup_userId (supporters p) = ["alice"; "alice"]
    /\ signatures p = 1
    /\ ~ supporters_unique s.
Proof.
  eexists _, _, _, _. split; [vm_compute; reflexivity|].
  split; [reflexivity|]. split; [reflexivity|].
  split; [vm_compute; reflexivity|].
  split; [reflexivity|]. split; [reflexivity|].
  intros H. specialize (H 7%N _ eq_refl). simpl in H.
  apply NoDup_cons in H as [H _]. apply H. left.
Qed.

(** A message's [maxlength: 500] counts UTF-16 code units, as the [length] of
    a JavaScript string does: 167 Devanagari letters are 501 bytes and pass. *)
Example message_length_in_code_units :
  let r := run (signPetition (sign_req_saying "alice" long_message) 1500) petition_store in
  String.length long_message = 501%nat
  /\ utf16_length long_message = 167%nat
  /\ Succeeded (fst r)
  /\ (List.map sup_message <$> (supporters <$> petitions (snd r) !! 7%N))
     = Some [Some long_message].
Proof. cbv zeta. split; [reflexivity|]. split; [reflexivity|]. split; vm_compute; reflexivity. Qed.

(** The handler's read compares the stored string with the value the client
    sent, and a number is never strictly equal to a string: a participant
    whose id arrives as the number 5 is stored as "5", is not found by the
    next call, and signs again, the calls running one after the other. *)
Example numeric_id_signs_twice :
  let first := run (signPetition (sign_req_number 5) 1500) petition_store in
  let second := run (signPetition (sign_req_number 5) 1600) (snd first) in
  supporters_unique petition_store
  /\ Succeeded (fst first) /\ Succeeded (fst second)
  /\ (List.map sup_userId <$> (supporters <$> petitions (snd second) !! 7%N))
     = Some ["5"; "5"]
  /\ (signatures <$> petitions (snd second) !! 7%N) = Some 2
  /\ ~ supporters_unique (snd second).
Proof.
  cbv zeta. split.
  { intros i p H. unfold petition_store in H. cbn [petitions] in H.
    apply lookup_singleton_Some in H as [_ <-]. simpl. constructor. }
  split; [reflexivity|]. split; [reflexivity|].
  split; [vm_compute; reflexivity|]. split; [vm_compute; reflexivity|].
  intros H.
  assert (Hl : exists p, petitions
                 (snd (run (signPetition (sign_req_number 5) 1600)
                         (snd (run (signPetition (sign_req_number 5) 1500) petition_store))))
                 !! 7%N = Some p
               /\ List.map sup_userId (supporters p) = ["5"; "5"]).
  { eexists. split; [vm_compute; reflexivity | reflexivity]. }
  destruct Hl as (p & Hl & Hm). specialize (H 7%N p Hl). rewrite Hm in H.
  apply NoDup_cons in H as [H _]. apply H. left.
Qed.

(** ** Petition status *)

Lemma updatePetitionStatus_sets (s : Store) (req : UpdateStatusReq) (now : Date)
    (i : ObjectId) (p : Petition) :
  castObjectId (us_id req) = Some i ->
  petitions s !! i = Some p ->
  let p' := apply_status_update p (us_status req) (us_adminNotes req) now
              (status_entry (us_status req) now) in
  run (updatePetitionStatus req now) s
  = (respond 200 true "Petition status updated successfully" (PetitionData p'),
     with_petitions s (<[i := p']> (petitions s))).
Proof.
  intros Hc Hl. unfold updatePetitionStatus, cast_id, await_petition.
  rewrite (castObjectId_isValid _ _ Hc), Hc. simpl. rewrite Hl. reflexivity.
Qed.

Lemma patchPetitionStatus_sets (s : Store) (req : UpdateStatusReq) (now : Date)
    (i : ObjectId) (p : Petition) :
  castObjectId (us_id req) = Some i ->
  petitions s !! i = Some p ->
  run (patchPetitionStatus req now) s
  = if includes_status (us_status req)
    then
      let p' := apply_status_update p (us_status req) (us_adminNotes req) now
                  (status_entry (us_status req) now) in
      (respond 200 true "Petition status updated" (PetitionData p'),
       with_petitions s (<[i := p']> (petitions s)))
    else (respond 400 false "Invalid status" NoData, s).
Proof.
  intros Hc Hl. unfold patchPetitionStatus, cast_id, await_petition.
  destruct (includes_status (us_status req)); simpl; [|reflexivity].
  rewrite Hc. simpl. rewrite Hl. reflexivity.
Qed.

(** C2 (as amended): [updatePetitionStatus] has no transition table.  On an
    existing petition it succeeds for every current status and every requested
    status, sets the status to the requested one and appends a "Status
    Updated" timeline entry, leaving supporters and the signature counter as
    they were.  The admin route does the same for a requested status among
    active, submitted, resolved and rejected, and answers 400 "Invalid status"
    for any other, leaving the store unchanged. *)
Theorem updatePetitionStatus_accepts_every_transition
    (s : Store) (req : UpdateStatusReq) (now : Date) (i : ObjectId)
    (p : Petition) (requested : string) :
  castObjectId (us_id req) = Some i ->
  petitions s !! i = Some p ->
  us_status req = Some requested ->
  (let r := run (updatePetitionStatus req now) s in
   Succeeded (fst r)
   /\ exists p', petitions (snd r) !! i = Some p'
        /\ status p' = requested
        /\ timeline p' = (timeline p ++ [status_entry (Some requested) now])%list
        /\ supporters p' = supporters p /\ signatures p' = signatures p)
  /\ (let r := run (patchPetitionStatus req now) s in
      if includes_status (Some requested)
      then Succeeded (fst r)
           /\ exists p', petitions (snd r) !! i = Some p'
                /\ status p' = requested
                /\ timeline p' = (timeline p ++ [status_entry (Some requested) now])%list
                /\ supporters p' = supporters p /\ signatures p' = signatures p
      else message (fst r) = "Invalid status" /\ code (fst r) = 400 /\ snd r = s).
Proof.
  intros Hc Hl Hs. split; cbv zeta.
  - rewrite (updatePetitionStatus_sets s req now i p Hc Hl). cbv zeta. simpl.
    split; [reflexivity|]. eexists. split; [apply lookup_insert_eq|].
    rewrite Hs. simpl. auto.
  - rewrite (patchPetitionStatus_sets s req now i p Hc Hl). rewrite Hs.
    destruct (includes_status (Some requested)); simpl.
    + split; [reflexivity|]. eexists. split; [apply lookup_insert_eq|].
      simpl. auto.
    + auto.
Qed.

Lemma updatePetitionStatus_accepts_every_transition_witness :
  castObjectId (us_id (status_req "submitted")) = Some 7%N
  /\ petitions petition_store !! 7%N = Some sample_petition
  /\ (let r := run (updatePetitionStatus (status_req "submitted") 3000) petition_store in
      Succeeded (fst r)
      /\ exists p', petitions (snd r) !! 7%N = Some p'
           /\ status p' = "submitted"
           /\ timeline p' = (timeline sample_petition ++ [status_entry (Some "submitted") 3000])%list
           /\ supporters p' = supporters sample_petition
           /\ signatures p' = signatures sample_petition).
Proof.
  assert (Hc : castObjectId (us_id (status_req "submitted")) = Some 7%N) by reflexivity.
  assert (Hl : petitions petition_store !! 7%N = Some sample_petition) by reflexivity.
  split; [exact Hc|]. split; [exact Hl|].
  exact (proj1 (updatePetitionStatus_accepts_every_transition petition_store
                  (status_req "submitted") 3000 7%N sample_petition "submitted"
                  Hc Hl eq_refl)).
Defined.

(** C2, as stated, fails: a resolved petition is set back to active, by the
    controller and by the admin route alike; the call succeeds and the status
    and the timeline change. *)
Lemma resolved_petition_reopened :
  let r := run (updatePetitionStatus (status_req "active") 3000) resolved_store in
  let r' := run (patchPetitionStatus (status_req "active") 3000) resolved_store in
  status resolved_petition = "resolved"
  /\ Succeeded (fst r) /\ code (fst r) = 200
  /\ (status <$> petitions (snd r) !! 7%N) = Some "active"
  /\ (List.length <$> (timeline <$> petitions (snd r) !! 7%N)) = Some 1%nat
  /\ Succeeded (fst r')
  /\ (status <$> petitions (snd r') !! 7%N) = Some "active".
Proof. cbv zeta. repeat split. Qed.

(** ** updateVote and deleteVote run alone *)

Lemma find_has_id (i : ObjectId) (l : list Vote) (v : Vote) :
  List.find (has_id i) l = Some v -> vote_id v = i.
Proof.
  intros H. apply List.find_some in H as [_ H].
  unfold has_id in H. apply N.eqb_eq in H. exact H.
Qed.

Lemma updateVote_gate (s : Store) (req : UpdateVoteReq) (now : Date)
    (i : ObjectId) (v : Vote) (poll : Poll) :
  targets s (uv_voteId req) i v poll ->
  run (updateVote req now) s
  = if negb (isActive poll) || Z.ltb (endDate poll) now
    then (respond 400 false "Cannot update vote - poll is closed" NoData, s)
    else if negb (validate_vote (updated_vote v req))
    then (respond 500 false "Failed to update vote" NoData, s)
    else (respond 200 true "Vote updated successfully"
            (VoteData (saved_vote (updated_vote v req) v (updated_vote v req) now)),
          store_after_update s i v req now).
Proof.
  intros (Hc & Hf & Hl).
  unfold updateVote, cast_id, await_vote, await_poll, await_done.
  rewrite Hc. simpl. rewrite Hf. simpl. rewrite Hl. simpl.
  destruct (negb (isActive poll) || Z.ltb (endDate poll) now); simpl; [reflexivity|].
  fold (updated_vote v req).
  destruct (validate_vote (updated_vote v req)); simpl; [|reflexivity].
  pose proof (find_has_id i _ v Hf) as Hi. rewrite Hi.
  rewrite (find_some_existsb _ _ _ Hf).
  unfold store_after_update, vote_after_update. f_equal. f_equal.
  apply (update_first_ext _ _ _ _ v Hf). reflexivity.
Qed.

(** [deleteVote] on a stored vote, case by case.  The delete and the counter
    are two operations: when the poll document fails a validator of its
    schema, the row is gone, the counter stays, and the answer is the
    handler's general failure. *)
Lemma deleteVote_gate (s : Store) (req : DeleteVoteReq) (now : Date)
    (i : ObjectId) (v : Vote) (poll : Poll) :
  targets s (dv_voteId req) i v poll ->
  run (deleteVote req now) s
  = if negb (isActive poll) || Z.ltb (endDate poll) now
    then (respond 400 false "Cannot delete vote - poll is closed" NoData, s)
    else if negb (validate_poll poll)
    then (respond 500 false "Failed to delete vote" NoData, store_after_removal s i)
    else (respond 200 true "Vote deleted successfully" NoData,
          store_after_delete s i v poll now).
Proof.
  intros (Hc & Hf & Hl).
  unfold deleteVote, cast_id, await_vote, await_poll, await_done.
  rewrite Hc. simpl. rewrite Hf. simpl. rewrite Hl. simpl.
  destruct (negb (isActive poll) || Z.ltb (endDate poll) now); simpl; [reflexivity|].
  rewrite validate_poll_set_totalVotes.
  destruct (validate_poll poll); simpl; [|reflexivity].
  rewrite Hl. reflexivity.
Qed.

(** Either handler answers without success, and without a write, unless its
    request reaches a vote and that vote's poll. *)
Lemma updateVote_untargeted (s : Store) (req : UpdateVoteReq) (now : Date) :
  (exists i v poll, targets s (uv_voteId req) i v poll)
  \/ (success (fst (run (updateVote req now) s)) = false
      /\ snd (run (updateVote req now) s) = s).
Proof.
  unfold updateVote, cast_id, await_vote, await_poll, await_done, targets.
  destruct (castObjectId (uv_voteId req)) as [i|]; simpl; [|right; auto].
  destruct (List.find (has_id i) (votes s)) as [v|] eqn:Ef; simpl; [|right; auto].
  destruct (polls s !! pollId v) as [poll|] eqn:El; simpl; [|right; auto].
  left. exists i, v, poll. auto.
Qed.

Lemma deleteVote_untargeted (s : Store) (req : DeleteVoteReq) (now : Date) :
  (exists i v poll, targets s (dv_voteId req) i v poll)
  \/ (success (fst (run (deleteVote req now) s)) = false
      /\ snd (run (deleteVote req now) s) = s).
Proof.
  unfold deleteVote, cast_id, await_vote, await_poll, await_done, targets.
  destruct (castObjectId (dv_voteId req)) as [i|]; simpl; [|right; auto].
  destruct (List.find (has_id i) (votes s)) as [v|] eqn:Ef; simpl; [|right; auto].
  destruct (polls s !! pollId v) as [poll|] eqn:El; simpl; [|right; auto].
  left. exists i, v, poll. auto.
Qed.

Lemma closed_gate (poll : Poll) (now : Date) :
  negb (isActive poll) || Z.ltb (endDate poll) now = false <-> editable poll now.
Proof.
  unfold editable. destruct (isActive poll); simpl.
  - rewrite Z.ltb_ge. tauto.
  - split; [discriminate | intros [? _]; discriminate].
Qed.

(** C6 (as amended): [updateVote] and [deleteVote] succeed only when the
    request reaches a stored vote whose poll is active and not past its end
    date; who is calling plays no part: the handlers never read the caller's
    id, and the same request sent by anybody has the same outcome. *)
Theorem vote_edits_gated_by_poll_not_by_caller :
  (forall (s : Store) (req : UpdateVoteReq) (now : Date),
      Succeeded (fst (run (updateVote req now) s)) ->
      exists i v poll, targets s (uv_voteId req) i v poll /\ editable poll now)
  /\ (forall (s : Store) (req : DeleteVoteReq) (now : Date),
         Succeeded (fst (run (deleteVote req now) s)) ->
         exists i v poll, targets s (dv_voteId req) i v poll /\ editable poll now)
  /\ (forall (s : Store) (req : UpdateVoteReq) (now : Date) (caller : JsString),
         run (updateVote (uv_with_caller req caller) now) s = run (updateVote req now) s)
  /\ (forall (s : Store) (req : DeleteVoteReq) (now : Date) (caller : JsString),
         run (deleteVote (dv_with_caller req caller) now) s = run (deleteVote req now) s).
Proof.
  unfold Succeeded. repeat split.
  - intros s req now H.
    destruct (updateVote_untargeted s req now) as [(i & v & poll & Ht)|[E _]];
      [|congruence].
    exists i, v, poll. split; [exact Ht|].
    rewrite (updateVote_gate s req now i v poll Ht) in H.
    apply closed_gate.
    destruct (negb (isActive poll) || Z.ltb (endDate poll) now); [discriminate H|reflexivity].
  - intros s req now H.
    destruct (deleteVote_untargeted s req now) as [(i & v & poll & Ht)|[E _]];
      [|congruence].
    exists i, v, poll. split; [exact Ht|].
    rewrite (deleteVote_gate s req now i v poll Ht) in H.
    apply closed_gate.
    destruct (negb (isActive poll) || Z.ltb (endDate poll) now); [discriminate H|reflexivity].
Qed.

Lemma vote_edits_gated_by_poll_not_by_caller_witness :
  (Succeeded (fst (run (updateVote (update_req "alice" (Some "no")) 1600) voted_store))
   /\ Succeeded (fst (run (deleteVote (delete_req "alice") 1600) voted_store)))
  /\ (exists i v poll,
         targets voted_store (uv_voteId (update_req "alice" (Some "no"))) i v poll
         /\ editable poll 1600)
  /\ (exists i v poll,
         targets voted_store (dv_voteId (delete_req "alice")) i v poll
         /\ editable poll 1600).
Proof.
  assert (H : Succeeded
                (fst (run (updateVote (update_req "alice" (Some "no")) 1600) voted_store)))
    by reflexivity.
  assert (H' : Succeeded (fst (run (deleteVote (delete_req "alice") 1600) voted_store)))
    by reflexivity.
  split; [auto|]. split.
  - exact (proj1 vote_edits_gated_by_poll_not_by_caller voted_store
             (update_req "alice" (Some "no")) 1600 H).
  - exact (proj1 (proj2 vote_edits_gated_by_poll_not_by_caller) voted_store
             (delete_req "alice") 1600 H').
Defined.

(** C6, as stated, fails: "mallory" changes, and then deletes, the vote that
    "alice" cast; both calls succeed, and the delete takes the poll's counter
    from 1 to 0. *)
Lemma another_participant_edits_the_vote :
  let updated := run (updateVote (update_req "mallory" (Some "no")) 1600) voted_store in
  let deleted := run (deleteVote (delete_req "mallory") 1700) voted_store in
  votes voted_store = [alice_vote] /\ userId alice_vote = "alice"
  /\ (totalVotes <$> polls voted_store !! 1%N) = Some 1
  /\ Succeeded (fst updated)
  /\ List.map selectedOption (votes (snd updated)) = ["no"]
  /\ Succeeded (fst deleted)
  /\ votes (snd deleted) = []
  /\ (totalVotes <$> polls (snd deleted) !! 1%N) = Some 0.
Proof. cbv zeta. repeat split. Qed.

Lemma same_rating_refl (r : option Q) : same_rating r r = true.
Proof. destruct r as [q|]; [apply Qeq_bool_iff; reflexivity | reflexivity]. Qed.

Lemma same_string_eq (a b : JsString) : same_string a b = true -> a = b.
Proof.
  destruct a as [x|], b as [y|]; simpl; try discriminate; [|reflexivity].
  intros H. apply String.eqb_eq in H. congruence.
Qed.

(** The vote [updateVote] stores, field by field. *)
Lemma vote_after_update_fields (v : Vote) (req : UpdateVoteReq) (now : Date) :
  let v' := vote_after_update v req now in
  selectedOption v' = js_or (uv_selectedOption req) (selectedOption v)
  /\ same_rating (rating v') (uv_rating req) = true
  /\ emoji v' = uv_emoji req
  /\ vote_id v' = vote_id v /\ userId v' = userId v /\ pollId v' = pollId v
  /\ metadata v' = metadata v /\ isValid v' = isValid v /\ createdAt v' = createdAt v
  /\ vote_updatedAt v' = if changes_vote v req then now else vote_updatedAt v.
Proof.
  cbv zeta. unfold vote_after_update, saved_vote, changes_vote, updated_vote.
  cbn [selectedOption rating emoji set_choice].
  destruct (String.eqb_spec (js_or (uv_selectedOption req) (selectedOption v))
              (selectedOption v)) as [Eo|Eo];
    destruct (same_rating (uv_rating req) (rating v)) eqn:Er;
    destruct (same_string (uv_emoji req) (emoji v)) eqn:Ee;
    cbn [andb negb]; cbn;
    repeat match goal with
           | |- _ /\ _ => split
           end;
    try reflexivity; try (symmetry; assumption); try apply same_rating_refl;
    try (symmetry; apply same_string_eq; assumption).
  all: try (destruct (rating v) as [x|], (uv_rating req) as [y|]; simpl in *;
            try discriminate; try reflexivity;
            apply Qeq_bool_iff; apply Qeq_bool_iff in Er; symmetry; exact Er).
Qed.

(** C10 (as amended): when [updateVote] reaches a stored vote whose poll is
    active and not past its end date, and the vote as updated passes the
    validators of its schema, the update succeeds; the stored vote keeps its
    previous option when the request's option is absent or empty and takes the
    request's option otherwise, and takes the request's rating and emoji
    whatever they are, so a request without them erases the stored ones.  Its
    id, participant, poll, metadata, validity flag and creation time, the
    other votes, the polls (their counters with them) and the petitions stay
    as they were; its [updatedAt] is set to the time of the update when the
    update changed the option, the rating or the emoji. *)
Theorem updateVote_overwrites_rating_and_emoji
    (s : Store) (req : UpdateVoteReq) (now : Date) (i : ObjectId) (v : Vote) (poll : Poll) :
  targets s (uv_voteId req) i v poll ->
  editable poll now ->
  validate_vote (updated_vote v req) = true ->
  let r := run (updateVote req now) s in
  let v' := vote_after_update v req now in
  Succeeded (fst r)
  /\ List.find (has_id i) (votes (snd r)) = Some v'
  /\ votes (snd r) = update_first (has_id i) (fun _ => v') (votes s)
  /\ polls (snd r) = polls s
  /\ petitions (snd r) = petitions s
  /\ (truthy (uv_selectedOption req) = false -> selectedOption v' = selectedOption v)
  /\ (truthy (uv_selectedOption req) = true ->
      selectedOption v' = interpolate (uv_selectedOption req))
  /\ same_rating (rating v') (uv_rating req) = true
  /\ emoji v' = uv_emoji req
  /\ (uv_rating req = None -> rating v' = None)
  /\ (uv_emoji req = None -> emoji v' = None)
  /\ vote_id v' = vote_id v /\ userId v' = userId v /\ pollId v' = pollId v
  /\ metadata v' = metadata v /\ isValid v' = isValid v /\ createdAt v' = createdAt v
  /\ vote_updatedAt v' = (if changes_vote v req then now else vote_updatedAt v).
Proof.
  intros Ht He Hv. cbv zeta.
  rewrite (updateVote_gate s req now i v poll Ht).
  apply closed_gate in He. rewrite He, Hv. cbn [negb fst snd].
  destruct Ht as (Hc & Hf & Hl).
  destruct (vote_after_update_fields v req now)
    as (Fo & Fr & Fe & Fi & Fu & Fp & Fm & Fv & Fc & Ft).
  split; [reflexivity|].
  split.
  { apply (update_first_find (has_id i) (fun _ => vote_after_update v req now) (votes s) v Hf).
    unfold has_id. rewrite Fi, (find_has_id i _ v Hf). apply N.eqb_refl. }
  split; [reflexivity|]. split; [reflexivity|]. split; [reflexivity|].
  split.
  { rewrite Fo. unfold js_or. destruct (uv_selectedOption req) as [o|]; simpl; [|reflexivity].
    destruct (String.eqb o ""); [reflexivity | discriminate]. }
  split.
  { rewrite Fo. unfold js_or. destruct (uv_selectedOption req) as [o|]; simpl; [|discriminate].
    destruct (String.eqb o ""); [discriminate | reflexivity]. }
  split; [exact Fr|]. split; [exact Fe|].
  split.
  { intros E. rewrite E in Fr. destruct (rating (vote_after_update v req now));
      [discriminate Fr | reflexivity]. }
  split; [intros E; rewrite Fe; exact E|].
  repeat split; assumption.
Qed.

Lemma updateVote_overwrites_rating_and_emoji_witness :
  let req := update_req "alice" None in
  let r := run (updateVote req 1600) reaction_store in
  (targets reaction_store (uv_voteId req) 256%N reaction_vote voted_poll
   /\ editable voted_poll 1600
   /\ validate_vote (updated_vote reaction_vote req) = true
   /\ rating reaction_vote = Some 8%Q /\ emoji reaction_vote = Some "thumbs-up")
  /\ Succeeded (fst r)
  /\ exists v',
       List.find (has_id 256%N) (votes (snd r)) = Some v'
       /\ selectedOption v' = "yes"
       /\ rating v' = None /\ emoji v' = None
       /\ userId v' = "alice" /\ createdAt v' = 1500
       /\ vote_updatedAt v' = 1600.
Proof.
  cbv zeta.
  assert (Ht : targets reaction_store (uv_voteId (update_req "alice" None)) 256%N
                 reaction_vote voted_poll) by (repeat split).
  assert (He : editable voted_poll 1600) by (split; [reflexivity | simpl; lia]).
  assert (Hv : validate_vote (updated_vote reaction_vote (update_req "alice" None)) = true)
    by reflexivity.
  split; [repeat split; auto; apply He|].
  destruct (updateVote_overwrites_rating_and_emoji reaction_store
              (update_req "alice" None) 1600 256%N reaction_vote voted_poll Ht He Hv)
    as (Hs & Hf & _ & _ & _ & Hkeep & _ & _ & _ & Hr & Hem & _ & Hu & _ & _ & _ & Hc & Hup).
  split; [exact Hs|].
  eexists. split; [exact Hf|].
  split; [exact (Hkeep eq_refl)|]. split; [exact (Hr eq_refl)|]. split; [exact (Hem eq_refl)|].
  split; [exact Hu|]. split; [exact Hc | exact Hup].
Defined.

(** C10, as stated, fails in its frame: the schema's [timestamps] option gives
    a vote an [updatedAt], and the save of an update that changes the vote
    rewrites it.  Here an update at 1600 that names no option, rating or emoji
    erases the stored rating and emoji and moves [updatedAt] from 1500 to
    1600. *)
Lemma updateVote_rewrites_updatedAt :
  let r := run (updateVote (update_req "alice" None) 1600) reaction_store in
  votes reaction_store = [reaction_vote]
  /\ vote_updatedAt reaction_vote = 1500
  /\ Succeeded (fst r)
  /\ List.map rating (votes (snd r)) = [None]
  /\ List.map vote_updatedAt (votes (snd r)) = [1600]
  /\ List.map vote_updatedAt (votes (snd r)) <> List.map vote_updatedAt (votes reaction_store).
Proof. cbv zeta. repeat split. discriminate. Qed.

(** An update that changes nothing writes nothing: [updatedAt] stays. *)
Example updateVote_without_change :
  let r := run (updateVote (update_req "alice" (Some "yes")) 1600) voted_store in
  Succeeded (fst r) /\ snd r = voted_store.
Proof. cbv zeta. split; reflexivity. Qed.

(** ** Options of stored votes *)

(** What [castVote], run alone, can do to the store: nothing, or add one row
    and, the poll document permitting, raise the poll's counter. *)
Lemma castVote_store (s : Store) (req : CastVoteReq) (now : Date) :
  snd (run (castVote req now) s) = s
  \/ exists user pid poll,
       names_vote req user pid
       /\ polls s !! pid = Some poll
       /\ takes poll pid req now
       /\ not_voted s user pid
       /\ snd (run (castVote req now) s) = store_after_castVote s pid poll req now.
Proof.
  destruct (truthy (cv_userId req)) eqn:Hu.
  2:{ left. unfold castVote. rewrite Hu. reflexivity. }
  destruct (truthy (cv_pollId req)) eqn:Hp.
  2:{ left. unfold castVote. rewrite Hu, Hp. reflexivity. }
  destruct (truthy (cv_selectedOption req)) eqn:Ho.
  2:{ left. unfold castVote. rewrite Hu, Hp, Ho. reflexivity. }
  destruct (castObjectId (interpolate (cv_pollId req))) as [pid|] eqn:Hc.
  2:{ left. unfold castVote, cast_id. rewrite Hu, Hp, Ho, Hc. reflexivity. }
  destruct (polls s !! pid) as [poll|] eqn:Hl.
  2:{ left. unfold castVote, cast_id, await_poll. rewrite Hu, Hp, Ho, Hc. simpl.
      rewrite Hl. reflexivity. }
  rewrite (castVote_gate s req now pid poll Hu Hp Ho Hc Hl).
  destruct (isActive poll) eqn:Ha; simpl; [|left; reflexivity].
  destruct (Z.ltb_spec (endDate poll) now); simpl; [left; reflexivity|].
  destruct (find_option poll _) as [o|] eqn:Hf; simpl; [|left; reflexivity].
  destruct (List.find _ (votes s)) eqn:Hv; simpl; [left; reflexivity|].
  destruct (validate_new_vote _) eqn:Hval; simpl; [|left; reflexivity].
  right. exists (interpolate (cv_userId req)), pid, poll.
  unfold names_vote, takes, not_voted, store_after_castVote. rewrite Hf.
  repeat split; auto; try lia.
  destruct (validate_poll poll); reflexivity.
Qed.

(** After [castVote] the poll is still there, with the options it had. *)
Lemma store_after_castVote_poll (s : Store) (pid : ObjectId) (poll : Poll)
    (req : CastVoteReq) (now : Date) :
  polls s !! pid = Some poll ->
  votes (store_after_castVote s pid poll req now) = (votes s ++ [cast_row s pid req now])%list
  /\ petitions (store_after_castVote s pid poll req now) = petitions s
  /\ (forall q, q <> pid ->
        polls (store_after_castVote s pid poll req now) !! q = polls s !! q)
  /\ exists poll',
       polls (store_after_castVote s pid poll req now) !! pid = Some poll'
       /\ options poll' = options poll
       /\ validate_poll poll' = validate_poll poll
       /\ totalVotes poll' = (if validate_poll poll then totalVotes poll + 1
                              else totalVotes poll).
Proof.
  intros Hl. unfold store_after_castVote.
  destruct (validate_poll poll) eqn:Hv; cbn [votes petitions polls store_after_cast store_after_insert].
  - split; [reflexivity|]. split; [reflexivity|]. split.
    + intros q Hq. apply lookup_insert_ne. congruence.
    + eexists. split; [apply lookup_insert_eq|]. split; [reflexivity|].
      split; [exact Hv | reflexivity].
  - split; [reflexivity|]. split; [reflexivity|]. split; [reflexivity|].
    exists poll. auto.
Qed.

Lemma find_option_In (poll : Poll) (o : string) :
  is_Some (find_option poll o) -> In o (List.map opt_id (options poll)).
Proof.
  intros [x H]. unfold find_option in H. apply List.find_some in H as [Hin He].
  apply String.eqb_eq in He. subst o. apply List.in_map. exact Hin.
Qed.

(** [castVote] keeps every stored vote's option among its poll's options. *)
Lemma castVote_keeps_options_of_poll (s : Store) (req : CastVoteReq) (now : Date) :
  (forall v, In v (votes s) -> option_of_poll s v) ->
  forall v, In v (votes (snd (run (castVote req now) s))) ->
            option_of_poll (snd (run (castVote req now) s)) v.
Proof.
  intros Hs.
  destruct (castVote_store s req now)
    as [->|(user & pid & poll & Hn & Hl & Ht & Hnv & ->)]; [exact Hs|].
  destruct (store_after_castVote_poll s pid poll req now Hl)
    as (Ev & _ & Hother & poll' & Hl' & Eo & _).
  intros v Hv. rewrite Ev in Hv. unfold option_of_poll.
  apply List.in_app_or in Hv as [Hv|[<-|[]]].
  - destruct (Hs v Hv) as (q & Hq & Hin).
    destruct (N.eq_dec (pollId v) pid) as [E|E].
    + exists poll'. rewrite E. split; [exact Hl'|]. rewrite Eo.
      rewrite E in Hq. congruence.
    + exists q. rewrite (Hother _ E). auto.
  - exists poll'. split; [exact Hl'|]. rewrite Eo.
    simpl. apply find_option_In, Ht.
Qed.

(** C7 at its failing input: [updateVote] stores whatever option the request
    names.  After "alice" voted "yes" on the poll with options yes and no, an
    update naming "maybe" succeeds and the stored vote refers to an option the
    poll does not have, although [castVote] refuses that very option. *)
Theorem updateVote_stores_option_outside_poll :
  let r := run (updateVote (update_req "alice" (Some "maybe")) 1600) voted_store in
  List.map opt_id (options sample_poll) = ["yes"; "no"]
  /\ InvalidOption (fst (run (castVote (cast_req "bob" "maybe") 1600) voted_store))
  /\ (forall v, In v (votes voted_store) -> option_of_poll voted_store v)
  /\ Succeeded (fst r)
  /\ List.map selectedOption (votes (snd r)) = ["maybe"]
  /\ ~ (forall v, In v (votes (snd r)) -> option_of_poll (snd r) v).
Proof.
  cbv zeta. split; [reflexivity|]. split; [split; reflexivity|].
  split.
  { apply (castVote_keeps_options_of_poll sample_store (cast_req "alice" "yes") 1500).
    intros v []. }
  split; [reflexivity|]. split; [reflexivity|].
  intros H.
  destruct (H (vote_after_update alice_vote (update_req "alice" (Some "maybe")) 1600))
    as (poll & Hl & Hin).
  { left. reflexivity. }
  vm_compute in Hl. injection Hl as <-.
  simpl in Hin. destruct Hin as [E|[E|[]]]; discriminate E.
Qed.

(** A rating outside 1..10 is refused by the schema's validators when the vote
    is saved, which the handler reports as its general failure; a rating that
    is no integer passes them. *)
Example castVote_rating_examples :
  fst (run (castVote (rated_req "bob" "yes" 11) 1600) sample_store) = cast_failed
  /\ snd (run (castVote (rated_req "bob" "yes" 11) 1600) sample_store) = sample_store
  /\ Succeeded (fst (run (castVote (rated_req "bob" "yes" (11 # 2)) 1600) sample_store)).
Proof. repeat split. Qed.

(** ** Counters *)

Lemma perform_cast_consistent (s : Store) (req : CastVoteReq) (now : Date) :
  polls_valid s ->
  counters_consistent s ->
  counters_consistent (snd (run (castVote req now) s))
  /\ polls_valid (snd (run (castVote req now) s)).
Proof.
  intros Hval Hs.
  destruct (castVote_store s req now)
    as [->|(user & pid & poll & Hn & Hl & Ht & Hnv & ->)]; [auto|].
  unfold store_after_castVote. rewrite (Hval pid poll Hl).
  split.
  - intros q pq. unfold store_after_cast, vote_rows. simpl.
    rewrite filter_length_app. simpl.
    rewrite lookup_insert. case_decide as E.
    + intros [= <-]. simpl. subst q.
      unfold on_poll at 2. simpl. rewrite N.eqb_refl. simpl.
      rewrite (Hs pid poll Hl). unfold vote_rows. lia.
    + intros Hq. unfold on_poll at 2. simpl.
      destruct (N.eqb_spec pid q); [contradiction|]. simpl.
      rewrite (Hs q pq Hq). unfold vote_rows. lia.
  - intros q pq. unfold store_after_cast. simpl.
    rewrite lookup_insert. case_decide as E; [|apply Hval].
    intros [= <-]. exact (Hval pid poll Hl).
Qed.

Lemma deleteVote_store (s : Store) (req : DeleteVoteReq) (now : Date) :
  snd (run (deleteVote req now) s) = s
  \/ exists i v poll,
       targets s (dv_voteId req) i v poll
       /\ editable poll now
       /\ snd (run (deleteVote req now) s) = store_after_deleteVote s i v poll now.
Proof.
  destruct (deleteVote_untargeted s req now) as [(i & v & poll & Ht)|[_ E]];
    [|left; exact E].
  rewrite (deleteVote_gate s req now i v poll Ht).
  destruct (negb (isActive poll) || Z.ltb (endDate poll) now) eqn:Eg; simpl;
    [left; reflexivity|].
  right. exists i, v, poll. split; [exact Ht|]. split; [apply closed_gate, Eg|].
  unfold store_after_deleteVote.
  destruct (validate_poll poll); reflexivity.
Qed.

(** After [deleteVote] the poll is still there, with the options it had. *)
Lemma store_after_deleteVote_poll (s : Store) (i : ObjectId) (v : Vote) (poll : Poll)
    (now : Date) :
  polls s !! pollId v = Some poll ->
  votes (store_after_deleteVote s i v poll now) = remove_first (has_id i) (votes s)
  /\ petitions (store_after_deleteVote s i v poll now) = petitions s
  /\ (forall q, q <> pollId v ->
        polls (store_after_deleteVote s i v poll now) !! q = polls s !! q)
  /\ exists poll',
       polls (store_after_deleteVote s i v poll now) !! pollId v = Some poll'
       /\ options poll' = options poll
       /\ validate_poll poll' = validate_poll poll.
Proof.
  intros Hl. unfold store_after_deleteVote.
  destruct (validate_poll poll) eqn:Hv;
    cbn [votes petitions polls store_after_delete store_after_removal with_votes].
  - split; [reflexivity|]. split; [reflexivity|]. split.
    + intros q Hq. apply lookup_insert_ne. congruence.
    + eexists. split; [apply lookup_insert_eq|].
      split; [apply saved_poll_fields|]. rewrite validate_poll_saved. exact Hv.
  - split; [reflexivity|]. split; [reflexivity|]. split; [reflexivity|].
    exists poll. auto.
Qed.

Lemma perform_retract_consistent (s : Store) (req : DeleteVoteReq) (now : Date) :
  polls_valid s ->
  counters_consistent s ->
  counters_consistent (snd (run (deleteVote req now) s))
  /\ polls_valid (snd (run (deleteVote req now) s)).
Proof.
  intros Hval Hs.
  destruct (deleteVote_store s req now)
    as [->|(i & v & poll & (Hc & Hf & Hl) & _ & ->)]; [auto|].
  unfold store_after_deleteVote. rewrite (Hval _ poll Hl). unfold store_after_delete.
  split.
  - intros q pq. unfold vote_rows. simpl.
    pose proof (remove_first_count (has_id i) (on_poll q) (votes s) v Hf) as Hcount.
    rewrite lookup_insert. case_decide as E.
    + intros [= <-]. subst q.
      assert (Eq : on_poll (pollId v) v = true) by (unfold on_poll; apply N.eqb_refl).
      rewrite Eq in Hcount.
      pose proof (Hs (pollId v) poll Hl) as Ht. unfold vote_rows in Ht.
      unfold saved_poll.
      destruct (Z.eqb_spec (Z.max 0 (totalVotes poll - 1)) (totalVotes poll)) as [Em|Em];
        simpl; lia.
    + intros Hq.
      assert (Eq : on_poll q v = false) by (unfold on_poll; apply N.eqb_neq; exact E).
      rewrite Eq in Hcount.
      rewrite (Hs q pq Hq). unfold vote_rows. lia.
  - intros q pq. simpl. rewrite lookup_insert. case_decide as E; [|apply Hval].
    intros [= <-]. rewrite validate_poll_saved. exact (Hval _ poll Hl).
Qed.

(** C4 (as amended): from a state in which every poll's [totalVotes] equals
    the number of its vote rows and every poll document passes the validators
    of its schema, every sequence of [castVote] and [deleteVote] calls that
    run one after the other ends, after each call, in such a state again.  The
    row and the counter are written by two store operations. *)
Theorem counters_consistent_when_calls_run_in_turn (s : Store) (ops : list LedgerOp) :
  polls_valid s ->
  counters_consistent s ->
  counters_consistent (perform_all ops s) /\ polls_valid (perform_all ops s).
Proof.
  revert s. unfold perform_all.
  induction ops as [|op ops IH]; intros s Hval Hs; simpl; [auto|].
  assert (H : counters_consistent (perform s op) /\ polls_valid (perform s op)).
  { unfold perform. destruct op as [req now|req now]; simpl.
    - apply perform_cast_consistent; assumption.
    - apply perform_retract_consistent; assumption. }
  destruct H as [H1 H2]. apply IH; assumption.
Qed.

Lemma sample_store_valid : polls_valid sample_store.
Proof.
  intros p poll Hl. unfold sample_store in Hl. cbn [polls] in Hl.
  apply lookup_singleton_Some in Hl as [_ <-]. reflexivity.
Qed.

Lemma sample_store_consistent : counters_consistent sample_store.
Proof.
  intros p poll Hl. unfold sample_store in Hl. cbn [polls] in Hl.
  apply lookup_singleton_Some in Hl as [_ <-]. reflexivity.
Qed.

Lemma counters_consistent_when_calls_run_in_turn_witness :
  let ops := [CastVote (cast_req "alice" "yes") 1500; CastVote (cast_req "bob" "no") 1600;
              RetractVote (delete_req "alice") 1700] in
  (polls_valid sample_store /\ counters_consistent sample_store)
  /\ counters_consistent (perform_all ops sample_store)
  /\ (totalVotes <$> polls (perform_all ops sample_store) !! 1%N) = Some 1
  /\ vote_rows 1%N (perform_all ops sample_store) = 1.
Proof.
  cbv zeta.
  split; [split; [exact sample_store_valid | exact sample_store_consistent]|].
  split; [|split; reflexivity].
  exact (proj1 (counters_consistent_when_calls_run_in_turn sample_store _
                  sample_store_valid sample_store_consistent)).
Defined.

(** C4, as stated, fails: the row and the counter are not written as one
    unit.  With two participants' votes in flight, each handler adds one to the
    counter it loaded, so both calls succeed, the poll has two vote rows, and
    its counter says 1. *)
Lemma concurrent_votes_lose_a_count :
  exists r1 r2 s,
    interleave two_voters_schedule
      (castVote (cast_req "alice" "yes") 1500) (castVote (cast_req "bob" "no") 1500)
      sample_store
    = (Ret r1, Ret r2, s)
    /\ counters_consistent sample_store
    /\ Succeeded r1 /\ Succeeded r2
    /\ vote_rows 1%N s = 2
    /\ (totalVotes <$> polls s !! 1%N) = Some 1
    /\ ~ counters_consistent s.
Proof.
  eexists _, _, _. split; [vm_compute; reflexivity|].
  split; [exact sample_store_consistent|].
  split; [reflexivity|]. split; [reflexivity|].
  split; [reflexivity|]. split; [vm_compute; reflexivity|].
  intros H. specialize (H 1%N _ eq_refl). vm_compute in H. discriminate H.
Qed.

(** The two writes come apart without any concurrency when the second one
    fails: on a yes/no poll that an administrator's update left with three
    options, [poll.save()] throws a validation error, so a [castVote] run
    alone stores the row, leaves the counter, and answers 500. *)
Example castVote_on_invalid_poll_leaves_counter_behind :
  let r := run (castVote (cast_req "alice" "yes") 1500) three_option_store in
  validate_poll three_option_poll = false
  /\ counters_consistent three_option_store
  /\ fst r = cast_failed
  /\ List.map selectedOption (votes (snd r)) = ["yes"]
  /\ (totalVotes <$> polls (snd r) !! 1%N) = Some 0
  /\ ~ counters_consistent (snd r).
Proof.
  cbv zeta. split; [reflexivity|]. split.
  { intros p poll Hl. unfold three_option_store in Hl. cbn [polls] in Hl.
    apply lookup_singleton_Some in Hl as [_ <-]. reflexivity. }
  split; [reflexivity|]. split; [reflexivity|]. split; [reflexivity|].
  intros H. specialize (H 1%N _ eq_refl). vm_compute in H. discriminate H.
Qed.

(** ** Milestones *)

Lemma crossed_between (prev new : Z) (ts : list Z) :
  prev <= new ->
  Z.of_nat (List.length (Evaluate prev new ts))
  = Z.of_nat (List.length (List.filter (fun m => Z.geb new m) ts))
    - Z.of_nat (List.length (List.filter (fun m => Z.geb prev m) ts)).
Proof.
  intros Hle. unfold Evaluate. induction ts as [|t ts IH]; simpl; [reflexivity|].
  rewrite !Z.geb_leb.
  destruct (Z.ltb_spec prev t), (Z.leb_spec t new), (Z.leb_spec t prev);
    simpl; try lia.
Qed.

(** C9: [Evaluate] returns exactly the thresholds [t] of its list with
    [previousCount < t <= newCount], each as often as the list has it, and the
    same inputs give the same result.  On the dashboard's own thresholds the
    number of crossed thresholds is the rise of [getMilestones]. *)
Theorem Evaluate_returns_exactly_the_crossed_thresholds
    (previousCount newCount : Z) (thresholds : list Z) :
  (forall t, In t (Evaluate previousCount newCount thresholds)
             <-> In t thresholds /\ previousCount < t <= newCount)
  /\ (forall t, previousCount < t <= newCount ->
                count_occ Z.eq_dec (Evaluate previousCount newCount thresholds) t
                = count_occ Z.eq_dec thresholds t)
  /\ (forall p n ts, (p, n, ts) = (previousCount, newCount, thresholds) ->
                     Evaluate p n ts = Evaluate previousCount newCount thresholds)
  /\ (previousCount <= newCount ->
      Z.of_nat (List.length (Evaluate previousCount newCount milestones))
      = getMilestones newCount - getMilestones previousCount).
Proof.
  repeat split.
  - unfold Evaluate in H. apply List.filter_In in H. tauto.
  - unfold Evaluate in H. apply List.filter_In in H as [_ H].
    apply andb_true_iff in H as [H _]. apply Z.ltb_lt in H. exact H.
  - unfold Evaluate in H. apply List.filter_In in H as [_ H].
    apply andb_true_iff in H as [_ H]. apply Z.leb_le in H. exact H.
  - intros (Hin & Hlo & Hhi). unfold Evaluate. apply List.filter_In. split; [exact Hin|].
    apply andb_true_iff. split; [apply Z.ltb_lt | apply Z.leb_le]; assumption.
  - intros t [Hlo Hhi]. unfold Evaluate.
    induction thresholds as [|a l IH]; simpl; [reflexivity|].
    destruct (Z.ltb_spec previousCount a), (Z.leb_spec a newCount); simpl;
      destruct (Z.eq_dec a t); try lia; rewrite IH; reflexivity.
  - intros p n ts [= -> -> ->]. reflexivity.
  - intros Hle. unfold getMilestones. apply crossed_between, Hle.
Qed.

Lemma Evaluate_returns_exactly_the_crossed_thresholds_witness :
  95 <= 105
  /\ Evaluate 95 105 [100; 500; 1000] = [100]
  /\ Z.of_nat (List.length (Evaluate 95 105 milestones))
     = getMilestones 105 - getMilestones 95.
Proof.
  assert (H : 95 <= 105) by lia.
  split; [exact H|]. split; [reflexivity|].
  exact (proj2 (proj2 (proj2
    (Evaluate_returns_exactly_the_crossed_thresholds 95 105 [100; 500; 1000]))) H).
Defined.

(** The petition of the specification's scenario: thresholds 100, 500, 1000. *)
Example Evaluate_scenario :
  Evaluate 95 105 [100; 500; 1000] = [100]
  /\ Evaluate 980 1005 [100; 500; 1000] = [1000]
  /\ getMilestones 105 = 1 /\ getMilestones 1005 = 3.
Proof. repeat split. Qed.

(** ** The tally *)

(** *** Doubles *)

Lemma pow2_pos (e : Z) : (0 < pow2 e)%Q.
Proof. unfold pow2. apply Qpower_0_lt. reflexivity. Qed.

Lemma pow2_add (a b : Z) : (pow2 (a + b) == pow2 a * pow2 b)%Q.
Proof. unfold pow2. apply Qpower_plus. discriminate. Qed.

Lemma pow2_le (a b : Z) : a <= b -> (pow2 a <= pow2 b)%Q.
Proof. intros H. unfold pow2. apply Qpower_le_compat_l; [exact H | discriminate]. Qed.

Lemma pow2_lt (a b : Z) : a < b -> (pow2 a < pow2 b)%Q.
Proof. intros H. unfold pow2. apply Qpower_lt_compat_l; [exact H | reflexivity]. Qed.

Lemma pow2_inject (n : Z) : 0 <= n -> (pow2 n == inject_Z (2 ^ n))%Q.
Proof. intros H. unfold pow2. rewrite (Zpower_Qpower 2 n H). reflexivity. Qed.

(** The quotient of a positive rational by a power of two and back. *)
Lemma scale_back (x : Q) (e : Z) : (x / pow2 e * pow2 e == x)%Q.
Proof.
  pose proof (pow2_pos e) as H. field. intros E. rewrite E in H. discriminate H.
Qed.

Lemma floor_log2_spec (x : Q) :
  (0 < x)%Q ->
  (pow2 (floor_log2 x) <= x)%Q /\ (x < pow2 (floor_log2 x + 1))%Q.
Proof.
  intros Hx. unfold floor_log2.
  destruct x as [a b]. cbn [Qnum Qden].
  assert (Ha : 0 < a).
  { unfold Qlt in Hx. simpl in Hx. lia. }
  pose proof (Z.log2_spec a Ha) as [Ha1 Ha2].
  pose proof (Z.log2_spec (Zpos b) (Pos2Z.is_pos b)) as [Hb1 Hb2].
  pose proof (Z.log2_nonneg a) as Hla. pose proof (Z.log2_nonneg (Zpos b)) as Hlb.
  set (la := Z.log2 a) in *. set (lb := Z.log2 (Zpos b)) in *.
  assert (Ex : (a # b == inject_Z a / inject_Z (Zpos b))%Q) by apply Qmake_Qdiv.
  assert (Hbq : (0 < inject_Z (Zpos b))%Q) by reflexivity.
  (* the two outer bounds *)
  assert (Hlow : (pow2 (la - lb - 1) <= a # b)%Q).
  { rewrite Ex. apply Qle_shift_div_l; [exact Hbq|].
    apply Qle_trans with (pow2 (la - lb - 1) * pow2 (lb + 1))%Q.
    - apply Qmult_le_l; [apply pow2_pos|].
      rewrite (pow2_inject (lb + 1)) by lia. rewrite <- Zle_Qle.
      unfold Z.succ in Hb2. lia.
    - rewrite <- pow2_add. replace (la - lb - 1 + (lb + 1)) with la by lia.
      rewrite (pow2_inject la) by lia. rewrite <- Zle_Qle. exact Ha1. }
  assert (Hhigh : (a # b < pow2 (la - lb + 1))%Q).
  { rewrite Ex. apply Qlt_shift_div_r; [exact Hbq|].
    apply Qlt_le_trans with (pow2 (la - lb + 1) * pow2 lb)%Q.
    - rewrite <- pow2_add. replace (la - lb + 1 + lb) with (la + 1) by lia.
      rewrite (pow2_inject (la + 1)) by lia. rewrite <- Zlt_Qlt.
      unfold Z.succ in Ha2. exact Ha2.
    - apply Qmult_le_l; [apply pow2_pos|].
      rewrite (pow2_inject lb) by lia. rewrite <- Zle_Qle. exact Hb1. }
  destruct (Qle_bool (pow2 (la - lb)) (a # b)) eqn:E.
  - apply Qle_bool_iff in E. split; [exact E | exact Hhigh].
  - split; [exact Hlow|].
    replace (la - lb - 1 + 1) with (la - lb) by lia.
    apply Qnot_le_lt. intros H. apply Qle_bool_iff in H. congruence.
Qed.

Lemma floor_log2_le (x y : Q) :
  (0 < x)%Q -> (x <= y)%Q -> floor_log2 x <= floor_log2 y.
Proof.
  intros Hx Hxy.
  assert (Hy : (0 < y)%Q) by (apply Qlt_le_trans with x; assumption).
  destruct (floor_log2_spec x Hx) as [X1 _].
  destruct (floor_log2_spec y Hy) as [_ Y2].
  destruct (Z.le_gt_cases (floor_log2 x) (floor_log2 y)) as [H|H]; [exact H|].
  exfalso.
  assert (H1 : (pow2 (floor_log2 y + 1) <= pow2 (floor_log2 x))%Q) by (apply pow2_le; lia).
  set (u := pow2 (floor_log2 x)) in *. set (v := pow2 (floor_log2 y + 1)) in *.
  clearbody u v. lra.
Qed.

Lemma round_half_even_near (x : Q) :
  (inject_Z (round_half_even x) - (1 # 2) <= x)%Q
  /\ (x <= inject_Z (round_half_even x) + (1 # 2))%Q.
Proof.
  unfold round_half_even.
  pose proof (Qfloor_le x) as H1. pose proof (Qlt_floor x) as H2.
  rewrite inject_Z_plus in H2. change (inject_Z 1) with 1%Q in H2.
  destruct (Qcompare_spec (x - inject_Z (Qfloor x)) (1 # 2)) as [E|E|E].
  - destruct (Z.even (Qfloor x)).
    + set (f := inject_Z (Qfloor x)) in *. clearbody f. split; lra.
    + rewrite inject_Z_plus. change (inject_Z 1) with 1%Q.
      set (f := inject_Z (Qfloor x)) in *. clearbody f. split; lra.
  - set (f := inject_Z (Qfloor x)) in *. clearbody f. split; lra.
  - rewrite inject_Z_plus. change (inject_Z 1) with 1%Q.
    set (f := inject_Z (Qfloor x)) in *. clearbody f. split; lra.
Qed.

Lemma round_half_even_Z (n : Z) : round_half_even (inject_Z n) = n.
Proof.
  unfold round_half_even. rewrite Qfloor_Z.
  destruct (Qcompare_spec (inject_Z n - inject_Z n) (1 # 2)) as [E|E|E].
  - exfalso. set (f := inject_Z n) in *. clearbody f. lra.
  - reflexivity.
  - exfalso. set (f := inject_Z n) in *. clearbody f. lra.
Qed.

Lemma round_half_even_le (x y : Q) :
  (x <= y)%Q -> round_half_even x <= round_half_even y.
Proof.
  intros Hxy.
  pose proof (Qfloor_resp_le x y Hxy) as Hf.
  pose proof (Qfloor_le x) as X1. pose proof (Qlt_floor x) as X2.
  pose proof (Qfloor_le y) as Y1. pose proof (Qlt_floor y) as Y2.
  rewrite inject_Z_plus in X2, Y2. change (inject_Z 1) with 1%Q in X2, Y2.
  unfold round_half_even.
  destruct (Z.eq_dec (Qfloor x) (Qfloor y)) as [E|E].
  - rewrite E in *.
    destruct (Qcompare_spec (x - inject_Z (Qfloor y)) (1 # 2)) as [Ex|Ex|Ex];
      destruct (Qcompare_spec (y - inject_Z (Qfloor y)) (1 # 2)) as [Ey|Ey|Ey];
      try (destruct (Z.even (Qfloor y))); try lia;
      exfalso; set (f := inject_Z (Qfloor y)) in *; clearbody f; lra.
  - assert (Hlt : Qfloor x + 1 <= Qfloor y) by lia.
    destruct (Qcompare_spec (x - inject_Z (Qfloor x)) (1 # 2)) as [Ex|Ex|Ex];
      destruct (Qcompare_spec (y - inject_Z (Qfloor y)) (1 # 2)) as [Ey|Ey|Ey];
      try (destruct (Z.even (Qfloor x))); try (destruct (Z.even (Qfloor y))); lia.
Qed.

Lemma round_half_even_bounds (x : Q) (lo hi : Z) :
  (inject_Z lo <= x)%Q -> (x <= inject_Z hi)%Q ->
  lo <= round_half_even x <= hi.
Proof.
  intros H1 H2. split.
  - rewrite <- (round_half_even_Z lo). apply round_half_even_le, H1.
  - rewrite <- (round_half_even_Z hi). apply round_half_even_le, H2.
Qed.

(** A positive number scaled to 53 bits lies between 2^52 and 2^53. *)
Lemma scaled_range (x : Q) :
  (0 < x)%Q ->
  let e := floor_log2 x - 52 in
  (inject_Z (2 ^ 52) <= x / pow2 e)%Q /\ (x / pow2 e <= inject_Z (2 ^ 53))%Q.
Proof.
  intros Hx e. destruct (floor_log2_spec x Hx) as [H1 H2].
  pose proof (pow2_pos e) as He.
  split.
  - apply Qle_shift_div_l; [exact He|].
    rewrite <- (pow2_inject 52) by lia. rewrite <- pow2_add.
    replace (52 + e) with (floor_log2 x) by (unfold e; lia). exact H1.
  - apply Qle_shift_div_r; [exact He|].
    rewrite <- (pow2_inject 53) by lia. rewrite <- pow2_add.
    replace (53 + e) with (floor_log2 x + 1) by (unfold e; lia).
    apply Qlt_le_weak, H2.
Qed.

(** [double] on a positive number, unfolded. *)
Lemma double_pos (x : Q) :
  (0 < x)%Q ->
  (double x == inject_Z (round_half_even (x / pow2 (floor_log2 x - 52)))
               * pow2 (floor_log2 x - 52))%Q.
Proof.
  intros Hx. unfold double.
  destruct (Qeq_bool x 0) eqn:E.
  - apply Qeq_bool_iff in E. rewrite E in Hx. discriminate Hx.
  - rewrite Qred_correct.
    assert (Ea : Qabs x = x).
    { destruct x as [a b]. unfold Qlt in Hx. simpl in Hx.
      unfold Qabs. f_equal. apply Z.abs_eq. lia. }
    rewrite Ea. reflexivity.
Qed.

Lemma double_0 (x : Q) : (x == 0)%Q -> double x = 0%Q.
Proof.
  intros E. unfold double. apply Qeq_bool_iff in E. rewrite E. reflexivity.
Qed.

(** A positive double lies in the binade of the number it rounds. *)
Lemma double_binade (x : Q) :
  (0 < x)%Q ->
  (pow2 (floor_log2 x) <= double x)%Q /\ (double x <= pow2 (floor_log2 x + 1))%Q.
Proof.
  intros Hx. rewrite (double_pos x Hx).
  destruct (scaled_range x Hx) as [S1 S2]. cbv zeta in S1, S2.
  set (e := floor_log2 x - 52) in *.
  pose proof (round_half_even_bounds _ _ _ S1 S2) as [R1 R2].
  pose proof (pow2_pos e) as He.
  rewrite Zle_Qle in R1, R2.
  split.
  - replace (floor_log2 x) with (52 + e) by (unfold e; lia).
    rewrite pow2_add, (pow2_inject 52) by lia.
    apply Qmult_le_compat_r; [exact R1 | apply Qlt_le_weak, He].
  - replace (floor_log2 x + 1) with (53 + e) by (unfold e; lia).
    rewrite pow2_add, (pow2_inject 53) by lia.
    apply Qmult_le_compat_r; [exact R2 | apply Qlt_le_weak, He].
Qed.

Lemma double_nonneg (x : Q) : (0 <= x)%Q -> (0 <= double x)%Q.
Proof.
  intros Hx. destruct (Qeq_dec x 0) as [E|E].
  - rewrite (double_0 x E). apply Qle_refl.
  - assert (Hp : (0 < x)%Q).
    { apply Qle_lteq in Hx as [H|H]; [exact H|]. exfalso. apply E. symmetry. exact H. }
    destruct (double_binade x Hp) as [B _].
    pose proof (pow2_pos (floor_log2 x)). 
    set (u := pow2 (floor_log2 x)) in *. clearbody u. set (d := double x) in *. clearbody d. lra.
Qed.

(** Rounding to a double keeps the order. *)
Lemma double_monotone (x y : Q) :
  (0 <= x)%Q -> (x <= y)%Q -> (double x <= double y)%Q.
Proof.
  intros Hx Hxy.
  destruct (Qeq_dec x 0) as [E|E].
  { rewrite (double_0 x E). apply double_nonneg. apply Qle_trans with x; assumption. }
  assert (Hp : (0 < x)%Q).
  { apply Qle_lteq in Hx as [H|H]; [exact H|]. exfalso. apply E. symmetry. exact H. }
  assert (Hq : (0 < y)%Q) by (apply Qlt_le_trans with x; assumption).
  pose proof (floor_log2_le x y Hp Hxy) as Hl.
  destruct (Z.eq_dec (floor_log2 x) (floor_log2 y)) as [El|El].
  - rewrite (double_pos x Hp), (double_pos y Hq), El.
    pose proof (pow2_pos (floor_log2 y - 52)) as He.
    apply Qmult_le_compat_r; [|apply Qlt_le_weak, He].
    rewrite <- Zle_Qle. apply round_half_even_le.
    apply Qmult_le_compat_r; [exact Hxy|].
    apply Qlt_le_weak, Qinv_lt_0_compat, He.
  - destruct (double_binade x Hp) as [_ B1]. destruct (double_binade y Hq) as [B2 _].
    assert (H : (pow2 (floor_log2 x + 1) <= pow2 (floor_log2 y))%Q) by (apply pow2_le; lia).
    set (a := pow2 (floor_log2 x + 1)) in *. set (b := pow2 (floor_log2 y)) in *.
    set (dx := double x) in *. set (dy := double y) in *. clearbody a b dx dy. lra.
Qed.



(** Rounding to a double moves a number by at most the fraction 2^-53 of it. *)
Lemma double_near (x : Q) :
  (0 <= x)%Q ->
  ((1 - unit_roundoff) * x <= double x)%Q /\ (double x <= (1 + unit_roundoff) * x)%Q.
Proof.
  intros Hx. destruct (Qeq_dec x 0) as [E|E].
  { rewrite (double_0 x E), E. split; unfold unit_roundoff; lra. }
  assert (Hp : (0 < x)%Q).
  { apply Qle_lteq in Hx as [H|H]; [exact H|]. exfalso. apply E. symmetry. exact H. }
  rewrite (double_pos x Hp).
  destruct (floor_log2_spec x Hp) as [L1 _].
  set (e := floor_log2 x - 52) in *.
  destruct (round_half_even_near (x / pow2 e)) as [N1 N2].
  pose proof (pow2_pos e) as He.
  pose proof (scale_back x e) as Eb.
  assert (Hu : (pow2 e == pow2 (floor_log2 x) * (2 * unit_roundoff))%Q).
  { replace e with (floor_log2 x + (- 52)) by (unfold e; lia).
    rewrite pow2_add. apply Qmult_comp; [reflexivity|]. reflexivity. }
  set (m := inject_Z (round_half_even (x / pow2 e))) in *.
  set (q := (x / pow2 e)%Q) in *.
  assert (M1 : ((m - (1 # 2)) * pow2 e <= q * pow2 e)%Q)
    by (apply Qmult_le_compat_r; [exact N1 | apply Qlt_le_weak, He]).
  assert (M2 : (q * pow2 e <= (m + (1 # 2)) * pow2 e)%Q)
    by (apply Qmult_le_compat_r; [exact N2 | apply Qlt_le_weak, He]).
  rewrite Eb in M1, M2.
  set (P := pow2 (floor_log2 x)) in *. set (E2 := pow2 e) in *.
  assert (Hm : (m * E2 - (1 # 2) * E2 <= x)%Q) by (clearbody m E2; lra).
  assert (Hm' : (x <= m * E2 + (1 # 2) * E2)%Q) by (clearbody m E2; lra).
  set (mE := (m * E2)%Q) in *.
  clearbody mE P E2. unfold unit_roundoff in *. split; lra.
Qed.

(** The same, whatever the sign. *)
Lemma double_error (x : Q) :
  (Qabs (double x - x) <= unit_roundoff * Qabs x)%Q.
Proof.
  destruct (Qeq_dec x 0) as [E|E].
  { rewrite (double_0 x E), E. vm_compute. discriminate. }
  assert (Hp : (0 < Qabs x)%Q).
  { destruct x as [a b]. unfold Qeq in E. unfold Qlt, Qabs. simpl in *. lia. }
  unfold double. destruct (Qeq_bool x 0) eqn:Eb.
  { apply Qeq_bool_iff in Eb. contradiction. }
  rewrite Qred_correct.
  destruct (floor_log2_spec (Qabs x) Hp) as [L1 _].
  set (e := floor_log2 (Qabs x) - 52) in *.
  destruct (round_half_even_near (x / pow2 e)) as [N1 N2].
  pose proof (pow2_pos e) as He.
  pose proof (scale_back x e) as Eb'.
  assert (Hu : (pow2 e == pow2 (floor_log2 (Qabs x)) * (2 * unit_roundoff))%Q).
  { replace e with (floor_log2 (Qabs x) + (- 52)) by (unfold e; lia).
    rewrite pow2_add. apply Qmult_comp; [reflexivity|]. reflexivity. }
  set (m := inject_Z (round_half_even (x / pow2 e))) in *.
  set (q := (x / pow2 e)%Q) in *.
  assert (M1 : ((m - (1 # 2)) * pow2 e <= q * pow2 e)%Q)
    by (apply Qmult_le_compat_r; [exact N1 | apply Qlt_le_weak, He]).
  assert (M2 : (q * pow2 e <= (m + (1 # 2)) * pow2 e)%Q)
    by (apply Qmult_le_compat_r; [exact N2 | apply Qlt_le_weak, He]).
  rewrite Eb' in M1, M2.
  set (P := pow2 (floor_log2 (Qabs x))) in *. set (E2 := pow2 e) in *.
  assert (Hm : (m * E2 - (1 # 2) * E2 <= x)%Q) by (clearbody m E2; lra).
  assert (Hm' : (x <= m * E2 + (1 # 2) * E2)%Q) by (clearbody m E2; lra).
  apply Qabs_Qle_condition.
  set (mE := (m * E2)%Q) in *. set (A := Qabs x) in *.
  clearbody mE P E2 A. unfold unit_roundoff in *. split; lra.
Qed.

(** A double's distance from the number it rounds, given a bound on that
    number. *)
Lemma double_within_bound (x b : Q) :
  (- b <= x)%Q -> (x <= b)%Q ->
  (x - unit_roundoff * b <= double x)%Q /\ (double x <= x + unit_roundoff * b)%Q.
Proof.
  intros H1 H2.
  assert (Ha : (Qabs x <= b)%Q) by (apply Qabs_Qle_condition; split; assumption).
  pose proof (double_error x) as He. apply Qabs_Qle_condition in He as [E1 E2].
  set (d := double x) in *. set (A := Qabs x) in *.
  clearbody d A. unfold unit_roundoff in *. split; lra.
Qed.

(** *** A row of the tally *)

Lemma Math_round_near (x : Q) :
  (inject_Z (Math_round x) - (1 # 2) <= x)%Q /\ (x < inject_Z (Math_round x) + (1 # 2))%Q.
Proof.
  unfold Math_round.
  pose proof (Qfloor_le (x + (1 # 2))) as H1.
  pose proof (Qlt_floor (x + (1 # 2))) as H2.
  rewrite inject_Z_plus in H2. change (inject_Z 1) with 1%Q in H2.
  set (h := inject_Z (Qfloor (x + (1 # 2)))) in *.
  split; lra.
Qed.

Lemma Math_round_bounds (x : Q) (lo hi : Z) :
  (inject_Z lo <= x)%Q -> (x <= inject_Z hi)%Q -> lo <= Math_round x <= hi.
Proof.
  intros H1 H2. unfold Math_round. split.
  - rewrite <- (Qfloor_Z lo). apply Qfloor_resp_le.
    set (l := inject_Z lo) in *. clearbody l. lra.
  - assert (H : Qfloor (x + (1 # 2)) <= Qfloor (inject_Z hi + (1 # 2))%Q).
    { apply Qfloor_resp_le. set (h := inject_Z hi) in *. clearbody h. lra. }
    assert (E : Qfloor (inject_Z hi + (1 # 2))%Q = hi).
    { pose proof (Qfloor_le (inject_Z hi + (1 # 2))) as F1.
      pose proof (Qlt_floor (inject_Z hi + (1 # 2))) as F2.
      assert (G1 : (inject_Z (Qfloor (inject_Z hi + (1 # 2))) < inject_Z (hi + 1))%Q).
      { rewrite inject_Z_plus. change (inject_Z 1) with 1%Q.
        set (f := inject_Z (Qfloor _)) in *. set (h := inject_Z hi) in *.
        clearbody f h. lra. }
      assert (G2 : (inject_Z (hi - 1) < inject_Z (Qfloor (inject_Z hi + (1 # 2))))%Q).
      { rewrite inject_Z_plus in F2. change (inject_Z 1) with 1%Q in F2.
        unfold Z.sub. rewrite inject_Z_plus, inject_Z_opp. change (inject_Z 1) with 1%Q.
        set (f := inject_Z (Qfloor _)) in *. set (h := inject_Z hi) in *.
        clearbody f h. lra. }
      rewrite <- Zlt_Qlt in G1, G2. lia. }
    lia.
Qed.

Lemma share_in_unit (k n : Z) :
  0 < n -> 0 <= k <= n -> (0 <= inject_Z k / inject_Z n)%Q /\ (inject_Z k / inject_Z n <= 1)%Q.
Proof.
  intros Hn [Hlo Hhi].
  assert (Hq : (0 < inject_Z n)%Q) by (change 0%Q with (inject_Z 0); rewrite <- Zlt_Qlt; exact Hn).
  split.
  - apply Qle_shift_div_l; [exact Hq|]. rewrite Qmult_0_l.
    change 0%Q with (inject_Z 0). rewrite <- Zle_Qle. exact Hlo.
  - apply Qle_shift_div_r; [exact Hq|]. rewrite Qmult_1_l, <- Zle_Qle. exact Hhi.
Qed.

Lemma double_1 : double 1 = 1%Q.
Proof. vm_compute. reflexivity. Qed.

Lemma double_100 : double 100 = 100%Q.
Proof. vm_compute. reflexivity. Qed.

Lemma double_10000 : double 10000 = 10000%Q.
Proof. vm_compute. reflexivity. Qed.

(** A number between 0 and a double stays there when rounded. *)
Lemma double_within (x top : Q) :
  double top = top -> (0 <= x)%Q -> (x <= top)%Q ->
  (0 <= double x)%Q /\ (double x <= top)%Q.
Proof.
  intros Et H0 H1. split; [apply double_nonneg, H0|].
  rewrite <- Et. apply double_monotone; assumption.
Qed.

Lemma row_percentage_range (k n : Z) :
  0 < n -> 0 <= k <= n ->
  0 <= Math_round (double_mul (double_mul (double_div (inject_Z k) (inject_Z n)) 100) 100)
    <= 10000
  /\ (0 <= row_percentage k n)%Q /\ (row_percentage k n <= 100)%Q.
Proof.
  intros Hn Hk. unfold row_percentage, double_div, double_mul.
  destruct (share_in_unit k n Hn Hk) as [A0 A1].
  set (a := (inject_Z k / inject_Z n)%Q) in *.
  destruct (double_within a 1 double_1 A0 A1) as [Q0 Q1].
  set (q1 := double a) in *.
  assert (P0 : (0 <= q1 * 100)%Q) by (clearbody q1; lra).
  assert (P1 : (q1 * 100 <= 100)%Q) by (clearbody q1; lra).
  destruct (double_within _ 100 double_100 P0 P1) as [P0' P1'].
  set (p1 := double (q1 * 100)) in *.
  assert (X0 : (0 <= p1 * 100)%Q) by (clearbody p1; lra).
  assert (X1 : (p1 * 100 <= 10000)%Q) by (clearbody p1; lra).
  destruct (double_within _ 10000 double_10000 X0 X1) as [X0' X1'].
  set (x := double (p1 * 100)) in *.
  assert (R : 0 <= Math_round x <= 10000)
    by (apply Math_round_bounds; [exact X0' | exact X1']).
  split; [exact R|].
  destruct R as [R0 R1]. rewrite Zle_Qle in R0, R1.
  change (inject_Z 0) with 0%Q in R0. change (inject_Z 10000) with 10000%Q in R1.
  set (r := inject_Z (Math_round x)) in *.
  apply (double_within _ 100 double_100).
  - unfold Qdiv. change (/ 100)%Q with (1 # 100)%Q. clearbody r. lra.
  - unfold Qdiv. change (/ 100)%Q with (1 # 100)%Q. clearbody r. lra.
Qed.

Lemma row_percentage_near (k n : Z) :
  0 < n -> 0 <= k <= n ->
  let exact := (inject_Z k / inject_Z n * 100)%Q in
  (exact - row_slack <= row_percentage k n)%Q /\ (row_percentage k n <= exact + row_slack)%Q.
Proof.
  intros Hn Hk. cbv zeta.
  destruct (row_percentage_range k n Hn Hk) as [[R0 R1] _].
  unfold row_percentage, double_div, double_mul in *.
  destruct (share_in_unit k n Hn Hk) as [A0 A1].
  set (a := (inject_Z k / inject_Z n)%Q) in *.
  destruct (double_near a A0) as [Q1 Q2].
  pose proof (double_nonneg a A0) as Q0.
  set (q1 := double a) in *.
  assert (P0 : (0 <= q1 * 100)%Q) by (clearbody q1; lra).
  destruct (double_near _ P0) as [P1 P2].
  pose proof (double_nonneg _ P0) as P0'.
  set (p1 := double (q1 * 100)) in *.
  assert (X0 : (0 <= p1 * 100)%Q) by (clearbody p1; lra).
  destruct (double_near _ X0) as [X1 X2].
  set (x := double (p1 * 100)) in *.
  destruct (Math_round_near x) as [M1 M2].
  rewrite Zle_Qle in R0, R1.
  change (inject_Z 0) with 0%Q in R0. change (inject_Z 10000) with 10000%Q in R1.
  set (r := inject_Z (Math_round x)) in *.
  assert (H0 : (0 <= r / 100)%Q).
  { unfold Qdiv. change (/ 100)%Q with (1 # 100)%Q. clearbody r. lra. }
  destruct (double_near _ H0) as [D1 D2].
  set (d := double (r / 100)) in *.
  unfold Qdiv in D1, D2. change (/ 100)%Q with (1 # 100)%Q in D1, D2.
  unfold unit_roundoff, row_slack in *.
  clearbody d r x p1 q1 a. split; lra.
Qed.

Lemma count_option_bounds (o : string) (vs : list Vote) :
  0 <= count_option o vs <= Z.of_nat (List.length vs).
Proof.
  unfold count_option.
  pose proof (List.filter_length_le (fun vote => String.eqb (selectedOption vote) o) vs).
  lia.
Qed.

Lemma result_row_percentage (vs : list Vote) (o : IOption) :
  percentage (result_row vs o)
  = if Z.ltb 0 (Z.of_nat (List.length vs))
    then row_percentage (count_option (opt_id o) vs) (Z.of_nat (List.length vs))
    else 0%Q.
Proof.
  unfold result_row, row_percentage. cbn [percentage].
  destruct (Z.ltb 0 (Z.of_nat (List.length vs))); reflexivity.
Qed.

Lemma row_near (vs : list Vote) (o : IOption) :
  0 < Z.of_nat (List.length vs) ->
  let exact := (inject_Z (count_option (opt_id o) vs) / inject_Z (Z.of_nat (List.length vs)) * 100)%Q in
  (exact - row_slack <= percentage (result_row vs o))%Q
  /\ (percentage (result_row vs o) <= exact + row_slack)%Q.
Proof.
  intros Hn. cbv zeta. rewrite result_row_percentage.
  destruct (Z.ltb_spec 0 (Z.of_nat (List.length vs))); [|lia].
  apply row_percentage_near; [exact Hn | apply count_option_bounds].
Qed.

Lemma sum_near (vs : list Vote) (opts : list IOption) :
  0 < Z.of_nat (List.length vs) ->
  let exact := (inject_Z (counted opts vs) / inject_Z (Z.of_nat (List.length vs)) * 100)%Q in
  let slack := (inject_Z (Z.of_nat (List.length opts)) * row_slack)%Q in
  (exact - slack <= sum_percentages (List.map (result_row vs) opts))%Q
  /\ (sum_percentages (List.map (result_row vs) opts) <= exact + slack)%Q.
Proof.
  intros Hn. cbv zeta. induction opts as [|o opts IH].
  - cbn [List.map sum_percentages List.fold_right counted List.length Z.of_nat].
    change (inject_Z 0) with 0%Q. unfold Qdiv.
    change (inject_Z (Z.of_nat 0)) with 0%Q.
    set (c := (/ inject_Z (Z.of_nat (List.length vs)))%Q). clearbody c.
    unfold row_slack. split; lra.
  - cbn [List.map sum_percentages List.fold_right counted List.length].
    fold (sum_percentages (List.map (result_row vs) opts)).
    fold (counted opts vs).
    rewrite Nat2Z.inj_succ. unfold Z.succ. rewrite !inject_Z_plus.
    change (inject_Z 1) with 1%Q.
    destruct (row_near vs o Hn) as [R1 R2]. destruct IH as [I1 I2].
    unfold Qdiv in *.
    set (c := (/ inject_Z (Z.of_nat (List.length vs)))%Q) in *. clearbody c.
    set (x := percentage (result_row vs o)) in *. clearbody x.
    set (S := sum_percentages _) in *. clearbody S.
    unfold row_slack in *. split; lra.
Qed.

Lemma hits_absent (opts : list IOption) (x : string) :
  ~ In x (List.map opt_id opts) -> hits opts x = 0.
Proof.
  induction opts as [|o opts IH]; simpl; [reflexivity|].
  intros H. destruct (String.eqb_spec x (opt_id o)) as [E|E].
  - exfalso. apply H. left. symmetry. exact E.
  - rewrite IH; [reflexivity|]. intros Hin. apply H. right. exact Hin.
Qed.

Lemma hits_once (opts : list IOption) (x : string) :
  NoDup (List.map opt_id opts) -> In x (List.map opt_id opts) -> hits opts x = 1.
Proof.
  induction opts as [|o opts IH]; simpl; [intros _ []|].
  intros Hd Hin. apply NoDup_cons in Hd as [Hx Hd].
  destruct (String.eqb_spec x (opt_id o)) as [E|E].
  - rewrite hits_absent; [reflexivity|].
    rewrite E. intros Hin'. apply Hx, list_elem_of_In, Hin'.
  - destruct Hin as [Hin|Hin]; [congruence|]. rewrite (IH Hd Hin). reflexivity.
Qed.

Lemma counted_cons (opts : list IOption) (v : Vote) (vs : list Vote) :
  counted opts (v :: vs) = hits opts (selectedOption v) + counted opts vs.
Proof.
  induction opts as [|o opts IH]; simpl; [reflexivity|].
  rewrite IH. unfold count_option. simpl.
  destruct (String.eqb (selectedOption v) (opt_id o)); simpl List.length; lia.
Qed.

Lemma counted_all (opts : list IOption) (vs : list Vote) :
  NoDup (List.map opt_id opts) ->
  (forall v, In v vs -> In (selectedOption v) (List.map opt_id opts)) ->
  counted opts vs = Z.of_nat (List.length vs).
Proof.
  intros Hd. induction vs as [|v vs IH]; intros Hin.
  - clear. induction opts as [|o opts IHo]; [reflexivity|].
    cbn [counted List.fold_right]. fold (counted opts []). rewrite IHo. reflexivity.
  - rewrite counted_cons.
    rewrite hits_once; [|exact Hd|apply Hin; left; reflexivity].
    rewrite IH; [simpl List.length; lia|].
    intros w Hw. apply Hin. right. exact Hw.
Qed.


Lemma in_results (p : Poll) (vs : list Vote) (row : ResultRow) :
  In row (poll_results p vs) -> exists o, In o (options p) /\ row = result_row vs o.
Proof.
  unfold poll_results. intros H. apply List.in_map_iff in H as (o & <- & Ho). eauto.
Qed.

(** The results handler answers with the tally of the votes its filter finds,
    and writes nothing. *)
Lemma getPollResults_tally (s : Store) (req : ResultsReq) (i : ObjectId) (poll : Poll) :
  castObjectId (rq_id req) = Some i ->
  polls s !! i = Some poll ->
  let found := List.filter (matches_filter i (build_filter req)) (votes s) in
  run (getPollResults req) s
  = (respond 200 true ""
       (ResultsData i (poll_title poll) (Z.of_nat (List.length found))
          (poll_results poll found)), s)
  /\ run (resultsRoute req) s = run (getPollResults req) s.
Proof.
  intros Hc Hl. unfold getPollResults, resultsRoute, cast_id, await_poll, await_votes.
  rewrite (castObjectId_isValid _ _ Hc), Hc. simpl. rewrite Hl. split; reflexivity.
Qed.

(** C8 (as amended): for a poll and a filter, [getPollResults] and the results
    route answer with the tally of the votes on that poll that match the
    filter: one row per option, in the poll's order, with the number of those
    votes naming that option, and a percentage that is the double nearest to a
    whole number of hundredths and lies within half a hundredth, and the 10^-12
    that the double arithmetic may add, of [votes / total * 100]; with no
    matching vote every percentage is 0.  When the total is positive, the
    option ids are pairwise distinct and every counted vote names one of them,
    the percentages sum to 100 up to that distance per option. *)
Theorem tally_counts_and_percentages
    (s : Store) (req : ResultsReq) (i : ObjectId) (poll : Poll) :
  castObjectId (rq_id req) = Some i ->
  polls s !! i = Some poll ->
  let found := List.filter (matches_filter i (build_filter req)) (votes s) in
  let total := Z.of_nat (List.length found) in
  exists rows,
    run (getPollResults req) s
    = (respond 200 true "" (ResultsData i (poll_title poll) total rows), s)
    /\ run (resultsRoute req) s = run (getPollResults req) s
    /\ List.map optionId rows = List.map opt_id (options poll)
    /\ (forall row, In row rows ->
          row_votes row = count_option (optionId row) found
          /\ (exists h : Z, 0 <= h <= 10000 /\ percentage row = double (inject_Z h / 100))
          /\ (0 < total -> (Qabs (percentage row - exact_share row total) <= row_slack)%Q)
          /\ (total = 0 -> (percentage row == 0)%Q))
    /\ (0 < total ->
        NoDup (List.map opt_id (options poll)) ->
        (forall v, In v found -> In (selectedOption v) (List.map opt_id (options poll))) ->
        (Qabs (sum_percentages rows - 100) <= rounding_slack poll)%Q).
Proof.
  intros Hc Hl. cbv zeta.
  destruct (getPollResults_tally s req i poll Hc Hl) as [Hrun Hroute]. cbv zeta in Hrun.
  set (found := List.filter (matches_filter i (build_filter req)) (votes s)) in *.
  exists (poll_results poll found).
  split; [exact Hrun|]. split; [exact Hroute|]. split; [|split].
  - unfold poll_results. rewrite List.map_map. reflexivity.
  - intros row Hrow. apply in_results in Hrow as (o & _ & ->).
    split; [reflexivity|]. split; [|split].
    + unfold result_row. cbn [percentage]. unfold double_div at 1.
      eexists. split; [|reflexivity].
      destruct (Z.ltb_spec 0 (Z.of_nat (List.length found))) as [Hn|Hn].
      * apply (row_percentage_range (count_option (opt_id o) found)
                 (Z.of_nat (List.length found)) Hn).
        apply count_option_bounds.
      * vm_compute. split; discriminate.
    + intros Hn. destruct (row_near found o Hn) as [R1 R2].
      apply Qabs_Qle_condition. unfold exact_share. cbn [row_votes result_row].
      set (x := percentage _) in *. clearbody x.
      set (e := (_ / _ * 100)%Q) in *. clearbody e.
      unfold row_slack in *. split; lra.
    + intros H0. rewrite result_row_percentage, H0. reflexivity.
  - intros Hn Hd Hin.
    destruct (sum_near found (options poll) Hn) as [S1 S2].
    rewrite (counted_all (options poll) found Hd Hin) in S1, S2.
    assert (E : (inject_Z (Z.of_nat (List.length found))
                 / inject_Z (Z.of_nat (List.length found)) * 100 == 100)%Q).
    { field. change 0%Q with (inject_Z 0). rewrite inject_Z_injective. lia. }
    apply Qabs_Qle_condition. unfold poll_results, rounding_slack.
    set (S := sum_percentages _) in *. clearbody S.
    set (m := (inject_Z (Z.of_nat (List.length (options poll))) * row_slack)%Q) in *.
    clearbody m.
    rewrite E in S1, S2. split; lra.
Qed.

Lemma tally_counts_and_percentages_witness :
  let req := results_req hex_id_1 in
  let found := List.filter (matches_filter 1%N (build_filter req)) (votes tallied_store) in
  (castObjectId (rq_id req) = Some 1%N
   /\ polls tallied_store !! 1%N = Some sample_poll
   /\ 0 < Z.of_nat (List.length found)
   /\ NoDup (List.map opt_id (options sample_poll))
   /\ (forall v, In v found ->
                 In (selectedOption v) (List.map opt_id (options sample_poll))))
  /\ exists rows,
       run (getPollResults req) tallied_store
       = (respond 200 true "" (ResultsData 1%N (poll_title sample_poll) 3 rows),
          tallied_store)
       /\ List.map row_votes rows = [2; 1]
       /\ (Qabs (sum_percentages rows - 100) <= rounding_slack sample_poll)%Q.
Proof.
  cbv zeta.
  assert (Hc : castObjectId (rq_id (results_req hex_id_1)) = Some 1%N) by reflexivity.
  assert (Hl : polls tallied_store !! 1%N = Some sample_poll) by reflexivity.
  assert (Hn : 0 < Z.of_nat
                     (List.length
                        (List.filter (matches_filter 1%N (build_filter (results_req hex_id_1)))
                           (votes tallied_store)))) by (simpl; lia).
  assert (Hd : NoDup (List.map opt_id (options sample_poll))).
  { simpl. apply NoDup_cons. split.
    - intros H. apply list_elem_of_singleton in H. discriminate H.
    - apply NoDup_singleton. }
  assert (Hin : forall v,
             In v (List.filter (matches_filter 1%N (build_filter (results_req hex_id_1)))
                     (votes tallied_store)) ->
             In (selectedOption v) (List.map opt_id (options sample_poll))).
  { intros v [<-|[<-|[<-|[]]]]; simpl; auto. }
  split; [auto 6|].
  destruct (tally_counts_and_percentages tallied_store (results_req hex_id_1) 1%N
              sample_poll Hc Hl) as (rows & Hrun & _ & _ & _ & Hsum).
  exists rows. split; [exact Hrun|]. split.
  - assert (E : rows = poll_results sample_poll three_votes).
    { change (run (getPollResults (results_req hex_id_1)) tallied_store)
        with (respond 200 true ""
                (ResultsData 1%N (poll_title sample_poll) 3
                   (poll_results sample_poll three_votes)), tallied_store) in Hrun.
      injection Hrun as Hrun. symmetry. exact Hrun. }
    rewrite E. reflexivity.
  - exact (Hsum Hn Hd Hin).
Defined.

(** The specification's scenario: 63 "yes" and 37 "no". *)
Example tally_63_37 :
  List.map (fun row => (optionId row, row_votes row)) (poll_results sample_poll hundred_votes)
  = [("yes", 63); ("no", 37)]
  /\ Forall2 (fun row pct => (percentage row == pct)%Q)
       (poll_results sample_poll hundred_votes) [63%Q; 37%Q].
Proof. split; [reflexivity|]. repeat constructor. Qed.

(** C8, as stated, fails: with one counted vote naming an option the poll
    does not list, the total is 1 and every percentage is 0; with two options
    carrying one id a single vote is counted under both, so the percentages
    sum to 200; and a share that lies halfway between two hundredths need not
    go to the nearer or the upper one: 23 votes out of 160 are 14.375 percent,
    and the row says 14.37, for the double product [(23 / 160) * 100 * 100]
    falls just below 1437.5. *)
Lemma percentages_need_not_sum_to_100 :
  let rows := poll_results sample_poll [vote_for 256%N "alice" "maybe"] in
  let twins := poll_results twin_poll [vote_for 256%N "alice" "a"] in
  let tie := result_row tie_votes yes_option in
  (sum_percentages rows == 0)%Q
  /\ ~ (Qabs (sum_percentages rows - 100) <= rounding_slack sample_poll)%Q
  /\ (sum_percentages twins == 200)%Q
  /\ ~ (Qabs (sum_percentages twins - 100) <= rounding_slack twin_poll)%Q
  /\ row_votes tie = 23 /\ Z.of_nat (List.length tie_votes) = 160
  /\ (exact_share tie 160 == 14375 # 1000)%Q
  /\ (percentage tie == double (1437 # 100))%Q
  /\ (percentage tie < exact_share tie 160)%Q.
Proof.
  cbv zeta. split; [reflexivity|]. split; [|split; [reflexivity|split]].
  - intros H. vm_compute in H. apply H. reflexivity.
  - intros H. vm_compute in H. apply H. reflexivity.
  - split; [reflexivity|]. split; [reflexivity|].
    split; [vm_compute; reflexivity|]. split; vm_compute; reflexivity.
Qed.

(** * Further properties of the ledger *)

(** ** The unique index under any schedule *)

Lemma key_absent (u : string) (p : ObjectId) (l : list Vote) :
  existsb (same_vote_key u p) l = false -> (u, p) ∉ List.map vote_key l.
Proof.
  induction l as [|a l IH]; simpl.
  - intros _ H. apply elem_of_nil in H. exact H.
  - intros H. apply orb_false_iff in H as [Ha Hl].
    intros Hin. apply elem_of_cons in Hin as [E|Hin]; [|exact (IH Hl Hin)].
    unfold vote_key in E. injection E as E1 E2.
    unfold same_vote_key in Ha. rewrite <- E1, <- E2 in Ha.
    rewrite String.eqb_refl, N.eqb_refl in Ha. discriminate Ha.
Qed.

Lemma update_first_keys (f : Vote -> bool) (g : Vote -> Vote) (l : list Vote) :
  (forall v, vote_key (g v) = vote_key v) ->
  List.map vote_key (update_first f g l) = List.map vote_key l.
Proof.
  intros Hg. induction l as [|a l IH]; simpl; [reflexivity|].
  destruct (f a); simpl; [rewrite Hg | rewrite IH]; reflexivity.
Qed.

Lemma remove_first_In (f : Vote -> bool) (l : list Vote) (v : Vote) :
  In v (remove_first f l) -> In v l.
Proof.
  induction l as [|a l IH]; simpl; [tauto|].
  destruct (f a); simpl; [tauto|]. intros [E|H]; auto.
Qed.

Lemma remove_first_keys_NoDup (f : Vote -> bool) (l : list Vote) :
  NoDup (List.map vote_key l) -> NoDup (List.map vote_key (remove_first f l)).
Proof.
  induction l as [|a l IH]; simpl; [auto|].
  intros H. apply NoDup_cons in H as [Ha Hl].
  destruct (f a); [exact Hl|]. simpl. apply NoDup_cons. split; [|exact (IH Hl)].
  intros Hin. apply Ha.
  apply list_elem_of_In in Hin. apply List.in_map_iff in Hin as (w & Ew & Hw).
  apply list_elem_of_In, List.in_map_iff. exists w. split; [exact Ew|].
  exact (remove_first_In f l w Hw).
Qed.

(** Every operation of the store keeps the vote keys distinct. *)
Lemma exec_votes_unique (op : StoreOp) (s : Store) :
  votes_unique s -> votes_unique (snd (exec op s)).
Proof.
  unfold votes_unique. intros Hs.
  destruct op; simpl; try exact Hs.
  - destruct (validate_poll _); simpl; [|exact Hs].
    destruct (polls s !! id); exact Hs.
  - destruct (validate_new_vote doc); simpl; [|exact Hs].
    destruct (existsb _ (votes s)) eqn:E; simpl; [exact Hs|].
    rewrite List.map_app. simpl. apply NoDup_app. split; [exact Hs|]. split.
    + intros x Hx Hx'. apply list_elem_of_singleton in Hx'. subst x.
      exact (key_absent _ _ _ E Hx).
    + apply NoDup_singleton.
  - destruct (validate_vote doc); simpl; [|exact Hs].
    destruct (existsb _ (votes s)); simpl; [|exact Hs].
    rewrite update_first_keys; [exact Hs|].
    intros v. unfold saved_vote. destruct (_ && _ && _); reflexivity.
  - apply remove_first_keys_NoDup, Hs.
  - destruct (validate_petition _); simpl; [|exact Hs].
    destruct (petitions s !! id); exact Hs.
  - destruct (petitions s !! id); exact Hs.
Qed.

Lemma resume_votes_unique {A : Type} (p : Prog A) (s : Store) :
  votes_unique s -> votes_unique (snd (resume p s)).
Proof.
  intros Hs. destruct p as [a|op k]; simpl; [exact Hs|].
  pose proof (exec_votes_unique op s Hs) as H.
  destruct (exec op s) as [r s']. exact H.
Qed.

Lemma run_votes_unique {A : Type} (p : Prog A) (s : Store) :
  votes_unique s -> votes_unique (snd (run p s)).
Proof.
  revert s. induction p as [a|op k IH]; intros s Hs; simpl; [exact Hs|].
  pose proof (exec_votes_unique op s Hs) as H.
  destruct (exec op s) as [r s']. apply IH, H.
Qed.

(** X1: whatever two handlers are in flight and however their awaits are
    interleaved, a store with at most one vote row per (participant, poll)
    stays one; so does it under any sequence of vote operations run in turn. *)
Theorem one_vote_per_participant_under_any_schedule :
  (forall (A : Type) (sched : list bool) (p q : Prog A) (s : Store),
      votes_unique s -> votes_unique (store_of (interleave sched p q s)))
  /\ (forall (ops : list VoteOp) (s : Store),
         votes_unique s -> votes_unique (perform_votes ops s)).
Proof.
  split.
  - intros A sched. induction sched as [|b sched IH]; intros p q s Hs; [exact Hs|].
    destruct b; simpl.
    + pose proof (resume_votes_unique q s Hs) as H.
      destruct (resume q s) as [q' s']. apply IH, H.
    + pose proof (resume_votes_unique p s Hs) as H.
      destruct (resume p s) as [p' s']. apply IH, H.
  - intros ops. unfold perform_votes.
    induction ops as [|op ops IH]; intros s Hs; simpl; [exact Hs|].
    apply IH. unfold perform_vote. apply run_votes_unique, Hs.
Qed.

Lemma one_vote_per_participant_under_any_schedule_witness :
  votes_unique sample_store
  /\ votes_unique
       (store_of (interleave two_voters_schedule
                    (castVote (cast_req "alice" "yes") 1500)
                    (castVote (cast_req "alice" "no") 1500) sample_store))
  /\ votes_unique
       (perform_votes
          [Ledger (CastVote (cast_req "alice" "yes") 1500);
           UpdateVote (update_req "alice" (Some "no")) 1600;
           Ledger (CastVote (cast_req "alice" "yes") 1700)]
          sample_store).
Proof.
  assert (H : votes_unique sample_store) by apply NoDup_nil_2.
  split; [exact H|]. split.
  - exact (proj1 one_vote_per_participant_under_any_schedule _ _ _ _ _ H).
  - exact (proj2 one_vote_per_participant_under_any_schedule _ _ H).
Defined.

(** ** Requests that fail *)

(** [castVote] run alone: nothing written, or the request taken. *)
Lemma castVote_outcome (s : Store) (req : CastVoteReq) (now : Date) :
  snd (run (castVote req now) s) = s
  \/ exists user pid poll,
       names_vote req user pid /\ polls s !! pid = Some poll
       /\ takes poll pid req now /\ not_voted s user pid
       /\ run (castVote req now) s
          = if validate_poll poll
            then (respond 201 true "Vote cast successfully"
                    (VoteSummary (nextId s) pid (interpolate (cv_selectedOption req)) now),
                  store_after_cast s pid poll req now)
            else (cast_failed, store_after_insert s pid req now).
Proof.
  destruct (castVote_store s req now)
    as [E|(user & pid & poll & Hn & Hl & Ht & Hnv & _)]; [left; exact E|].
  right. exists user, pid, poll. repeat split; try assumption; try apply Hn; try apply Ht.
  exact (castVote_takes s req now user pid poll Hn Hl Ht Hnv).
Qed.

Lemma updateVote_success_or_unchanged (s : Store) (req : UpdateVoteReq) (now : Date) :
  success (fst (run (updateVote req now) s)) = true \/ snd (run (updateVote req now) s) = s.
Proof.
  destruct (updateVote_untargeted s req now) as [(i & v & poll & Ht)|[_ E]];
    [|right; exact E].
  rewrite (updateVote_gate s req now i v poll Ht).
  destruct (negb (isActive poll) || Z.ltb (endDate poll) now); [right; reflexivity|].
  destruct (validate_vote (updated_vote v req)); [left|right]; reflexivity.
Qed.

Lemma signPetition_success_or_unchanged (s : Store) (req : SignPetitionReq) (now : Date) :
  success (fst (run (signPetition req now) s)) = true
  \/ snd (run (signPetition req now) s) = s.
Proof.
  unfold signPetition, cast_id, await_petition, await_done.
  destruct (js_truthy (sp_userId req)); simpl; [|right; reflexivity].
  destruct (ObjectId_isValid (sp_petitionId req)); simpl; [|right; reflexivity].
  destruct (castObjectId (sp_petitionId req)) as [i|]; simpl; [|right; reflexivity].
  destruct (petitions s !! i) as [p|] eqn:El; simpl; [|right; reflexivity].
  destruct (String.eqb (status p) "active"); simpl; [|right; reflexivity].
  destruct (find_supporter p (sp_userId req)); simpl; [right; reflexivity|].
  destruct (new_supporter req now) as [sup|]; simpl; [|right; reflexivity].
  destruct (validate_petition _); simpl; [|right; reflexivity].
  rewrite El. left. reflexivity.
Qed.

Lemma updatePetitionStatus_success_or_unchanged
    (s : Store) (req : UpdateStatusReq) (now : Date) :
  success (fst (run (updatePetitionStatus req now) s)) = true
  \/ snd (run (updatePetitionStatus req now) s) = s.
Proof.
  unfold updatePetitionStatus, cast_id, await_petition.
  destruct (ObjectId_isValid (us_id req)); simpl; [|right; reflexivity].
  destruct (castObjectId (us_id req)) as [i|]; simpl; [|right; reflexivity].
  destruct (petitions s !! i) as [p|]; simpl; [left|right]; reflexivity.
Qed.

(** X2: a call with one write that does not answer with success has written
    nothing: a rejected or failed [updateVote], [signPetition] or
    [updatePetitionStatus] leaves the whole store as it found it.  [castVote]
    and [deleteVote] write the row and the counter by two saves: a call of
    theirs that does not answer with success has written nothing, or has
    answered 500 after inserting (deleting) the row, the save of the counter
    having failed on a poll document that does not pass the validators of its
    schema; so they too write nothing when they fail on a store whose poll
    documents pass them. *)
Theorem failed_call_writes_nothing (s : Store) (now : Date) :
  (forall req, success (fst (run (updateVote req now) s)) = false ->
               snd (run (updateVote req now) s) = s)
  /\ (forall req, success (fst (run (signPetition req now) s)) = false ->
                  snd (run (signPetition req now) s) = s)
  /\ (forall req, success (fst (run (updatePetitionStatus req now) s)) = false ->
                  snd (run (updatePetitionStatus req now) s) = s)
  /\ (forall req, success (fst (run (castVote req now) s)) = false ->
        snd (run (castVote req now) s) = s
        \/ exists pid poll,
             polls s !! pid = Some poll /\ validate_poll poll = false
             /\ run (castVote req now) s = (cast_failed, store_after_insert s pid req now))
  /\ (forall req, success (fst (run (deleteVote req now) s)) = false ->
        snd (run (deleteVote req now) s) = s
        \/ exists i v poll,
             targets s (dv_voteId req) i v poll /\ validate_poll poll = false
             /\ run (deleteVote req now) s
                = (respond 500 false "Failed to delete vote" NoData,
                   store_after_removal s i))
  /\ (polls_valid s ->
      (forall req, success (fst (run (castVote req now) s)) = false ->
                   snd (run (castVote req now) s) = s)
      /\ (forall req, success (fst (run (deleteVote req now) s)) = false ->
                      snd (run (deleteVote req now) s) = s)).
Proof.
  assert (Hcast : forall req, success (fst (run (castVote req now) s)) = false ->
            snd (run (castVote req now) s) = s
            \/ exists pid poll,
                 polls s !! pid = Some poll /\ validate_poll poll = false
                 /\ run (castVote req now) s
                    = (cast_failed, store_after_insert s pid req now)).
  { intros req H.
    destruct (castVote_outcome s req now)
      as [E|(user & pid & poll & _ & Hl & _ & _ & Hrun)]; [left; exact E|].
    rewrite Hrun in H. destruct (validate_poll poll) eqn:Hv; [discriminate H|].
    right. exists pid, poll. rewrite Hrun. auto. }
  assert (Hdel : forall req, success (fst (run (deleteVote req now) s)) = false ->
            snd (run (deleteVote req now) s) = s
            \/ exists i v poll,
                 targets s (dv_voteId req) i v poll /\ validate_poll poll = false
                 /\ run (deleteVote req now) s
                    = (respond 500 false "Failed to delete vote" NoData,
                       store_after_removal s i)).
  { intros req H.
    destruct (deleteVote_untargeted s req now) as [(i & v & poll & Ht)|[_ E]];
      [|left; exact E].
    rewrite (deleteVote_gate s req now i v poll Ht) in *.
    destruct (negb (isActive poll) || Z.ltb (endDate poll) now); [left; reflexivity|].
    destruct (validate_poll poll) eqn:Hv; [discriminate H|].
    right. exists i, v, poll. auto. }
  split.
  { intros req H.
    destruct (updateVote_success_or_unchanged s req now); [congruence | assumption]. }
  split.
  { intros req H.
    destruct (signPetition_success_or_unchanged s req now); [congruence | assumption]. }
  split.
  { intros req H.
    destruct (updatePetitionStatus_success_or_unchanged s req now);
      [congruence | assumption]. }
  split; [exact Hcast|]. split; [exact Hdel|].
  intros Hval. split.
  - intros req H. destruct (Hcast req H) as [E|(pid & poll & Hl & Hv & _)]; [exact E|].
    rewrite (Hval pid poll Hl) in Hv. discriminate Hv.
  - intros req H. destruct (Hdel req H) as [E|(i & v & poll & Ht & Hv & _)]; [exact E|].
    destruct Ht as (_ & _ & Hl). rewrite (Hval _ poll Hl) in Hv. discriminate Hv.
Qed.

Lemma failed_call_writes_nothing_witness :
  (success (fst (run (signPetition (sign_req "alice") 1600) signed_store)) = false
   /\ snd (run (signPetition (sign_req "alice") 1600) signed_store) = signed_store)
  /\ (polls_valid voted_store
      /\ success (fst (run (castVote (cast_req "bob" "maybe") 1600) voted_store)) = false
      /\ snd (run (castVote (cast_req "bob" "maybe") 1600) voted_store) = voted_store)
  /\ (success (fst (run (castVote (cast_req "alice" "yes") 1600) three_option_store)) = false
      /\ snd (run (castVote (cast_req "alice" "yes") 1600) three_option_store)
         <> three_option_store
      /\ exists pid poll,
           polls three_option_store !! pid = Some poll /\ validate_poll poll = false
           /\ run (castVote (cast_req "alice" "yes") 1600) three_option_store
              = (cast_failed,
                 store_after_insert three_option_store pid (cast_req "alice" "yes") 1600)).
Proof.
  assert (H1 : success (fst (run (castVote (cast_req "bob" "maybe") 1600) voted_store))
               = false) by reflexivity.
  assert (H2 : success (fst (run (signPetition (sign_req "alice") 1600) signed_store))
               = false) by reflexivity.
  assert (H3 : success (fst (run (castVote (cast_req "alice" "yes") 1600) three_option_store))
               = false) by reflexivity.
  assert (Hval : polls_valid voted_store).
  { intros p poll Hl. change (polls voted_store) with ({[ 1%N := voted_poll ]} : gmap N Poll) in Hl.
    apply lookup_singleton_Some in Hl as [_ <-]. reflexivity. }
  assert (Hne : snd (run (castVote (cast_req "alice" "yes") 1600) three_option_store)
                <> three_option_store).
  { intros E. apply (f_equal nextId) in E. vm_compute in E. discriminate E. }
  split.
  { split; [exact H2|].
    exact (proj1 (proj2 (failed_call_writes_nothing signed_store 1600)) _ H2). }
  split.
  { split; [exact Hval|]. split; [exact H1|].
    exact (proj1 (proj2 (proj2 (proj2 (proj2 (proj2
             (failed_call_writes_nothing voted_store 1600))))) Hval) _ H1). }
  split; [exact H3|]. split; [exact Hne|].
  destruct (proj1 (proj2 (proj2 (proj2 (failed_call_writes_nothing three_option_store 1600))))
              _ H3) as [E|H]; [contradiction | exact H].
Defined.

(** ** Closed polls, and updates among the vote operations *)

Lemma remove_first_filter_other (f g : Vote -> bool) (l : list Vote) (v : Vote) :
  List.find f l = Some v -> g v = false ->
  List.filter g (remove_first f l) = List.filter g l.
Proof.
  intros Hf Hg. induction l as [|a l IH]; simpl in *; [reflexivity|].
  destruct (f a).
  - injection Hf as ->. rewrite Hg. reflexivity.
  - simpl. rewrite (IH Hf). reflexivity.
Qed.

Lemma update_first_filter_other (f g : Vote -> bool) (h : Vote -> Vote)
    (l : list Vote) (v : Vote) :
  List.find f l = Some v -> g v = false -> g (h v) = false ->
  List.filter g (update_first f h l) = List.filter g l.
Proof.
  intros Hf Hg Hh. induction l as [|a l IH]; simpl in *; [reflexivity|].
  destruct (f a).
  - injection Hf as ->. simpl. rewrite Hg, Hh. reflexivity.
  - simpl. rewrite (IH Hf). reflexivity.
Qed.

Lemma update_first_filter_length (f g : Vote -> bool) (h : Vote -> Vote)
    (l : list Vote) (v : Vote) :
  List.find f l = Some v -> g (h v) = g v ->
  List.length (List.filter g (update_first f h l)) = List.length (List.filter g l).
Proof.
  intros Hf Hh. induction l as [|a l IH]; simpl in *; [reflexivity|].
  destruct (f a).
  - injection Hf as ->. simpl. rewrite Hh. destruct (g v); reflexivity.
  - simpl. destruct (g a); simpl; rewrite (IH Hf); reflexivity.
Qed.

Lemma editable_not_closed (poll : Poll) (now : Date) :
  editable poll now -> closed_at poll now -> False.
Proof. intros [Ha Ht] [Hc|Hc]; [congruence | lia]. Qed.

Lemma on_poll_other (p q : ObjectId) (v : Vote) :
  pollId v = q -> q <> p -> on_poll p v = false.
Proof. intros <- H. unfold on_poll. apply N.eqb_neq. exact H. Qed.

(** X3: once a poll is inactive or past its end date, no vote operation run
    at that time touches it: whatever the request, [castVote], [updateVote] and
    [deleteVote] leave that poll's vote rows and the poll document, counter
    included, exactly as they were. *)
Theorem closed_poll_is_frozen (s : Store) (op : VoteOp) (pid : ObjectId) (poll : Poll) :
  polls s !! pid = Some poll ->
  closed_at poll (op_time op) ->
  rows_of pid (perform_vote s op) = rows_of pid s
  /\ polls (perform_vote s op) !! pid = Some poll.
Proof.
  intros Hl Hc. unfold perform_vote, rows_of.
  destruct op as [[req now|req now]|req now]; simpl in *.
  - destruct (castVote_store s req now)
      as [->|(user & q & pq & Hn & Hq & Ht & Hnv & ->)]; [auto|].
    assert (Hne : q <> pid).
    { intros ->. assert (pq = poll) by congruence. subst pq.
      destruct Ht as (Ha & Hle & _). exact (editable_not_closed poll now (conj Ha Hle) Hc). }
    destruct (store_after_castVote_poll s q pq req now Hq) as (Ev & _ & Hother & _).
    rewrite Ev. split.
    + rewrite List.filter_app. simpl.
      rewrite (on_poll_other pid q); [apply List.app_nil_r | reflexivity | exact Hne].
    + rewrite Hother; [exact Hl | congruence].
  - destruct (deleteVote_store s req now)
      as [->|(i & v & pq & (_ & Hf & Hq) & Eg & ->)]; [auto|].
    assert (Hne : pollId v <> pid).
    { intros E. rewrite E in Hq. assert (pq = poll) by congruence. subst pq.
      exact (editable_not_closed poll now Eg Hc). }
    destruct (store_after_deleteVote_poll s i v pq now Hq) as (Ev & _ & Hother & _).
    rewrite Ev. split.
    + apply (remove_first_filter_other _ _ _ v Hf).
      apply (on_poll_other pid (pollId v)); [reflexivity | exact Hne].
    + rewrite Hother; [exact Hl | congruence].
  - destruct (updateVote_untargeted s req now) as [(i & v & pq & Ht)|[_ ->]]; [|auto].
    rewrite (updateVote_gate s req now i v pq Ht).
    destruct (negb (isActive pq) || Z.ltb (endDate pq) now) eqn:Eg; [auto|].
    apply closed_gate in Eg. destruct Ht as (_ & Hf & Hq).
    assert (Hne : pollId v <> pid).
    { intros E. rewrite E in Hq. assert (pq = poll) by congruence. subst pq.
      exact (editable_not_closed poll now Eg Hc). }
    destruct (validate_vote (updated_vote v req)); [|auto].
    unfold store_after_update. simpl. split; [|exact Hl].
    destruct (vote_after_update_fields v req now) as (_ & _ & _ & _ & _ & Fp & _).
    apply (update_first_filter_other _ _ _ _ v Hf);
      apply (on_poll_other pid (pollId v)); try reflexivity; try exact Hne.
    exact Fp.
Qed.

Lemma closed_poll_is_frozen_witness :
  let op := Ledger (RetractVote (delete_req "alice") 2500) in
  (polls voted_store !! 1%N = Some voted_poll /\ closed_at voted_poll (op_time op))
  /\ rows_of 1%N (perform_vote voted_store op) = rows_of 1%N voted_store
  /\ polls (perform_vote voted_store op) !! 1%N = Some voted_poll.
Proof.
  cbv zeta.
  assert (Hl : polls voted_store !! 1%N = Some voted_poll) by reflexivity.
  assert (Hc : closed_at voted_poll
                 (op_time (Ledger (RetractVote (delete_req "alice") 2500))))
    by (right; simpl; lia).
  split; [auto|].
  exact (closed_poll_is_frozen voted_store _ 1%N voted_poll Hl Hc).
Defined.

Lemma updateVote_keeps_polls (s : Store) (req : UpdateVoteReq) (now : Date) :
  polls (snd (run (updateVote req now) s)) = polls s.
Proof.
  destruct (updateVote_untargeted s req now) as [(i & v & poll & Ht)|[_ ->]];
    [|reflexivity].
  rewrite (updateVote_gate s req now i v poll Ht).
  destruct (negb (isActive poll) || Z.ltb (endDate poll) now); [reflexivity|].
  destruct (validate_vote (updated_vote v req)); reflexivity.
Qed.

Lemma perform_update_consistent (s : Store) (req : UpdateVoteReq) (now : Date) :
  counters_consistent s -> counters_consistent (snd (run (updateVote req now) s)).
Proof.
  intros Hs.
  destruct (updateVote_untargeted s req now) as [(i & v & poll & Ht)|[_ ->]];
    [|exact Hs].
  rewrite (updateVote_gate s req now i v poll Ht).
  destruct (negb (isActive poll) || Z.ltb (endDate poll) now); [exact Hs|].
  destruct (validate_vote (updated_vote v req)); [|exact Hs].
  destruct Ht as (_ & Hf & _).
  intros q pq Hq. simpl in *. rewrite (Hs q pq Hq). unfold vote_rows. simpl.
  rewrite (update_first_filter_length _ _ _ _ v Hf); [reflexivity|].
  destruct (vote_after_update_fields v req now) as (_ & _ & _ & _ & _ & Fp & _).
  unfold on_poll. rewrite Fp. reflexivity.
Qed.

(** X4: [updateVote] moves no counter and no row between polls: from a state
    in which every poll's [totalVotes] is the number of its vote rows and
    every poll document passes the validators of its schema, every sequence of
    [castVote], [updateVote] and [deleteVote] calls run in turn ends in such a
    state. *)
Theorem counters_consistent_with_updates (s : Store) (ops : list VoteOp) :
  polls_valid s ->
  counters_consistent s ->
  counters_consistent (perform_votes ops s) /\ polls_valid (perform_votes ops s).
Proof.
  revert s. unfold perform_votes.
  induction ops as [|op ops IH]; intros s Hval Hs; simpl; [auto|].
  assert (H : counters_consistent (perform_vote s op) /\ polls_valid (perform_vote s op)).
  { unfold perform_vote. destruct op as [[req now|req now]|req now]; simpl.
    - apply perform_cast_consistent; assumption.
    - apply perform_retract_consistent; assumption.
    - split; [apply perform_update_consistent, Hs|].
      intros q pq. rewrite updateVote_keeps_polls. apply Hval. }
  destruct H as [H1 H2]. apply IH; assumption.
Qed.

Lemma counters_consistent_with_updates_witness :
  let ops := [Ledger (CastVote (cast_req "alice" "yes") 1500);
              UpdateVote (update_req "alice" (Some "no")) 1600;
              Ledger (CastVote (cast_req "bob" "no") 1700);
              Ledger (RetractVote (delete_req "alice") 1800)] in
  (polls_valid sample_store /\ counters_consistent sample_store)
  /\ counters_consistent (perform_votes ops sample_store)
  /\ vote_rows 1%N (perform_votes ops sample_store) = 1
  /\ (totalVotes <$> polls (perform_votes ops sample_store) !! 1%N) = Some 1.
Proof.
  cbv zeta.
  split; [split; [exact sample_store_valid | exact sample_store_consistent]|].
  split; [|split; reflexivity].
  exact (proj1 (counters_consistent_with_updates sample_store _
                  sample_store_valid sample_store_consistent)).
Defined.

(** ** Casting, retracting, casting again *)

Lemma find_appended (f : Vote -> bool) (l : list Vote) (v : Vote) :
  existsb f l = false -> f v = true -> List.find f (l ++ [v]) = Some v.
Proof.
  intros Hl Hv. induction l as [|a l IH]; simpl in *.
  - rewrite Hv. reflexivity.
  - apply orb_false_iff in Hl as [Ha Hl]. rewrite Ha. auto.
Qed.

Lemma remove_first_appended (f : Vote -> bool) (l : list Vote) (v : Vote) :
  existsb f l = false -> f v = true -> remove_first f (l ++ [v]) = l.
Proof.
  intros Hl Hv. induction l as [|a l IH]; simpl in *.
  - rewrite Hv. reflexivity.
  - apply orb_false_iff in Hl as [Ha Hl]. rewrite Ha, IH; auto.
Qed.

Lemma next_id_unused (s : Store) :
  ids_below_next s -> existsb (has_id (nextId s)) (votes s) = false.
Proof.
  intros H. destruct (existsb _ (votes s)) eqn:E; [|reflexivity].
  apply List.existsb_exists in E as (v & Hv & Hi).
  unfold has_id in Hi. apply N.eqb_eq in Hi. specialize (H v Hv). lia.
Qed.

(** X5: retracting a vote undoes casting it.  When [castVote] accepted a
    request on a poll whose document passes the validators of its schema, and
    [deleteVote] is then called on the vote it created while the poll is still
    open, both calls succeed, and the vote rows, the petitions and the polls
    are what they were before the vote was cast, the counter with them, but
    for the poll's [updatedAt], which is the time of the retraction. *)
Theorem cast_then_retract_restores_the_ledger
    (s : Store) (req : CastVoteReq) (dreq : DeleteVoteReq) (now later : Date)
    (user : string) (pid : ObjectId) (poll : Poll) :
  names_vote req user pid ->
  polls s !! pid = Some poll ->
  validate_poll poll = true ->
  takes poll pid req now ->
  not_voted s user pid ->
  ids_below_next s ->
  0 <= totalVotes poll ->
  castObjectId (dv_voteId dreq) = Some (nextId s) ->
  later <= endDate poll ->
  let cast := run (castVote req now) s in
  let retract := run (deleteVote dreq later) (snd cast) in
  Succeeded (fst cast) /\ Succeeded (fst retract)
  /\ votes (snd retract) = votes s
  /\ polls (snd retract) = <[pid := set_poll_updatedAt poll later]> (polls s)
  /\ petitions (snd retract) = petitions s.
Proof.
  intros Hn Hl Hval Ht Hnv Hids Hpos Hc Hlater. cbv zeta.
  rewrite (castVote_accepts s req now user pid poll Hn Hl Hval Ht Hnv). cbn [fst snd].
  set (v := cast_row s pid req now).
  set (poll1 := counted_poll poll (totalVotes poll + 1) now).
  pose proof (next_id_unused s Hids) as Hfresh.
  assert (Hid : has_id (nextId s) v = true) by (unfold has_id; apply N.eqb_refl).
  assert (Htg : targets (store_after_cast s pid poll req now) (dv_voteId dreq)
                  (nextId s) v poll1).
  { split; [exact Hc|]. split.
    - simpl. apply find_appended; assumption.
    - simpl. apply lookup_insert_eq. }
  rewrite (deleteVote_gate _ dreq later (nextId s) v poll1 Htg).
  destruct Ht as (Ha & _).
  replace (negb (isActive poll1) || Z.ltb (endDate poll1) later) with false.
  2:{ symmetry. apply closed_gate. split; [exact Ha | exact Hlater]. }
  replace (validate_poll poll1) with true by (symmetry; exact Hval).
  unfold Succeeded, store_after_delete. simpl.
  split; [reflexivity|]. split; [reflexivity|]. split.
  - apply remove_first_appended; assumption.
  - split; [|reflexivity].
    rewrite insert_insert_eq. f_equal.
    unfold saved_poll, poll1. cbn [totalVotes counted_poll set_poll_updatedAt set_totalVotes].
    destruct (Z.eqb_spec (Z.max 0 (totalVotes poll + 1 - 1)) (totalVotes poll + 1)) as [E|E];
      [lia|].
    destruct poll as [t ty o a sd ed n u]. unfold set_poll_updatedAt, set_totalVotes.
    simpl in *. f_equal. lia.
Qed.

Lemma cast_then_retract_restores_the_ledger_witness :
  let req := cast_req "alice" "yes" in
  let dreq := delete_req "alice" in
  let cast := run (castVote req 1500) sample_store in
  let retract := run (deleteVote dreq 1600) (snd cast) in
  (names_vote req "alice" 1%N /\ polls sample_store !! 1%N = Some sample_poll
   /\ validate_poll sample_poll = true
   /\ takes sample_poll 1%N req 1500 /\ not_voted sample_store "alice" 1%N
   /\ ids_below_next sample_store /\ 0 <= totalVotes sample_poll
   /\ castObjectId (dv_voteId dreq) = Some (nextId sample_store)
   /\ 1600 <= endDate sample_poll)
  /\ Succeeded (fst cast) /\ Succeeded (fst retract)
  /\ votes (snd retract) = votes sample_store
  /\ polls (snd retract) = <[1%N := set_poll_updatedAt sample_poll 1600]> (polls sample_store)
  /\ petitions (snd retract) = petitions sample_store.
Proof.
  cbv zeta.
  assert (Hn : names_vote (cast_req "alice" "yes") "alice" 1%N) by (repeat split).
  assert (Hl : polls sample_store !! 1%N = Some sample_poll) by reflexivity.
  assert (Hval : validate_poll sample_poll = true) by reflexivity.
  assert (Ht : takes sample_poll 1%N (cast_req "alice" "yes") 1500).
  { repeat split; try reflexivity; try (simpl; lia). eexists; reflexivity. }
  assert (Hnv : not_voted sample_store "alice" 1%N) by reflexivity.
  assert (Hids : ids_below_next sample_store) by (intros v []).
  assert (Hpos : 0 <= totalVotes sample_poll) by (simpl; lia).
  assert (Hc : castObjectId (dv_voteId (delete_req "alice")) = Some (nextId sample_store))
    by reflexivity.
  assert (Hlater : 1600 <= endDate sample_poll) by (simpl; lia).
  split; [repeat split; auto|].
  exact (cast_then_retract_restores_the_ledger sample_store (cast_req "alice" "yes")
           (delete_req "alice") 1500 1600 "alice" 1%N sample_poll
           Hn Hl Hval Ht Hnv Hids Hpos Hc Hlater).
Defined.

Lemma only_row_of_its_key (i : ObjectId) (l : list Vote) (v : Vote) :
  NoDup (List.map vote_key l) ->
  List.find (has_id i) l = Some v ->
  List.find (same_vote_key (userId v) (pollId v)) (remove_first (has_id i) l) = None.
Proof.
  intros Hd Hf. apply find_none_existsb.
  induction l as [|a l IH]; simpl in *; [discriminate|].
  apply NoDup_cons in Hd as [Ha Hd].
  destruct (has_id i a) eqn:Ei.
  - injection Hf as ->.
    destruct (existsb _ l) eqn:E; [|reflexivity].
    apply List.existsb_exists in E as (w & Hw & Hk).
    unfold same_vote_key in Hk. apply andb_true_iff in Hk as [Hu Hp].
    apply String.eqb_eq in Hu. apply N.eqb_eq in Hp.
    exfalso. apply Ha. apply list_elem_of_In, List.in_map_iff.
    exists w. split; [|exact Hw]. unfold vote_key. congruence.
  - simpl. rewrite (IH Hd Hf), orb_false_r.
    destruct (same_vote_key (userId v) (pollId v) a) eqn:Ek; [|reflexivity].
    unfold same_vote_key in Ek. apply andb_true_iff in Ek as [Hu Hp].
    apply String.eqb_eq in Hu. apply N.eqb_eq in Hp.
    exfalso. apply Ha. apply list_elem_of_In, List.in_map_iff.
    exists v. split; [unfold vote_key; congruence|].
    apply List.find_some in Hf. apply Hf.
Qed.

(** X6: a participant who retracts may vote again.  With at most one row per
    (participant, poll), on a poll whose document passes the validators of its
    schema, a successful [deleteVote] clears the participant's key, so a
    following [castVote] by that participant on that poll, otherwise
    acceptable, is accepted rather than answered AlreadyVoted. *)
Theorem retracted_participant_may_vote_again
    (s : Store) (dreq : DeleteVoteReq) (req : CastVoteReq) (now later : Date)
    (i : ObjectId) (v : Vote) (poll : Poll) :
  targets s (dv_voteId dreq) i v poll ->
  editable poll now ->
  validate_poll poll = true ->
  votes_unique s ->
  names_vote req (userId v) (pollId v) ->
  takes poll (pollId v) req later ->
  let retract := run (deleteVote dreq now) s in
  let again := run (castVote req later) (snd retract) in
  Succeeded (fst retract)
  /\ not_voted (snd retract) (userId v) (pollId v)
  /\ Succeeded (fst again)
  /\ ~ AlreadyVoted (fst again)
  /\ List.find (same_vote_key (userId v) (pollId v)) (votes (snd again))
     = Some (cast_row (snd retract) (pollId v) req later).
Proof.
  intros Htg He Hval Hu Hn Ht. cbv zeta.
  rewrite (deleteVote_gate s dreq now i v poll Htg).
  apply closed_gate in He. rewrite He, Hval. cbn [negb fst snd].
  destruct Htg as (_ & Hf & Hl).
  assert (Hnv : not_voted (store_after_delete s i v poll now) (userId v) (pollId v)).
  { unfold not_voted, store_after_delete. simpl.
    apply only_row_of_its_key; assumption. }
  set (poll' := saved_poll poll poll (Z.max 0 (totalVotes poll - 1)) now).
  assert (Ht' : takes poll' (pollId v) req later).
  { destruct (saved_poll_fields poll poll (Z.max 0 (totalVotes poll - 1)) now)
      as (_ & _ & Eo & Ea & _ & Ee).
    destruct Ht as (Ha & Hle & Hopt & Hvv). unfold takes, find_option, poll' in *.
    rewrite Ea, Ee, Eo. auto. }
  assert (Hval' : validate_poll poll' = true)
    by (unfold poll'; rewrite validate_poll_saved; exact Hval).
  rewrite (castVote_accepts (store_after_delete s i v poll now) req later
             (userId v) (pollId v) poll' Hn);
    [| simpl; apply lookup_insert_eq | exact Hval' | exact Ht' | exact Hnv].
  split; [reflexivity|]. split; [exact Hnv|]. split; [reflexivity|].
  split; [intros [H _]; discriminate H|].
  cbn [snd votes store_after_cast].
  apply find_appended.
  - apply find_none_existsb. exact Hnv.
  - apply cast_row_key, Hn.
Qed.

Lemma retracted_participant_may_vote_again_witness :
  let retract := run (deleteVote (delete_req "alice") 1600) voted_store in
  let again := run (castVote (cast_req "alice" "no") 1700) (snd retract) in
  (targets voted_store (dv_voteId (delete_req "alice")) 256%N alice_vote voted_poll
   /\ editable voted_poll 1600 /\ validate_poll voted_poll = true
   /\ votes_unique voted_store
   /\ names_vote (cast_req "alice" "no") (userId alice_vote) (pollId alice_vote)
   /\ takes voted_poll (pollId alice_vote) (cast_req "alice" "no") 1700)
  /\ Succeeded (fst retract)
  /\ not_voted (snd retract) (userId alice_vote) (pollId alice_vote)
  /\ Succeeded (fst again)
  /\ List.map selectedOption (votes (snd again)) = ["no"].
Proof.
  cbv zeta.
  assert (Htg : targets voted_store (dv_voteId (delete_req "alice")) 256%N
                  alice_vote voted_poll) by (repeat split).
  assert (He : editable voted_poll 1600) by (split; [reflexivity | simpl; lia]).
  assert (Hval : validate_poll voted_poll = true) by reflexivity.
  assert (Hu : votes_unique voted_store).
  { unfold votes_unique. change (votes voted_store) with [alice_vote]. simpl.
    apply NoDup_singleton. }
  assert (Hn : names_vote (cast_req "alice" "no") (userId alice_vote) (pollId alice_vote))
    by (repeat split).
  assert (Ht : takes voted_poll (pollId alice_vote) (cast_req "alice" "no") 1700).
  { repeat split; try reflexivity; try (simpl; lia). eexists; reflexivity. }
  split; [repeat split; auto; apply Ht|].
  destruct (retracted_participant_may_vote_again voted_store (delete_req "alice")
              (cast_req "alice" "no") 1600 1700 256%N alice_vote voted_poll
              Htg He Hval Hu Hn Ht) as (H1 & H2 & H3 & _).
  split; [exact H1|]. split; [exact H2|]. split; [exact H3 | reflexivity].
Defined.

(** ** Petitions over time *)

Lemma perform_petition_counted (s : Store) (op : PetitionOp) :
  signatures_counted s -> signatures_counted (perform_petition s op).
Proof.
  intros Hs. unfold perform_petition. destruct op as [req now|req now]; simpl.
  - destruct (signPetition_store s req now) as [->|(i & p & sup & Hl & _ & _ & ->)];
      [exact Hs|].
    intros j q. simpl. rewrite lookup_insert. case_decide as E; [|apply Hs].
    intros [= <-]. simpl. rewrite List.length_app. simpl.
    rewrite (Hs i p Hl). lia.
  - destruct (updatePetitionStatus_store s req now) as [->|(i & p & Hl & ->)]; [exact Hs|].
    intros j q. simpl. rewrite lookup_insert. case_decide as E; [|apply Hs].
    intros [= <-]. simpl. exact (Hs i p Hl).
Qed.

(** X7: the signature counter counts the supporters.  From a state in which
    every petition's [signatures] is the length of its [supporters] list,
    every sequence of [signPetition] and [updatePetitionStatus] calls run in
    turn ends in such a state. *)
Theorem signatures_count_supporters (s : Store) (ops : list PetitionOp) :
  signatures_counted s -> signatures_counted (perform_petitions ops s).
Proof.
  revert s. unfold perform_petitions.
  induction ops as [|op ops IH]; intros s Hs; simpl; [exact Hs|].
  apply IH, perform_petition_counted, Hs.
Qed.

Lemma signatures_count_supporters_witness :
  let ops := [SignPetition (sign_req "alice") 1500;
              UpdatePetitionStatus (status_req "submitted") 1550;
              SignPetition (sign_req "bob") 1600;
              UpdatePetitionStatus (status_req "active") 1650;
              SignPetition (sign_req "bob") 1700] in
  signatures_counted petition_store
  /\ signatures_counted (perform_petitions ops petition_store)
  /\ (signatures <$> petitions (perform_petitions ops petition_store) !! 7%N) = Some 2.
Proof.
  cbv zeta.
  assert (H : signatures_counted petition_store).
  { intros i p Hl. unfold petition_store in Hl. cbn [petitions] in Hl.
    apply lookup_singleton_Some in Hl as [_ <-]. reflexivity. }
  split; [exact H|]. split; [|reflexivity].
  exact (signatures_count_supporters petition_store _ H).
Defined.

Lemma petition_extends_refl (p : Petition) : petition_extends p p.
Proof. unfold petition_extends. repeat split; try reflexivity. Qed.

Lemma petition_extends_trans (p q r : Petition) :
  petition_extends p q -> petition_extends q r -> petition_extends p r.
Proof.
  unfold petition_extends.
  intros (T1 & S1 & N1 & R1 & A1) (T2 & S2 & N2 & R2 & A2).
  repeat split; try (etransitivity; eassumption); try congruence; lia.
Qed.

Lemma perform_petition_extends (s : Store) (op : PetitionOp) (i : ObjectId) (p : Petition) :
  petitions s !! i = Some p ->
  exists p', petitions (perform_petition s op) !! i = Some p' /\ petition_extends p p'.
Proof.
  intros Hl. unfold perform_petition. destruct op as [req now|req now]; simpl.
  - destruct (signPetition_store s req now) as [->|(j & q & sup & Hq & _ & _ & ->)].
    { exists p. split; [exact Hl | apply petition_extends_refl]. }
    simpl. rewrite lookup_insert. case_decide as E.
    + subst j. assert (Eq : Some q = Some p)
        by (transitivity (petitions s !! i); [symmetry; exact Hq | exact Hl]).
      injection Eq as ->.
      eexists. split; [reflexivity|].
      unfold petition_extends, petition_after_sign. simpl.
      repeat split; try (apply prefix_app_r; reflexivity); lia.
    + exists p. split; [exact Hl | apply petition_extends_refl].
  - destruct (updatePetitionStatus_store s req now) as [->|(j & q & Hq & ->)].
    { exists p. split; [exact Hl | apply petition_extends_refl]. }
    simpl. rewrite lookup_insert. case_decide as E.
    + subst j. assert (Eq : Some q = Some p)
        by (transitivity (petitions s !! i); [symmetry; exact Hq | exact Hl]).
      injection Eq as ->.
      eexists. split; [reflexivity|].
      unfold petition_extends. simpl.
      repeat split; try (apply prefix_app_r; reflexivity); try reflexivity; lia.
    + exists p. split; [exact Hl | apply petition_extends_refl].
Qed.

(** X8: a petition's history is append-only.  Through every sequence of
    [signPetition] and [updatePetitionStatus] calls run in turn, a stored
    petition stays stored, its timeline and its supporters list keep every
    entry they had, in place, and its signature counter never goes down. *)
Theorem petition_history_is_append_only
    (s : Store) (ops : list PetitionOp) (i : ObjectId) (p : Petition) :
  petitions s !! i = Some p ->
  exists p', petitions (perform_petitions ops s) !! i = Some p' /\ petition_extends p p'.
Proof.
  revert s p. unfold perform_petitions.
  induction ops as [|op ops IH]; intros s p Hl; simpl.
  - exists p. split; [exact Hl | apply petition_extends_refl].
  - destruct (perform_petition_extends s op i p Hl) as (q & Hq & Hpq).
    destruct (IH _ q Hq) as (r & Hr & Hqr).
    exists r. split; [exact Hr | exact (petition_extends_trans p q r Hpq Hqr)].
Qed.

Lemma petition_history_is_append_only_witness :
  let ops := [SignPetition (sign_req "alice") 1500;
              UpdatePetitionStatus (status_req "rejected") 1600] in
  petitions petition_store !! 7%N = Some sample_petition
  /\ exists p', petitions (perform_petitions ops petition_store) !! 7%N = Some p'
                /\ petition_extends sample_petition p'.
Proof.
  cbv zeta.
  assert (Hl : petitions petition_store !! 7%N = Some sample_petition) by reflexivity.
  split; [exact Hl|].
  exact (petition_history_is_append_only petition_store _ 7%N sample_petition Hl).
Defined.

(** X9: signing follows the status.  Once [updatePetitionStatus] has set a
    petition's status to anything but "active", every [signPetition] on it is
    answered 400 "Cannot sign this petition - it is not active", whoever signs,
    and writes nothing. *)
Theorem status_change_closes_signing
    (s : Store) (ureq : UpdateStatusReq) (sreq : SignPetitionReq) (now later : Date)
    (i : ObjectId) (p : Petition) (st user : string) :
  castObjectId (us_id ureq) = Some i ->
  petitions s !! i = Some p ->
  us_status ureq = Some st ->
  st <> "active" ->
  names_petition sreq user i ->
  let s1 := snd (run (updatePetitionStatus ureq now) s) in
  let r := run (signPetition sreq later) s1 in
  code (fst r) = 400
  /\ message (fst r) = "Cannot sign this petition - it is not active"
  /\ snd r = s1.
Proof.
  intros Hc Hl Hst Hne Hn. cbv zeta.
  rewrite (updatePetitionStatus_sets s ureq now i p Hc Hl). cbv zeta. cbn [snd].
  rewrite (signPetition_gate _ sreq later user i
             (apply_status_update p (us_status ureq) (us_adminNotes ureq) now
                (status_entry (us_status ureq) now)) Hn)
    by (simpl; apply lookup_insert_eq).
  rewrite Hst. cbn [status apply_status_update].
  destruct (String.eqb_spec st "active"); [contradiction|]. simpl. auto.
Qed.

Lemma status_change_closes_signing_witness :
  let s1 := snd (run (updatePetitionStatus (status_req "submitted") 1500) petition_store) in
  let r := run (signPetition (sign_req "alice") 1600) s1 in
  (castObjectId (us_id (status_req "submitted")) = Some 7%N
   /\ petitions petition_store !! 7%N = Some sample_petition
   /\ "submitted" <> "active"
   /\ names_petition (sign_req "alice") "alice" 7%N)
  /\ code (fst r) = 400
  /\ message (fst r) = "Cannot sign this petition - it is not active"
  /\ snd r = s1.
Proof.
  cbv zeta.
  assert (Hc : castObjectId (us_id (status_req "submitted")) = Some 7%N) by reflexivity.
  assert (Hl : petitions petition_store !! 7%N = Some sample_petition) by reflexivity.
  assert (Hne : "submitted" <> "active") by discriminate.
  assert (Hn : names_petition (sign_req "alice") "alice" 7%N) by (repeat split).
  split; [auto|].
  exact (status_change_closes_signing petition_store (status_req "submitted")
           (sign_req "alice") 1500 1600 7%N sample_petition "submitted" "alice"
           Hc Hl eq_refl Hne Hn).
Defined.

(** ** What a participant is told about their own vote or signature *)

Lemma getPollById_reads (s : Store) (req : PollByIdReq) (user : string)
    (pid : ObjectId) (poll : Poll) :
  reads_poll_as req user pid ->
  polls s !! pid = Some poll ->
  run (getPollById req) s
  = ({| pv_code := 200; pv_success := true; pv_message := ""; pv_poll := Some poll;
        hasVoted := match List.find (same_vote_key user pid) (votes s) with
                    | Some _ => true
                    | None => false
                    end |}, s).
Proof.
  intros (Hc & Hu & Hn) Hl. unfold getPollById, cast_id, await_poll, await_vote.
  rewrite (castObjectId_isValid _ _ Hc), Hc. simpl. rewrite Hl, Hu. simpl.
  rewrite Hn. reflexivity.
Qed.

(** X10: [getPollById] tells a participant the truth about their vote.  For
    a request naming a participant and an existing poll it writes nothing, and
    [hasVoted] is true exactly when a [castVote] by that participant on that
    poll (open, with one of its options) would be answered AlreadyVoted; right
    after an accepted [castVote] it is true. *)
Theorem hasVoted_agrees_with_castVote
    (s : Store) (req : PollByIdReq) (user : string) (pid : ObjectId) (poll : Poll) :
  reads_poll_as req user pid ->
  polls s !! pid = Some poll ->
  snd (run (getPollById req) s) = s
  /\ (forall creq now,
         names_vote creq user pid -> isActive poll = true -> now <= endDate poll ->
         is_Some (find_option poll (interpolate (cv_selectedOption creq))) ->
         (hasVoted (fst (run (getPollById req) s)) = true
          <-> AlreadyVoted (fst (run (castVote creq now) s))))
  /\ (forall creq now,
         names_vote creq user pid -> takes poll pid creq now -> not_voted s user pid ->
         hasVoted (fst (run (getPollById req) s)) = false
         /\ hasVoted (fst (run (getPollById req) (snd (run (castVote creq now) s)))) = true).
Proof.
  intros Hr Hl. rewrite (getPollById_reads s req user pid poll Hr Hl). cbn [fst snd hasVoted].
  split; [reflexivity|]. split.
  - intros creq now Hn Ha Ht Ho.
    destruct (List.find (same_vote_key user pid) (votes s)) as [w|] eqn:Ef.
    + rewrite (castVote_rejects_voter s creq now user pid poll w Hn Hl Ha Ht Ho Ef).
      split; [intros _; split; reflexivity | reflexivity].
    + destruct Hn as (Hu & Hn & Hp & Hc & Hs).
      rewrite (castVote_gate s creq now pid poll Hu Hp Hs Hc Hl).
      rewrite Ha. simpl. destruct (Z.ltb_spec (endDate poll) now); [lia|].
      destruct Ho as [o Ho]. rewrite Ho, Hn, Ef. cbv zeta.
      split; [discriminate|].
      destruct (validate_new_vote _); simpl;
        [destruct (validate_poll poll); simpl|];
        intros [Hcode _]; discriminate Hcode.
  - intros creq now Hn Ht Hnv. pose proof Hnv as Hnone. unfold not_voted in Hnone.
    rewrite Hnone. split; [reflexivity|].
    assert (Es : snd (run (castVote creq now) s) = store_after_castVote s pid poll creq now).
    { rewrite (castVote_takes s creq now user pid poll Hn Hl Ht Hnv).
      unfold store_after_castVote. destruct (validate_poll poll); reflexivity. }
    rewrite Es.
    destruct (store_after_castVote_poll s pid poll creq now Hl)
      as (Ev & _ & _ & poll' & Hl' & _).
    rewrite (getPollById_reads _ req user pid poll' Hr Hl').
    cbn [fst hasVoted]. rewrite Ev.
    destruct (find_app_last (same_vote_key user pid) (votes s) (cast_row s pid creq now))
      as [w Hw].
    { apply cast_row_key, Hn. }
    rewrite Hw. reflexivity.
Qed.

Lemma hasVoted_agrees_with_castVote_witness :
  let req := poll_by_id_req "alice" in
  (reads_poll_as req "alice" 1%N /\ polls sample_store !! 1%N = Some sample_poll
   /\ names_vote (cast_req "alice" "yes") "alice" 1%N
   /\ takes sample_poll 1%N (cast_req "alice" "yes") 1500
   /\ not_voted sample_store "alice" 1%N)
  /\ hasVoted (fst (run (getPollById req) sample_store)) = false
  /\ hasVoted (fst (run (getPollById req)
                      (snd (run (castVote (cast_req "alice" "yes") 1500) sample_store))))
     = true.
Proof.
  cbv zeta.
  assert (Hr : reads_poll_as (poll_by_id_req "alice") "alice" 1%N) by (repeat split).
  assert (Hl : polls sample_store !! 1%N = Some sample_poll) by reflexivity.
  assert (Hn : names_vote (cast_req "alice" "yes") "alice" 1%N) by (repeat split).
  assert (Ht : takes sample_poll 1%N (cast_req "alice" "yes") 1500).
  { repeat split; try reflexivity; try (simpl; lia). eexists; reflexivity. }
  assert (Hnv : not_voted sample_store "alice" 1%N) by reflexivity.
  split; [auto 6|].
  exact (proj2 (proj2 (hasVoted_agrees_with_castVote sample_store
                         (poll_by_id_req "alice") "alice" 1%N sample_poll Hr Hl))
           (cast_req "alice" "yes") 1500 Hn Ht Hnv).
Defined.

Lemma getPetitionById_reads (s : Store) (req : PetitionByIdReq) (user : string)
    (i : ObjectId) (p : Petition) :
  reads_petition_as req user i ->
  petitions s !! i = Some p ->
  run (getPetitionById req) s
  = ({| tv_code := 200; tv_success := true; tv_message := ""; tv_petition := Some p;
        tv_isAchieved := Z.geb (signatures p) (signaturesRequired p);
        hasSigned := some_supporter p user |}, s).
Proof.
  intros (Hc & Hu & Hn) Hl. unfold getPetitionById, cast_id, await_petition.
  rewrite (castObjectId_isValid _ _ Hc), Hc. simpl. rewrite Hl, Hu, Hn. reflexivity.
Qed.

Lemma some_supporter_find (p : Petition) (u : string) :
  some_supporter p u = false <-> find_supporter p (JsText u) = None.
Proof. unfold some_supporter, find_supporter. symmetry. apply find_none_existsb. Qed.

Lemma some_supporter_In (p : Petition) (u : string) :
  some_supporter p u = true <-> In u (List.map sup_userId (supporters p)).
Proof.
  destruct (some_supporter p u) eqn:E.
  - split; [intros _|reflexivity].
    destruct (in_dec string_dec u (List.map sup_userId (supporters p))) as [Hin|Hout];
      [exact Hin|].
    apply find_supporter_None, some_supporter_find in Hout. congruence.
  - apply some_supporter_find, find_supporter_None in E.
    split; [discriminate | contradiction].
Qed.

(** X11: [getPetitionById] tells a participant the truth about their
    signature.  For a request naming a participant and an existing petition it
    writes nothing; [hasSigned] is true exactly when the participant is in the
    supporters list; right after a successful [signPetition] by the
    participant it is true.  For a participant who signs with their id sent as
    a string, [hasSigned] on an active petition is true exactly when a
    [signPetition] would be answered AlreadySigned, and it was false before a
    [signPetition] that succeeded. *)
Theorem hasSigned_agrees_with_signPetition
    (s : Store) (req : PetitionByIdReq) (user : string) (i : ObjectId) (p : Petition) :
  reads_petition_as req user i ->
  petitions s !! i = Some p ->
  snd (run (getPetitionById req) s) = s
  /\ (hasSigned (fst (run (getPetitionById req) s)) = true
      <-> In user (List.map sup_userId (supporters p)))
  /\ (forall sreq now,
         names_petition sreq user i ->
         Succeeded (fst (run (signPetition sreq now) s)) ->
         hasSigned (fst (run (getPetitionById req) (snd (run (signPetition sreq now) s))))
         = true)
  /\ (forall sreq now,
         signs_as sreq user i -> status p = "active" ->
         (hasSigned (fst (run (getPetitionById req) s)) = true
          <-> AlreadySigned (fst (run (signPetition sreq now) s))))
  /\ (forall sreq now,
         signs_as sreq user i ->
         Succeeded (fst (run (signPetition sreq now) s)) ->
         hasSigned (fst (run (getPetitionById req) s)) = false).
Proof.
  intros Hr Hl. rewrite (getPetitionById_reads s req user i p Hr Hl).
  cbn [fst snd hasSigned].
  split; [reflexivity|]. split; [apply some_supporter_In|]. split; [|split].
  - intros sreq now Hn. unfold Succeeded.
    rewrite (signPetition_gate s sreq now user i p Hn Hl).
    destruct (String.eqb (status p) "active"); simpl; [|discriminate].
    destruct (find_supporter p (sp_userId sreq)) eqn:Ef; simpl; [discriminate|].
    destruct (new_supporter sreq now) as [sup|] eqn:Es; simpl; [|discriminate].
    destruct (validate_petition _); simpl; [|discriminate].
    intros _.
    rewrite (getPetitionById_reads _ req user i (petition_after_sign p sup now) Hr)
      by (simpl; apply lookup_insert_eq).
    cbn [fst hasSigned]. apply some_supporter_In.
    unfold petition_after_sign. simpl. rewrite List.map_app. apply List.in_or_app.
    right. left. simpl.
    apply new_supporter_userId in Es. destruct Hn as (_ & Hcast & _). congruence.
  - intros sreq now Hsa Ha.
    rewrite (signPetition_gate s sreq now user i p (signs_as_names _ _ _ Hsa) Hl), Ha.
    simpl. destruct Hsa as (Eu & _). rewrite Eu.
    destruct (some_supporter p user) eqn:E.
    + destruct (find_supporter p (JsText user)) eqn:Ef.
      * split; [intros _; split; reflexivity | reflexivity].
      * apply some_supporter_find in Ef. congruence.
    + apply some_supporter_find in E. rewrite E.
      split; [discriminate|].
      destruct (new_supporter sreq now); simpl;
        [destruct (validate_petition _); simpl|];
        intros [Hcode _]; discriminate Hcode.
  - intros sreq now Hsa. unfold Succeeded.
    rewrite (signPetition_gate s sreq now user i p (signs_as_names _ _ _ Hsa) Hl).
    destruct Hsa as (Eu & _). rewrite Eu.
    destruct (String.eqb (status p) "active"); simpl; [|discriminate].
    destruct (find_supporter p (JsText user)) eqn:Ef; simpl; [discriminate|].
    intros _. apply some_supporter_find, Ef.
Qed.

Lemma hasSigned_agrees_with_signPetition_witness :
  let req := petition_by_id_req "alice" in
  let five := {| tb_id := hex_id_7; tb_userId := Some "5" |} in
  (reads_petition_as req "alice" 7%N
   /\ petitions petition_store !! 7%N = Some sample_petition
   /\ signs_as (sign_req "alice") "alice" 7%N
   /\ Succeeded (fst (run (signPetition (sign_req "alice") 1500) petition_store)))
  /\ hasSigned (fst (run (getPetitionById req) petition_store)) = false
  /\ hasSigned (fst (run (getPetitionById req) signed_store)) = true
  /\ (reads_petition_as five "5" 7%N /\ names_petition (sign_req_number 5) "5" 7%N
      /\ Succeeded (fst (run (signPetition (sign_req_number 5) 1500) petition_store)))
  /\ hasSigned (fst (run (getPetitionById five)
                       (snd (run (signPetition (sign_req_number 5) 1500) petition_store))))
     = true.
Proof.
  cbv zeta.
  assert (Hr : reads_petition_as (petition_by_id_req "alice") "alice" 7%N)
    by (repeat split).
  assert (Hl : petitions petition_store !! 7%N = Some sample_petition) by reflexivity.
  assert (Hn : signs_as (sign_req "alice") "alice" 7%N)
    by (split; [reflexivity | split; [discriminate | reflexivity]]).
  assert (Hs : Succeeded (fst (run (signPetition (sign_req "alice") 1500) petition_store)))
    by reflexivity.
  assert (Hr5 : reads_petition_as {| tb_id := hex_id_7; tb_userId := Some "5" |} "5" 7%N)
    by (repeat split).
  assert (Hn5 : names_petition (sign_req_number 5) "5" 7%N) by (repeat split).
  assert (Hs5 : Succeeded (fst (run (signPetition (sign_req_number 5) 1500) petition_store)))
    by reflexivity.
  destruct (hasSigned_agrees_with_signPetition petition_store
              (petition_by_id_req "alice") "alice" 7%N sample_petition Hr Hl)
    as (_ & _ & Hafter & _ & Hbefore).
  destruct (hasSigned_agrees_with_signPetition petition_store
              {| tb_id := hex_id_7; tb_userId := Some "5" |} "5" 7%N sample_petition Hr5 Hl)
    as (_ & _ & Hafter5 & _).
  split; [auto|].
  split; [exact (Hbefore (sign_req "alice") 1500 Hn Hs)|].
  split; [exact (Hafter (sign_req "alice") 1500 (signs_as_names _ _ _ Hn) Hs)|].
  split; [auto|].
  exact (Hafter5 (sign_req_number 5) 1500 Hn5 Hs5).
Defined.

(** ** The sentiment index *)

Lemma count_votes_bounds (f : Vote -> bool) (vs : list Vote) :
  0 <= count_votes f vs <= Z.of_nat (List.length vs).
Proof.
  unfold count_votes. pose proof (List.filter_length_le f vs). lia.
Qed.

Lemma share_between (a n : Z) :
  0 < n -> - n <= a <= n ->
  (-1 <= inject_Z a / inject_Z n)%Q /\ (inject_Z a / inject_Z n <= 1)%Q.
Proof.
  intros Hn [Hlo Hhi].
  assert (Hq : (0 < inject_Z n)%Q) by (change 0%Q with (inject_Z 0); rewrite <- Zlt_Qlt; exact Hn).
  split.
  - apply Qle_shift_div_l; [exact Hq|].
    rewrite Zle_Qle in Hlo. rewrite inject_Z_opp in Hlo.
    set (x := inject_Z n) in *. set (y := inject_Z a) in *. clearbody x y. lra.
  - apply Qle_shift_div_r; [exact Hq|]. rewrite Qmult_1_l. rewrite <- Zle_Qle. exact Hhi.
Qed.

(** The score of a share between -1 and 1, computed in doubles, is between
    -100 and 100. *)
Lemma score_between (a n : Z) :
  0 < n -> - n <= a <= n ->
  -100 <= Math_round (double_mul (double_div (inject_Z a) (inject_Z n)) 100) <= 100.
Proof.
  intros Hn Ha. destruct (share_between a n Hn Ha) as [Hlo Hhi].
  unfold double_mul, double_div.
  set (y := (inject_Z a / inject_Z n)%Q) in *.
  assert (B1 : (- 1 <= y)%Q) by (clearbody y; lra).
  destruct (double_within_bound y 1 B1 Hhi) as [Q1 Q2].
  set (q := double y) in *.
  assert (B2 : (- (101 # 1) <= q * 100)%Q)
    by (clearbody q y; unfold unit_roundoff in *; lra).
  assert (B3 : (q * 100 <= 101 # 1)%Q)
    by (clearbody q y; unfold unit_roundoff in *; lra).
  destruct (double_within_bound (q * 100) (101 # 1) B2 B3) as [P1 P2].
  set (p := double (q * 100)) in *.
  unfold Math_round.
  pose proof (Qfloor_le (p + (1 # 2))) as F1.
  pose proof (Qlt_floor (p + (1 # 2))) as F2.
  rewrite inject_Z_plus in F2. change (inject_Z 1) with 1%Q in F2.
  assert (G1 : (inject_Z (Qfloor (p + (1 # 2))) < inject_Z 101)%Q).
  { change (inject_Z 101) with (101 # 1)%Q.
    set (f := inject_Z (Qfloor (p + (1 # 2)))) in *.
    clearbody f p q y. unfold unit_roundoff in *. lra. }
  assert (G2 : (inject_Z (- 101) < inject_Z (Qfloor (p + (1 # 2))))%Q).
  { change (inject_Z (- 101)) with (- (101 # 1))%Q.
    set (f := inject_Z (Qfloor (p + (1 # 2)))) in *.
    clearbody f p q y. unfold unit_roundoff in *. lra. }
  rewrite <- Zlt_Qlt in G1, G2. lia.
Qed.

Lemma neutral_is_neither_minus_both (vs : list Vote) :
  Z.of_nat (List.length vs) - count_votes counts_positive vs
  - count_votes counts_negative vs
  = count_votes on_neither_side vs - count_votes on_both_sides vs.
Proof.
  unfold count_votes, on_neither_side, on_both_sides.
  induction vs as [|v vs IH]; [reflexivity|].
  cbn [List.filter List.length].
  destruct (counts_positive v), (counts_negative v); cbn [negb andb List.length]; lia.
Qed.

(** X12: the sentiment index stays on its scale, and its breakdown counts a
    vote once per side it falls on.  For every list of votes the score lies
    between -100 and 100 and is 0 for the empty list; the neutral count is the
    number of votes on neither side minus the number of votes on both, so it
    is negative when more votes count as positive and negative at once than as
    neither. *)
Theorem sentiment_score_is_bounded (recentVotes : list Vote) :
  let m := sentiment_metrics recentVotes in
  -100 <= sentimentScore m <= 100
  /\ sentimentScore (sentiment_metrics []) = 0
  /\ positiveVotes m + negativeVotes m + neutralVotes m = totalResponses m
  /\ neutralVotes m
     = count_votes on_neither_side recentVotes - count_votes on_both_sides recentVotes
  /\ neutralVotes (sentiment_metrics [mixed_vote]) = -1.
Proof.
  cbv zeta. split; [|split; [reflexivity|split; [|split; [|reflexivity]]]].
  - unfold sentiment_metrics. cbn [sentimentScore].
    destruct (Z.ltb_spec 0 (Z.of_nat (List.length recentVotes))) as [Hn|Hn]; [|lia].
    pose proof (count_votes_bounds counts_positive recentVotes) as Hp.
    pose proof (count_votes_bounds counts_negative recentVotes) as Hq.
    unfold count_votes in Hp, Hq.
    apply score_between; [exact Hn | lia].
  - unfold sentiment_metrics. cbn [positiveVotes negativeVotes neutralVotes totalResponses].
    lia.
  - unfold sentiment_metrics. cbn [neutralVotes].
    exact (neutral_is_neither_minus_both recentVotes).
Qed.

(** ** Deleting a poll *)

Lemma deletePoll_runs (s : Store) (id : string) (pid : ObjectId) :
  castObjectId id = Some pid ->
  run_admin (deletePoll id) s
  = (match polls s !! pid with
     | Some _ => respond 200 true "Poll deleted successfully" NoData
     | None => respond 404 false "Poll not found" NoData
     end,
     {| polls := delete pid (polls s);
        votes := List.filter (fun v => negb (on_poll pid v)) (votes s);
        petitions := petitions s;
        nextId := nextId s |}).
Proof.
  intros Hc. unfold deletePoll. rewrite (castObjectId_isValid _ _ Hc), Hc. simpl.
  destruct (polls s !! pid); reflexivity.
Qed.

Lemma filter_filter_negb (f : Vote -> bool) (l : list Vote) :
  List.filter f (List.filter (fun v => negb (f v)) l) = [].
Proof.
  induction l as [|a l IH]; simpl; [reflexivity|].
  destruct (f a) eqn:E; simpl; [exact IH|]. rewrite E. exact IH.
Qed.

Lemma filter_other_poll (p q : ObjectId) (l : list Vote) :
  q <> p ->
  List.filter (on_poll q) (List.filter (fun v => negb (on_poll p v)) l)
  = List.filter (on_poll q) l.
Proof.
  intros Hne. induction l as [|a l IH]; simpl; [reflexivity|].
  destruct (on_poll p a) eqn:Ep; simpl.
  - rewrite IH. unfold on_poll in *. apply N.eqb_eq in Ep.
    destruct (N.eqb_spec (pollId a) q); [congruence | reflexivity].
  - rewrite IH. reflexivity.
Qed.

(** X13: deleting a poll takes its votes with it, and nothing else.  For a
    well-formed id, after [deletePoll] the poll is gone and no vote row refers
    to it, every other poll and its rows are untouched, and counters that were
    consistent still are.  The votes are deleted first and whether or not the
    poll exists: on an absent poll the call answers 404 "Poll not found" and
    has still removed every vote that named that id. *)
Theorem deletePoll_cascades_to_votes (s : Store) (id : string) (pid : ObjectId) :
  castObjectId id = Some pid ->
  let r := fst (run_admin (deletePoll id) s) in
  let s' := snd (run_admin (deletePoll id) s) in
  polls s' !! pid = None
  /\ rows_of pid s' = []
  /\ (forall q, q <> pid -> polls s' !! q = polls s !! q /\ rows_of q s' = rows_of q s)
  /\ petitions s' = petitions s
  /\ (Succeeded r <-> is_Some (polls s !! pid))
  /\ (polls s !! pid = None -> code r = 404 /\ message r = "Poll not found")
  /\ (counters_consistent s -> counters_consistent s').
Proof.
  intros Hc. cbv zeta. rewrite (deletePoll_runs s id pid Hc). cbn [fst snd].
  unfold rows_of. cbn [polls votes petitions].
  split; [apply lookup_delete_eq|].
  split; [apply filter_filter_negb|].
  split.
  { intros q Hq. split; [apply lookup_delete_ne; congruence|].
    apply filter_other_poll, Hq. }
  split; [reflexivity|].
  split.
  { unfold Succeeded. destruct (polls s !! pid); simpl.
    - split; [intros _; eexists; reflexivity | reflexivity].
    - split; [discriminate | intros [x Hx]; discriminate Hx]. }
  split.
  { intros ->. split; reflexivity. }
  intros Hs q pq. simpl. rewrite lookup_delete. case_decide as E; [discriminate|].
  intros Hq. rewrite (Hs q pq Hq). unfold vote_rows. simpl.
  rewrite filter_other_poll; [reflexivity | congruence].
Qed.

Lemma deletePoll_cascades_to_votes_witness :
  let r := fst (run_admin (deletePoll hex_id_2) orphan_store) in
  let s' := snd (run_admin (deletePoll hex_id_2) orphan_store) in
  castObjectId hex_id_2 = Some 2%N
  /\ List.length (rows_of 2%N orphan_store) = 1%nat
  /\ polls orphan_store !! 2%N = None
  /\ rows_of 2%N s' = []
  /\ code r = 404
  /\ rows_of 1%N s' = rows_of 1%N orphan_store.
Proof.
  cbv zeta.
  assert (Hc : castObjectId hex_id_2 = Some 2%N) by reflexivity.
  assert (Hn : polls orphan_store !! 2%N = None) by reflexivity.
  destruct (deletePoll_cascades_to_votes orphan_store hex_id_2 2%N Hc)
    as (_ & Hrows & Hother & _ & _ & H404 & _).
  split; [exact Hc|]. split; [reflexivity|]. split; [exact Hn|].
  split; [exact Hrows|]. split; [exact (proj1 (H404 Hn))|].
  apply Hother. discriminate.
Defined.

Lemma perform_vote_keeps_poll_gone (s : Store) (op : VoteOp) (pid : ObjectId) :
  polls s !! pid = None -> rows_of pid s = [] ->
  polls (perform_vote s op) !! pid = None /\ rows_of pid (perform_vote s op) = [].
Proof.
  intros Hl Hr. unfold perform_vote, rows_of in *.
  destruct op as [[req now|req now]|req now]; simpl.
  - destruct (castVote_store s req now)
      as [->|(user & q & pq & Hn & Hq & Ht & Hnv & ->)]; [auto|].
    assert (Hne : q <> pid) by (intros ->; congruence).
    destruct (store_after_castVote_poll s q pq req now Hq) as (Ev & _ & Hother & _).
    rewrite Ev. split.
    + rewrite Hother; [exact Hl | congruence].
    + rewrite List.filter_app, Hr. simpl.
      rewrite (on_poll_other pid q); [reflexivity | reflexivity | exact Hne].
  - destruct (deleteVote_store s req now)
      as [->|(i & v & pq & (_ & Hf & Hq) & _ & ->)]; [auto|].
    assert (Hne : pollId v <> pid) by (intros E; rewrite E in Hq; congruence).
    destruct (store_after_deleteVote_poll s i v pq now Hq) as (Ev & _ & Hother & _).
    rewrite Ev. split.
    + rewrite Hother; [exact Hl | congruence].
    + rewrite (remove_first_filter_other _ _ _ v Hf); [exact Hr|].
      apply (on_poll_other pid (pollId v)); [reflexivity | exact Hne].
  - destruct (updateVote_untargeted s req now) as [(i & v & pq & Ht)|[_ ->]]; [|auto].
    rewrite (updateVote_gate s req now i v pq Ht).
    destruct (negb (isActive pq) || Z.ltb (endDate pq) now); [auto|].
    destruct (validate_vote (updated_vote v req)); [|auto].
    destruct Ht as (_ & Hf & Hq).
    assert (Hne : pollId v <> pid) by (intros E; rewrite E in Hq; congruence).
    unfold store_after_update. simpl. split; [exact Hl|].
    destruct (vote_after_update_fields v req now) as (_ & _ & _ & _ & _ & Fp & _).
    rewrite (update_first_filter_other _ _ _ _ v Hf); [exact Hr| |];
      apply (on_poll_other pid (pollId v)); try reflexivity; try exact Hne.
    exact Fp.
Qed.

(** X14: a deleted poll stays empty.  After [deletePoll], whatever sequence of
    [castVote], [updateVote] and [deleteVote] calls runs in turn, the poll is
    still absent and still no vote row refers to it. *)
Theorem deleted_poll_takes_no_more_votes
    (s : Store) (id : string) (pid : ObjectId) (ops : list VoteOp) :
  castObjectId id = Some pid ->
  let s' := snd (run_admin (deletePoll id) s) in
  polls (perform_votes ops s') !! pid = None
  /\ rows_of pid (perform_votes ops s') = [].
Proof.
  intros Hc. cbv zeta. rewrite (deletePoll_runs s id pid Hc). cbn [snd].
  match goal with
  | |- context [perform_votes ops ?s1] =>
      assert (Hl : polls s1 !! pid = None) by apply lookup_delete_eq;
      assert (Hr : rows_of pid s1 = []) by apply filter_filter_negb;
      revert Hl Hr; generalize s1
  end.
  clear.
  unfold perform_votes. induction ops as [|op ops IH]; intros s Hl Hr; simpl; [auto|].
  destruct (perform_vote_keeps_poll_gone s op pid Hl Hr) as [Hl' Hr'].
  apply IH; assumption.
Qed.

Lemma deleted_poll_takes_no_more_votes_witness :
  let ops := [Ledger (CastVote (cast_req "bob" "no") 1600);
              UpdateVote (update_req "alice" (Some "no")) 1650;
              Ledger (RetractVote (delete_req "alice") 1700)] in
  let s' := snd (run_admin (deletePoll hex_id_1) voted_store) in
  castObjectId hex_id_1 = Some 1%N
  /\ List.length (rows_of 1%N voted_store) = 1%nat
  /\ polls (perform_votes ops s') !! 1%N = None
  /\ rows_of 1%N (perform_votes ops s') = [].
Proof.
  cbv zeta.
  assert (Hc : castObjectId hex_id_1 = Some 1%N) by reflexivity.
  split; [exact Hc|]. split; [reflexivity|].
  exact (deleted_poll_takes_no_more_votes voted_store hex_id_1 1%N _ Hc).
Defined.

(** ** Results, unfiltered and row by row *)

Lemma filter_length_implied (f g : Vote -> bool) (l : list Vote) :
  (forall v, f v = true -> g v = true) ->
  (List.length (List.filter f l) <= List.length (List.filter g l))%nat.
Proof.
  intros H. induction l as [|a l IH]; simpl; [lia|].
  destruct (f a) eqn:Ef.
  - rewrite (H a Ef). simpl. lia.
  - destruct (g a); simpl; lia.
Qed.

Lemma matches_filter_on_poll (i : ObjectId) (f : VoteFilter) (l : list Vote) :
  (List.length (List.filter (matches_filter i f) l)
   <= List.length (List.filter (on_poll i) l))%nat.
Proof.
  apply filter_length_implied. intros v H. unfold matches_filter in H.
  apply andb_true_iff in H as [H _]. apply andb_true_iff in H as [H _].
  apply andb_true_iff in H as [H _]. exact H.
Qed.

Lemma no_filter_matches (i : ObjectId) (req : ResultsReq) (l : list Vote) :
  no_filter req ->
  List.filter (matches_filter i (build_filter req)) l = List.filter (on_poll i) l.
Proof.
  intros (H1 & H2 & H3). apply List.filter_ext. intros v.
  unfold matches_filter, build_filter. simpl. rewrite H1, H2, H3. simpl.
  rewrite !andb_true_r. reflexivity.
Qed.

Lemma row_percentage_bounds (vs : list Vote) (o : IOption) :
  (0 <= percentage (result_row vs o) <= 100)%Q.
Proof.
  rewrite result_row_percentage.
  destruct (Z.ltb_spec 0 (Z.of_nat (List.length vs))) as [Hn|Hn]; [|split; lra].
  apply (row_percentage_range (count_option (opt_id o) vs) (Z.of_nat (List.length vs)) Hn).
  apply count_option_bounds.
Qed.

(** X15: the results handlers read, and their numbers stay in range.  On an
    existing poll [getPollResults] writes nothing; the total it reports is at
    most the number of the poll's vote rows and, with no filter in the query,
    exactly that number, which in a consistent store is the poll's cached
    [totalVotes]; and every row has between 0 and total votes and a percentage
    between 0 and 100. *)
Theorem results_total_and_rows_in_range
    (s : Store) (req : ResultsReq) (i : ObjectId) (poll : Poll) :
  castObjectId (rq_id req) = Some i ->
  polls s !! i = Some poll ->
  exists total rows,
    run (getPollResults req) s
    = (respond 200 true "" (ResultsData i (poll_title poll) total rows), s)
    /\ 0 <= total <= vote_rows i s
    /\ (no_filter req -> total = vote_rows i s)
    /\ (no_filter req -> counters_consistent s -> total = totalVotes poll)
    /\ (forall row, In row rows ->
          0 <= row_votes row <= total /\ (0 <= percentage row <= 100)%Q).
Proof.
  intros Hc Hl.
  destruct (getPollResults_tally s req i poll Hc Hl) as [Hrun _]. cbv zeta in Hrun.
  eexists _, _. split; [exact Hrun|].
  split.
  { unfold vote_rows. pose proof (matches_filter_on_poll i (build_filter req) (votes s)).
    lia. }
  split.
  { intros Hnf. unfold vote_rows. rewrite (no_filter_matches i req _ Hnf). reflexivity. }
  split.
  { intros Hnf Hs. rewrite (Hs i poll Hl). unfold vote_rows.
    rewrite (no_filter_matches i req _ Hnf). reflexivity. }
  intros row Hrow. apply in_results in Hrow as (o & _ & ->). split.
  - cbn [row_votes result_row]. apply count_option_bounds.
  - apply row_percentage_bounds.
Qed.

Lemma results_total_and_rows_in_range_witness :
  castObjectId (rq_id (results_req hex_id_1)) = Some 1%N
  /\ polls voted_store !! 1%N = Some voted_poll
  /\ exists total rows,
       run (getPollResults (results_req hex_id_1)) voted_store
       = (respond 200 true "" (ResultsData 1%N (poll_title voted_poll) total rows),
          voted_store)
       /\ 0 <= total <= vote_rows 1%N voted_store.
Proof.
  assert (Hc : castObjectId (rq_id (results_req hex_id_1)) = Some 1%N) by reflexivity.
  assert (Hl : polls voted_store !! 1%N = Some voted_poll) by reflexivity.
  split; [exact Hc|]. split; [exact Hl|].
  destruct (results_total_and_rows_in_range voted_store (results_req hex_id_1) 1%N
              voted_poll Hc Hl) as (total & rows & Hrun & Hb & _).
  exists total, rows. split; [exact Hrun | exact Hb].
Defined.

(** ** The dashboard's milestone count *)

(** X16: [getMilestones] is a step function of the signature count: it never
    decreases when the count grows, it stays between 0 and 6, and it exceeds
    [k] exactly when the count has reached the threshold at position [k] of
    100, 500, 1000, 5000, 10000, 50000. *)
Theorem getMilestones_counts_thresholds_reached (signatures : Z) :
  0 <= getMilestones signatures <= 6
  /\ (forall more, signatures <= more -> getMilestones signatures <= getMilestones more)
  /\ (forall (k : nat) (t : Z),
         List.nth_error milestones k = Some t ->
         (Z.of_nat k < getMilestones signatures <-> t <= signatures)).
Proof.
  unfold getMilestones, milestones. cbn [List.filter]. rewrite !Z.geb_leb.
  split; [|split].
  - repeat match goal with
           | |- context [Z.leb ?a ?b] => destruct (Z.leb_spec a b)
           end; cbn [List.length]; lia.
  - intros more Hmore. rewrite !Z.geb_leb.
    repeat match goal with
           | |- context [Z.leb ?a ?b] => destruct (Z.leb_spec a b)
           end; cbn [List.length]; lia.
  - intros k t Hk.
    destruct k as [|[|[|[|[|[|k]]]]]]; simpl in Hk;
      try (destruct k; discriminate Hk); injection Hk as <-;
      repeat match goal with
             | |- context [Z.leb ?a ?b] => destruct (Z.leb_spec a b)
             end; cbn [List.length]; lia.
Qed.

Lemma getMilestones_counts_thresholds_reached_witness :
  980 <= 1005
  /\ List.nth_error milestones 2 = Some 1000
  /\ getMilestones 980 <= getMilestones 1005
  /\ (Z.of_nat 2 < getMilestones 1005 <-> 1000 <= 1005).
Proof.
  assert (H : 980 <= 1005) by lia.
  assert (Hk : List.nth_error milestones 2 = Some 1000) by reflexivity.
  split; [exact H|]. split; [exact Hk|]. split.
  - exact (proj1 (proj2 (getMilestones_counts_thresholds_reached 980)) 1005 H).
  - exact (proj2 (proj2 (getMilestones_counts_thresholds_reached 1005)) 2%nat 1000 Hk).
Defined.

(** ** The mobile client: progress to the next milestone, time remaining *)

Lemma last_filter_le (ms : list Milestone) (current : Z) (m : Milestone) :
  List.last (List.map Some (List.filter (fun m => Z.leb (target m) current) ms)) None
  = Some m ->
  target m <= current.
Proof.
  intros H.
  assert (Hin : In m (List.filter (fun m => Z.leb (target m) current) ms)).
  { revert H. generalize (List.filter (fun m => Z.leb (target m) current) ms).
    intros l. induction l as [|a l IH]; simpl; [discriminate|].
    destruct l as [|b l].
    - simpl. intros [= ->]. left. reflexivity.
    - intros H. right. apply IH. exact H. }
  apply List.filter_In in Hin as [_ Hin]. apply Z.leb_le. exact Hin.
Qed.

Lemma previous_target_le (ms : list Milestone) (current : Z) :
  0 <= current -> 0 <= current - previous_target ms current
  /\ (previous_target ms current = 0
      \/ exists m, In m ms /\ target m = previous_target ms current).
Proof.
  intros Hc. unfold previous_target.
  destruct (List.last _ None) as [m|] eqn:E.
  - pose proof (last_filter_le ms current m E). split; [lia|]. right.
    exists m. split; [|reflexivity].
    assert (Hin : In (Some m)
                    (List.map Some (List.filter (fun m => Z.leb (target m) current) ms))).
    { revert E. generalize (List.map Some
                              (List.filter (fun m => Z.leb (target m) current) ms)).
      intros l. induction l as [|a l IH]; simpl; [discriminate|].
      destruct l as [|b l].
      - intros ->. left. reflexivity.
      - intros Hl. right. apply IH. exact Hl. }
    apply List.in_map_iff in Hin as (x & [= ->] & Hx).
    apply List.filter_In in Hx. apply Hx.
  - split; [lia | left; reflexivity].
Qed.

(** X17: the progress bar toward the next milestone is well-formed.  For a
    positive signature count: when some milestone lies above the count, the
    reported target is such a milestone, strictly above the count, and the
    percentage is at least 0 and strictly below 100, whatever the order of the
    milestones; when none does, the target is the count itself and the
    percentage 100.  (The quotient is exact here.) *)
Theorem next_milestone_progress_in_range (count : Z) (ms : list Milestone) :
  0 < count ->
  let r := getNextMilestoneProgress (Some count) (Some ms) in
  mp_current r = count
  /\ ((exists m, In m ms /\ count < target m) ->
      (exists m, In m ms /\ mp_target r = target m)
      /\ count < mp_target r
      /\ (0 <= mp_percentage r)%Q /\ (mp_percentage r < 100)%Q)
  /\ ((forall m, In m ms -> target m <= count) ->
      mp_target r = count /\ (mp_percentage r == 100)%Q).
Proof.
  intros Hc. cbv zeta. unfold getNextMilestoneProgress.
  destruct (Z.eqb_spec count 0) as [E|_]; [lia|].
  destruct (List.find (fun m => Z.ltb count (target m)) ms) as [next|] eqn:Ef.
  - apply List.find_some in Ef as [Hin Hlt]. apply Z.ltb_lt in Hlt.
    cbn [mp_current mp_target mp_percentage].
    split; [reflexivity|]. split.
    + intros _. split; [exists next; auto|]. split; [exact Hlt|].
      destruct (previous_target_le ms count) as [Hprev _]; [lia|].
      set (prev := previous_target ms count) in *.
      destruct (Z.gtb_spec (target next) prev) as [Hg|Hg]; [|lia].
      assert (Hq : (0 < inject_Z (target next - prev))%Q)
        by (change 0%Q with (inject_Z 0); rewrite <- Zlt_Qlt; lia).
      assert (H1 : (inject_Z (count - prev) / inject_Z (target next - prev) < 1)%Q).
      { apply Qlt_shift_div_r; [exact Hq|]. rewrite Qmult_1_l, <- Zlt_Qlt. lia. }
      assert (H0 : (0 <= inject_Z (count - prev) / inject_Z (target next - prev))%Q).
      { apply Qle_shift_div_l; [exact Hq|]. rewrite Qmult_0_l.
        change 0%Q with (inject_Z 0). rewrite <- Zle_Qle. exact Hprev. }
      set (y := (_ / _)%Q) in *. clearbody y.
      unfold Math_min. destruct (Qle_bool (y * 100) 100) eqn:Eb; [split; lra|].
      exfalso. assert (Hle : (y * 100 <= 100)%Q) by lra.
      apply Qle_bool_iff in Hle. congruence.
    + intros Hall. specialize (Hall next Hin). lia.
  - cbn [mp_current mp_target mp_percentage].
    split; [reflexivity|]. split.
    + intros (m & Hin & Hlt).
      pose proof (List.find_none _ _ Ef m Hin) as Hm. cbv beta in Hm.
      apply Z.ltb_ge in Hm. lia.
    + intros _. split; reflexivity.
Qed.

Lemma next_milestone_progress_in_range_witness :
  let r := getNextMilestoneProgress (Some 250) (Some sample_milestones) in
  0 < 250
  /\ (exists m, In m sample_milestones /\ 250 < target m)
  /\ mp_target r = 500
  /\ 250 < mp_target r
  /\ (0 <= mp_percentage r)%Q /\ (mp_percentage r < 100)%Q.
Proof.
  cbv zeta.
  assert (Hc : 0 < 250) by lia.
  assert (Hex : exists m, In m sample_milestones /\ 250 < target m).
  { eexists. split; [right; left; reflexivity | simpl; lia]. }
  destruct (next_milestone_progress_in_range 250 sample_milestones Hc)
    as (_ & Hnext & _).
  destruct (Hnext Hex) as (_ & Hlt & H0 & H100).
  split; [exact Hc|]. split; [exact Hex|]. split; [reflexivity|].
  split; [exact Hlt|]. split; [exact H0 | exact H100].
Defined.

Lemma string_length_app (a b : string) :
  String.length (a ++ b) = (String.length a + String.length b)%nat.
Proof. induction a as [|c a IH]; simpl; [reflexivity | rewrite IH; reflexivity]. Qed.

(** X18: the poll card's remaining time.  [formatTimeRemaining] reads "Ended"
    exactly when the end date is not after now.  Otherwise it shows [d] days
    and [h] hours with [0 <= h < 24] that undershoot the remaining time by
    less than an hour: days and hours when at least a day remains, hours alone
    when at least an hour remains, and "Less than 1h left" below that. *)
Theorem formatTimeRemaining_parts (endDate now : Date) :
  (formatTimeRemaining endDate now = "Ended" <-> endDate <= now)
  /\ (now < endDate ->
      exists d h,
        0 <= d /\ 0 <= h < 24
        /\ d * day_ms + h * hour_ms <= endDate - now < d * day_ms + h * hour_ms + hour_ms
        /\ formatTimeRemaining endDate now
           = if Z.ltb 0 d then pretty d ++ "d " ++ pretty h ++ "h left"
             else if Z.ltb 0 h then pretty h ++ "h left"
             else "Less than 1h left").
Proof.
  unfold formatTimeRemaining. split.
  - destruct (Z.leb_spec (endDate - now) 0) as [H|H]; [split; [lia | reflexivity]|].
    split; [|lia]. intros E. exfalso.
    apply (f_equal String.length) in E.
    destruct (Z.gtb _ 0).
    + rewrite !string_length_app in E. simpl in E. lia.
    + destruct (Z.gtb _ 0); [|discriminate E].
      rewrite string_length_app in E. simpl in E. lia.
  - intros Hlt. destruct (Z.leb_spec (endDate - now) 0) as [H|H]; [lia|].
    exists ((endDate - now) / day_ms), (((endDate - now) mod day_ms) / hour_ms).
    unfold day_ms, hour_ms in *.
    change (1000 * 60 * 60 * 24) with 86400000 in *.
    change (1000 * 60 * 60) with 3600000 in *.
    rewrite !Z.gtb_ltb.
    split; [|split; [|split; [|reflexivity]]].
    + apply Z.div_pos; lia.
    + pose proof (Z.mod_pos_bound (endDate - now) 86400000 ltac:(lia)) as Hm.
      split; [apply Z.div_pos; lia|].
      apply Z.div_lt_upper_bound; lia.
    + pose proof (Z.div_mod (endDate - now) 86400000 ltac:(lia)) as Hd.
      pose proof (Z.div_mod ((endDate - now) mod 86400000) 3600000 ltac:(lia)) as Hh.
      pose proof (Z.mod_pos_bound ((endDate - now) mod 86400000) 3600000 ltac:(lia)) as Hb.
      lia.
Qed.

Lemma formatTimeRemaining_parts_witness :
  0 < 93600000
  /\ formatTimeRemaining 93600000 0 = "1d 2h left"
  /\ exists d h,
       0 <= d /\ 0 <= h < 24
       /\ d * day_ms + h * hour_ms <= 93600000 - 0 < d * day_ms + h * hour_ms + hour_ms.
Proof.
  assert (H : 0 < 93600000) by lia.
  split; [exact H|]. split; [reflexivity|].
  destruct (proj2 (formatTimeRemaining_parts 93600000 0) H) as (d & h & Hd & Hh & Hb & _).
  exists d, h. auto.
Defined.

(** ** Options of stored votes, without updates *)

Lemma perform_retract_options_valid (s : Store) (req : DeleteVoteReq) (now : Date) :
  options_valid s -> options_valid (snd (run (deleteVote req now) s)).
Proof.
  intros Hs.
  destruct (deleteVote_store s req now)
    as [->|(i & v & poll & (_ & Hf & Hl) & _ & ->)]; [exact Hs|].
  destruct (store_after_deleteVote_poll s i v poll now Hl)
    as (Ev & _ & Hother & poll' & Hl' & Eo & _).
  intros w Hw. rewrite Ev in Hw.
  apply remove_first_In in Hw. destruct (Hs w Hw) as (q & Hq & Hin).
  unfold option_of_poll.
  destruct (N.eq_dec (pollId w) (pollId v)) as [E|E].
  - exists poll'. rewrite E. split; [exact Hl'|]. rewrite Eo.
    rewrite E in Hq.
    assert (Eq : Some q = Some poll)
      by (transitivity (polls s !! pollId v); [symmetry; exact Hq | exact Hl]).
    injection Eq as <-. exact Hin.
  - exists q. rewrite (Hother _ E). auto.
Qed.

(** X19: casting and retracting keep votes on their polls' options.  From a
    state in which every stored vote names an option of its poll, every
    sequence of [castVote] and [deleteVote] calls run in turn ends in such a
    state; [castVote] checks the option, and neither handler changes a poll's
    options or a stored vote's option. *)
Theorem cast_and_retract_keep_options_valid (s : Store) (ops : list LedgerOp) :
  options_valid s -> options_valid (perform_all ops s).
Proof.
  revert s. unfold perform_all.
  induction ops as [|op ops IH]; intros s Hs; simpl; [exact Hs|].
  apply IH. unfold perform. destruct op as [req now|req now]; simpl.
  - exact (castVote_keeps_options_of_poll s req now Hs).
  - apply perform_retract_options_valid, Hs.
Qed.

Lemma cast_and_retract_keep_options_valid_witness :
  let ops := [CastVote (cast_req "alice" "yes") 1500; CastVote (cast_req "bob" "maybe") 1600;
              CastVote (cast_req "carol" "no") 1700; RetractVote (delete_req "alice") 1800] in
  options_valid sample_store
  /\ options_valid (perform_all ops sample_store)
  /\ List.map selectedOption (votes (perform_all ops sample_store)) = ["no"].
Proof.
  cbv zeta.
  assert (H : options_valid sample_store) by (intros v []).
  split; [exact H|]. split; [|reflexivity].
  exact (cast_and_retract_keep_options_valid sample_store _ H).
Defined.
